(** * Calendar assistant: a shallow embedding of the processing pipeline

    The development follows the Python services of the repository:
    - [app/core/schemas.py]         → [Schemas]
    - [app/services/recommender.py] → [Recommender]
    - [app/services/importer.py]    → [Importer]
    - [app/services/enricher.py]    → [Enricher]
    - [app/services/analyzer.py]    → [Analyzer]
    - [app/core/db.py], [app/services/fs_cache.py] → [Cache]

    Instants.  A Python [datetime] is modelled by the number of microseconds
    since 0001-01-01T00:00 on one common wall-clock time line (all values
    carry the service's time zone, taken with a fixed UTC offset), so
    comparison of two aware datetimes is comparison of integers,
    [timedelta] arithmetic is integer addition and [.date()] is the day
    number of the instant (day 0 is [date.min], a Monday).  Range errors of
    [datetime] arithmetic (years outside 1..9999) are not modelled.
    The events of a recommendation request may carry other UTC offsets
    than the service's zone; the recommender reads [.date()] of values
    taken from them, so there the offset is kept beside the instant
    ([Clock.aware]).  The enricher subtracts the start of an event from
    its end, which raises when one is naive and the other aware, so there
    the awareness of the two is kept beside the readings.

    Library calls.  Functions of third-party and standard libraries whose
    result the services only pass along ([dateutil.parser.parse],
    [rrule.rrulestr], [Calendar.from_ical], [hashlib], [json.dumps],
    [str.lower], [statistics.stdev]) are Section variables; the loops the
    services rely on ([rrule.between], [statistics.median], the sorts) are
    written out. *)

From Stdlib Require Import ZArith List Lia Bool Sorted Ascii String.
From Stdlib Require Import Floats Uint63 DecimalString QArith.
From stdpp Require Import base option list sorting gmap strings.

Open Scope Z_scope.

(** * Part I: the embedding *)

(** ** datetime / timedelta *)

Module Clock.

(** Both are integers (microseconds); the names are kept for reading. *)
Abbreviation datetime := Z (only parsing).
Abbreviation timedelta := Z (only parsing).

Definition usec_per_minute : Z := 60000000.
Definition usec_per_hour : Z := 3600000000.
Definition usec_per_day : Z := 86400000000.

(** [timedelta(minutes=n)], [timedelta(hours=n)], [timedelta(days=n)] *)
Definition minutes (n : Z) : timedelta := n * usec_per_minute.
Definition hours (n : Z) : timedelta := n * usec_per_hour.
Definition days (n : Z) : timedelta := n * usec_per_day.

(** [dt.date()], as a day number; [dt.hour]; [dt.minute] *)
Definition date_of (t : datetime) : Z := t / usec_per_day.
Definition hour_of (t : datetime) : Z := (t mod usec_per_day) / usec_per_hour.
Definition minute_of (t : datetime) : Z := (t mod usec_per_hour) / usec_per_minute.

(** [datetime.min.time().replace(hour=h)]: the time of day [h:00], as an
    offset from midnight.  Python raises [ValueError] unless [0 <= h <= 23]. *)
Definition time_replace_hour (h : Z) : option timedelta :=
  if (0 <=? h) && (h <=? 23) then Some (hours h) else None.

(** [datetime.combine(d, t, tzinfo=tz)] *)
Definition combine (d : Z) (t : timedelta) : datetime := days d + t.

(** [dt.weekday()]: Monday is 0. *)
Definition weekday (t : datetime) : Z := date_of t mod 7.

(** The instant [h:m] of day [d]; used to write examples. *)
Definition at_time (d h m : Z) : datetime := days d + hours h + minutes m.

(** [datetime.min] and [datetime.max] *)
Definition datetime_min : datetime := 0.
Definition datetime_max : datetime := days 3652059 - 1.

(** An aware [datetime] object with its [tzinfo], taken with a fixed UTC
    offset (as of a datetime parsed from a text with offset): [instant]
    is its reading on the time line and [offset] the UTC offset of its
    own [tzinfo] less that of the time line's zone.  Comparison and
    subtraction go by the instant; [date()] is read on the object's own
    clock. *)
Record aware := mkAware { instant : datetime; offset : timedelta }.

(** [dt.date()] of an aware datetime, as a day number *)
Definition local_date (t : aware) : Z := date_of (instant t + offset t).

(** [max(a, b)] on aware datetimes: of two equal instants the first. *)
Definition max_aware (a b : aware) : aware :=
  if instant a <? instant b then b else a.

End Clock.

(** ** Python floats

    A Python [float] is a binary64 number: Rocq's primitive [float]. *)

Module PyFloat.

(** [float(n)] for an integer [0 <= n < 2^53] *)
Definition of_Z (n : Z) : float := PrimFloat.of_uint63 (Uint63.of_Z n).

(** [int(x)]: truncation toward zero ([nan] and infinities raise in
    Python and are mapped to 0 here). *)
Definition trunc (x : float) : Z :=
  match Prim2SF x with
  | S754_finite s m e =>
      let v := if 0 <=? e then Z.pos m * 2 ^ e else Z.pos m / 2 ^ (- e) in
      if s then - v else v
  | _ => 0
  end.

(** [x % 1] for [0 <= x < 2^53]: the fractional part, which is exact. *)
Definition mod1 (x : float) : float := (x - of_Z (trunc x))%float.

(** [min(a, b)] and [max(a, b)] as the builtins compare *)
Definition min (a b : float) : float := if (b <? a)%float then b else a.
Definition max (a b : float) : float := if (a <? b)%float then b else a.

(** [f"{n:02d}"] *)
Definition fmt_02d (n : Z) : string :=
  let digits := NilZero.string_of_int (Z.to_int n) in
  if (String.length digits <? 2)%nat then "0" +:+ digits else digits.

(** [list.sort()] on floats (stable insertion sort) *)
Fixpoint insert_float (x : float) (l : list float) : list float :=
  match l with
  | [] => [x]
  | y :: l' => if (x <=? y)%float then x :: l else y :: insert_float x l'
  end.

Definition sort_floats (l : list float) : list float :=
  foldr insert_float [] l.

End PyFloat.

(** ** app/core/schemas.py *)

Module Schemas.
Import Clock.

Inductive EventType :=
| WORK | STUDY | HEALTH | HOUSEHOLD | FAMILY | CREATIVE | TRAVEL | LEISURE
| ROUTINE | OTHER.

Inductive PriorityType := REGULAR | HIGH.

(** [Event]: the normalized event.  [ev_from_recurring] and [ev_all_day]
    stand for the private attributes [_from_recurring] and [_all_day] that
    the importer sets on some events. *)
Record Event := mkEvent {
  ev_calendar : string;
  ev_start : datetime;
  ev_end : datetime;
  ev_summary : string;
  ev_description : string;
  ev_attendees : list string;
  ev_from_recurring : bool;
  ev_all_day : bool
}.

(** [EnrichedEvent(Event)]: the fields the analyzer and the recommender
    read ([enrich_attrs] is read by neither). *)
Record EnrichedEvent := mkEnriched {
  en_event : Event;
  en_event_type : EventType;
  en_priority_type : PriorityType
}.

Definition en_start (e : EnrichedEvent) : datetime := ev_start (en_event e).
Definition en_end (e : EnrichedEvent) : datetime := ev_end (en_event e).

Record TimeSlot := mkSlot { slot_start : datetime; slot_end : datetime }.

(** [TimeWindow]: "HH:MM" strings, a confidence and a sample size. *)
Record TimeWindow := mkWindow {
  tw_start : string;
  tw_end : string;
  tw_confidence : float;
  tw_sample_size : nat
}.

(** [UserQuery] *)
Record UserQuery := mkQuery {
  q_summary : string;
  q_duration_min : Z;
  q_event_type : option EventType;
  q_priority_type : PriorityType;
  q_preferred_time : option string
}.

(** [SlotRecommendation] *)
Record SlotRecommendation := mkRecommendation {
  rec_slot : TimeSlot;
  rec_score : float;
  rec_rationale : list string
}.

(** [RecommendRequest]; [history_habits] holds the [default_windows] of
    the habit profile, the only part the recommender reads. *)
Record RecommendRequest := mkRecommendRequest {
  user_query : UserQuery;
  enriched_events : list EnrichedEvent;
  history_habits : option (list (EventType * TimeWindow));
  search_days : Z;
  max_alternatives : Z
}.

(** [RecommendResponse] *)
Record RecommendResponse := mkRecommendResponse {
  recommendation : SlotRecommendation;
  alternatives : list SlotRecommendation;
  conflicts_found : list string;
  search_stats : list (string * Z)
}.

End Schemas.

(** ** app/services/recommender.py: free-slot generation *)

Module Recommender.
Import Clock Schemas.

(** The part of [settings] that [RecommenderService.__init__] reads. *)
Record Settings := mkSettings {
  work_day_start : Z;
  work_day_end : Z;
  event_buffer_before : Z;
  event_buffer_after : Z
}.

Definition default_settings : Settings :=
  {| work_day_start := 7; work_day_end := 23;
     event_buffer_before := 10; event_buffer_after := 10 |}.

(** A busy interval: the two aware datetimes [(busy_start, busy_end)]. *)
Definition interval : Type := aware * aware.

(** [busy_intervals.sort(key=lambda x: x[0])]: a stable sort on the start. *)
Fixpoint insert_by_start (x : interval) (l : list interval) : list interval :=
  match l with
  | [] => [x]
  | y :: l' =>
      if instant x.1 <=? instant y.1 then x :: l
      else y :: insert_by_start x l'
  end.

Definition sort_by_start (l : list interval) : list interval :=
  foldr insert_by_start [] l.

(** The merge loop.  The accumulator is [merged_busy] in reverse, so that
    its head is [merged_busy[-1]]. *)
Definition merge_step (merged_rev : list interval) (iv : interval)
    : list interval :=
  match merged_rev with
  | last :: before =>
      if instant iv.1 <=? instant last.2
      then (last.1, max_aware last.2 iv.2) :: before
      else iv :: merged_rev
  | [] => [iv]
  end.

Definition merge_intervals (sorted : list interval) : list interval :=
  reverse (fold_left merge_step sorted []).

(** The loop over [merged_busy] for one day: the slots appended and the
    final value of [current_time].  The day filter reads [date()] of the
    two bounds, each on its own clock; [current_time] and the slots are
    kept as instants, no [date()] of theirs being read. *)
Fixpoint walk_busy (current_date : Z) (duration_td : timedelta)
    (current_time : datetime) (merged : list interval)
    : list TimeSlot * datetime :=
  match merged with
  | [] => ([], current_time)
  | (busy_start, busy_end) :: rest =>
      if (local_date busy_start <=? current_date)
         && (current_date <=? local_date busy_end)
      then
        let emitted :=
          if (current_time <? instant busy_start)
             && (duration_td <=? instant busy_start - current_time)
          then [mkSlot current_time
                       (Z.min (current_time + duration_td)
                              (instant busy_start))]
          else [] in
        let '(more, final) :=
          walk_busy current_date duration_td
                    (Z.max current_time (instant busy_end)) rest in
        (emitted ++ more, final)
      else walk_busy current_date duration_td current_time rest
  end.

(** The body of [for day in range(days_ahead)]: the slots of one day.
    [None] is the [ValueError] of [time.replace]. *)
Definition day_slots (cfg : Settings) (merged : list interval)
    (start_from : datetime) (duration_td : timedelta) (day : Z)
    : option (list TimeSlot) :=
  let current_date := date_of start_from + day in
  t_start ← time_replace_hour (work_day_start cfg);
  let day_start :=
    if day =? 0
    then Z.max (start_from + minutes 30) (combine current_date t_start)
    else combine current_date t_start in
  t_end ← time_replace_hour (work_day_end cfg);
  let day_end := combine current_date t_end in
  let '(slots, current_time) :=
    walk_busy current_date duration_td day_start merged in
  Some (slots ++
        if (current_time <? day_end)
           && (duration_td <=? day_end - current_time)
        then [mkSlot current_time (current_time + duration_td)]
        else []).

Section WithTzinfo.

(** [event.start.utcoffset()] and [event.end.utcoffset()], each less the
    UTC offset of the time line, which is the clock of [start_from]: the
    fields of [EnrichedEvent] hold the instants, and these two tell on
    which clock the objects [event.start] and [event.end] read their
    [date()].  The datetimes of the events are aware, as [start_from]
    is. *)
Variable start_offset : EnrichedEvent -> timedelta.
Variable end_offset : EnrichedEvent -> timedelta.

(** The inflated interval of one event; [timedelta] arithmetic keeps the
    [tzinfo]. *)
Definition inflate (cfg : Settings) (e : EnrichedEvent) : interval :=
  (mkAware (en_start e - minutes (event_buffer_before cfg)) (start_offset e),
   mkAware (en_end e + minutes (event_buffer_after cfg)) (end_offset e)).

(** First loop of [_generate_free_slots]: one busy interval for every
    event with [event.start >= start_from]. *)
Fixpoint busy_intervals (cfg : Settings) (start_from : datetime)
    (events : list EnrichedEvent) : list interval :=
  match events with
  | [] => []
  | event :: rest =>
      if start_from <=? en_start event
      then inflate cfg event :: busy_intervals cfg start_from rest
      else busy_intervals cfg start_from rest
  end.

Definition merged_busy (cfg : Settings) (start_from : datetime)
    (events : list EnrichedEvent) : list interval :=
  merge_intervals (sort_by_start (busy_intervals cfg start_from events)).

(** [_generate_free_slots(events, start_from, days_ahead, duration_min)] *)
Definition generate_free_slots (cfg : Settings) (events : list EnrichedEvent)
    (start_from : datetime) (days_ahead : Z) (duration_min : Z)
    : option (list TimeSlot) :=
  let duration_td := minutes duration_min in
  let merged := merged_busy cfg start_from events in
  per_day ← mapM (day_slots cfg merged start_from duration_td)
                 (seqZ 0 days_ahead);
  Some (concat per_day).

(** [SlotRecommendation(slot=.., score=.., rationale=..)]: the model
    validates [0 <= score <= 1] and raises otherwise. *)
Definition make_recommendation (slot : TimeSlot) (score : float)
    (rationale : list string) : option SlotRecommendation :=
  if ((0 <=? score) && (score <=? 1))%float
  then Some (mkRecommendation slot score rationale)
  else None.

Definition scored : Type := TimeSlot * float * list string.

(** [scored_slots.sort(key=lambda x: x[1], reverse=True)]: descending,
    ties in their original order. *)
Fixpoint insert_scored (x : scored) (l : list scored) : list scored :=
  match l with
  | [] => [x]
  | y :: l' =>
      if (y.1.2 <=? x.1.2)%float then x :: l else y :: insert_scored x l'
  end.

Definition sort_scored (l : list scored) : list scored :=
  foldr insert_scored [] l.

(** [l[1:stop]] *)
Definition slice_from_1 {A} (l : list A) (stop : Z) : list A :=
  let stop := if 0 <=? stop then stop else Z.max 0 (Z.of_nat (length l) + stop) in
  take (Z.to_nat (stop - 1)) (drop 1 l).

Section WithScoring.

(** [_score_slot(slot, query, history_habits, existing_events)] and
    [_check_conflicts(slot, events)]; [now] is the reading of the clock
    in [recommend_slot]. *)
Variable score_slot :
  TimeSlot -> UserQuery -> option (list (EventType * TimeWindow)) ->
  list EnrichedEvent -> float * list string.
Variable check_conflicts : TimeSlot -> list EnrichedEvent -> list string.

(** [recommend_slot(request)]; [None] when it raises.  The call of
    [log_layer_result], which swallows its own exceptions, is left out. *)
Definition recommend_slot (cfg : Settings) (request : RecommendRequest)
    (now : datetime) : option RecommendResponse :=
  free_slots ← generate_free_slots cfg (enriched_events request) now
                  (search_days request) (q_duration_min (user_query request));
  match free_slots with
  | [] =>
      best ← make_recommendation (mkSlot now now) 0
               ["Не найдено свободных слотов"];
      Some {| recommendation := best;
              alternatives := [];
              conflicts_found := ["Календарь полностью занят"];
              search_stats := [("slots_found", 0)] |}
  | _ :: _ =>
      let scored_slots :=
        sort_scored
          ((fun slot =>
              let '(score, rationale) :=
                score_slot slot (user_query request) (history_habits request)
                           (enriched_events request) in
              (slot, score, rationale)) <$> free_slots) in
      match scored_slots with
      | [] => None
      | (best_slot, best_score, best_rationale) :: _ =>
          best ← make_recommendation best_slot best_score best_rationale;
          alts ← mapM (fun x : scored => make_recommendation x.1.1 x.1.2 x.2)
                      (slice_from_1 scored_slots
                                    (max_alternatives request + 1));
          Some {| recommendation := best;
                  alternatives := alts;
                  conflicts_found :=
                    check_conflicts best_slot (enriched_events request);
                  search_stats :=
                    [("slots_found", Z.of_nat (length free_slots));
                     ("slots_evaluated", Z.of_nat (length scored_slots));
                     ("search_days", search_days request);
                     ("duration_requested",
                      q_duration_min (user_query request))] |}
      end
  end.

End WithScoring.

End WithTzinfo.

End Recommender.

(** ** app/services/importer.py *)

Module Importer.
Import Clock Schemas.

(** [RawEvent] *)
Record RawEvent := mkRaw {
  raw_calendar : string;
  raw_start : string;
  raw_end : string;
  raw_summary : string;
  raw_description : option string;
  raw_attendees : list string;
  raw_rrule : option string;
  raw_all_day : option bool
}.

(** What [icalendar] hands to [_parse_ics] for one component: the value
    of a DTSTART/DTEND property is a [date] or a [datetime]. *)
Inductive ical_time :=
| ICalDate (d : Z)
| ICalDateTime (t : datetime).

(** A VEVENT: [ve_attendees] is the list the ATTENDEE loop builds,
    [ve_rrule] the text [rrule_data.to_ical().decode()]. *)
Record VEvent := mkVEvent {
  ve_summary : string;
  ve_description : string;
  ve_attendees : list string;
  ve_dtstart : option ical_time;
  ve_dtend : option ical_time;
  ve_rrule : option string
}.

Inductive component :=
| VEVENT (v : VEvent)
| OtherComponent.

(** A parsed calendar: [X-WR-CALNAME] and the components of [cal.walk()]. *)
Record ICalendar := mkCalendar {
  cal_name : option string;
  cal_components : list component
}.

(** [ImportRequest] *)
Record ImportRequest := mkImportRequest {
  ics_content : option string;
  req_events : option (list RawEvent);
  req_timezone : string;
  expand_recurring : bool;
  horizon_days : Z;
  days_limit : option Z
}.

(** [_intersects]: interval intersection, end exclusive. *)
Definition intersects (start_dt end_dt window_start window_end : datetime)
    : bool :=
  (window_start <? end_dt) && (start_dt <? window_end).

(** [window_start <= e.start <= window_end] *)
Definition start_in_window (window_start window_end : datetime) (e : Event)
    : bool :=
  (window_start <=? ev_start e) && (ev_start e <=? window_end).

(** [rrulebase.between(after, before, inc=False)] of dateutil, over the
    occurrences the rule iterates ([gen], in iteration order). *)
Fixpoint between_loop (after before : datetime) (started : bool)
    (gen : list datetime) : list datetime :=
  match gen with
  | [] => []
  | i :: rest =>
      if before <=? i then []
      else if started then i :: between_loop after before true rest
      else if after <? i then i :: between_loop after before true rest
      else between_loop after before false rest
  end.

Definition between (gen : list datetime) (after before : datetime)
    : list datetime :=
  between_loop after before false gen.

(** [_normalize_datetime(dt, default_tz)] *)
Definition normalize_datetime (dt : ical_time) : datetime :=
  match dt with
  | ICalDateTime t => t
  | ICalDate d => combine d 0
  end.

(** The day of a [date] or [datetime], as [datetime.combine] reads it. *)
Definition ical_day (dt : ical_time) : Z :=
  match dt with
  | ICalDate d => d
  | ICalDateTime t => date_of t
  end.

Section WithLibraries.

(** [dateutil.parser.parse] followed by the default time zone: the instant
    a text denotes, [None] when parsing raises. *)
Variable parser_parse : string -> option datetime.

(** [rrule.rrulestr(text, dtstart=start)]: the occurrences the parsed rule
    iterates, in order; [None] when the text does not parse. *)
Variable rrulestr : string -> datetime -> option (list datetime).

(** [Calendar.from_ical]; [None] when it raises. *)
Variable from_ical : string -> option ICalendar.

(** [datetime.isoformat] and [hashlib.md5(..).hexdigest()] *)
Variable isoformat : datetime -> string.
Variable md5_hexdigest : string -> string.

(** [_parse_datetime_string] *)
Definition parse_datetime_string (dt_str : string) : option datetime :=
  if String.eqb dt_str "" then None else parser_parse dt_str.

(** [_normalize_event] *)
Definition normalize_event (raw_event : RawEvent) : option Event :=
  start_dt ← parse_datetime_string (raw_start raw_event);
  end_dt ← parse_datetime_string (raw_end raw_event);
  let end_dt := if end_dt <=? start_dt then start_dt + hours 1 else end_dt in
  Some {| ev_calendar := raw_calendar raw_event;
          ev_start := start_dt;
          ev_end := end_dt;
          ev_summary := raw_summary raw_event;
          ev_description := default "" (raw_description raw_event);
          ev_attendees := raw_attendees raw_event;
          ev_from_recurring := false;
          ev_all_day := default false (raw_all_day raw_event) |}.

(** [_expand_rrule] *)
Definition expand_rrule (rrule_data : string) (start_dt end_dt : datetime)
    (window_start window_end : datetime) (summary description calendar : string)
    (attendees : list string) (is_all_day : bool) : list Event :=
  let duration := end_dt - start_dt in
  match rrulestr rrule_data start_dt with
  | Some rule =>
      (fun occurrence =>
         {| ev_calendar := calendar;
            ev_start := occurrence;
            ev_end := occurrence + duration;
            ev_summary := summary;
            ev_description := description;
            ev_attendees := attendees;
            ev_from_recurring := true;
            ev_all_day := is_all_day |})
      <$> between rule window_start window_end
  | None =>
      if intersects start_dt end_dt window_start window_end
      then [ {| ev_calendar := calendar;
                ev_start := start_dt;
                ev_end := end_dt;
                ev_summary := summary;
                ev_description := description;
                ev_attendees := attendees;
                ev_from_recurring := false;
                ev_all_day := is_all_day |} ]
      else []
  end.

(** The start and end [_parse_ics] computes for a VEVENT.  An all-day
    event (DTSTART is a [date]) runs from midnight to the midnight of
    DTEND, or for one day; a timed event to DTEND, or for one hour. *)
Definition is_all_day (dtstart : ical_time) : bool :=
  match dtstart with ICalDate _ => true | ICalDateTime _ => false end.

Definition vevent_start (dtstart : ical_time) : datetime :=
  if is_all_day dtstart then combine (ical_day dtstart) 0
  else normalize_datetime dtstart.

Definition vevent_end (dtstart : ical_time) (dtend : option ical_time)
    : datetime :=
  if is_all_day dtstart then
    match dtend with
    | Some dtend => combine (ical_day dtend) 0
    | None => vevent_start dtstart + days 1
    end
  else
    match dtend with
    | Some dtend => normalize_datetime dtend
    | None => vevent_start dtstart + hours 1
    end.

(** The body of the loop of [_parse_ics] for one VEVENT: the events it
    adds. *)
Definition parse_vevent (calendar_name : string) (expand : bool)
    (window_start window_end : datetime) (v : VEvent) : list Event :=
  match ve_dtstart v with
  | None => []
  | Some dtstart =>
      let start_dt := vevent_start dtstart in
      let end_dt := vevent_end dtstart (ve_dtend v) in
      match ve_rrule v, expand with
      | Some rrule_data, true =>
          expand_rrule rrule_data start_dt end_dt window_start window_end
                       (ve_summary v) (ve_description v) calendar_name
                       (ve_attendees v) (is_all_day dtstart)
      | _, _ =>
          if negb (intersects start_dt end_dt window_start window_end)
          then []
          else
            let event :=
              {| ev_calendar := calendar_name;
                 ev_start := start_dt;
                 ev_end := end_dt;
                 ev_summary := ve_summary v;
                 ev_description := ve_description v;
                 ev_attendees := ve_attendees v;
                 ev_from_recurring := false;
                 ev_all_day := is_all_day dtstart |} in
            if start_in_window window_start window_end event
            then [event] else []
      end
  end.

(** [_parse_ics]; a calendar that does not parse gives no event. *)
Definition parse_ics (content : string) (expand : bool)
    (window_start window_end : datetime) : list Event :=
  match from_ical content with
  | None => []
  | Some cal =>
      let calendar_name := default "Calendar" (cal_name cal) in
      concat
        ((fun c =>
            match c with
            | VEVENT v =>
                parse_vevent calendar_name expand window_start window_end v
            | OtherComponent => []
            end) <$> cal_components cal)
  end.

(** The body of the loop over [request.events] for one raw event. *)
Definition import_raw_event (expand : bool)
    (window_start window_end : datetime) (raw_event : RawEvent) : list Event :=
  match normalize_event raw_event with
  | None => []
  | Some normalized =>
      match raw_rrule raw_event with
      | Some rrule_data =>
          if negb (String.eqb rrule_data "") && expand
          then expand_rrule rrule_data (ev_start normalized)
                 (ev_end normalized) window_start window_end
                 (ev_summary normalized) (ev_description normalized)
                 (ev_calendar normalized) (ev_attendees normalized)
                 (default false (raw_all_day raw_event))
          else if start_in_window window_start window_end normalized
               then [normalized] else []
      | None =>
          if start_in_window window_start window_end normalized
          then [normalized] else []
      end
  end.

(** [_get_event_hash] *)
Definition get_event_hash (event : Event) : string :=
  md5_hexdigest
    (ev_calendar event +:+ "|" +:+ isoformat (ev_start event) +:+ "|"
     +:+ isoformat (ev_end event) +:+ "|" +:+ ev_summary event).

(** [_deduplicate_events]: the loop, with the set [seen]. *)
Fixpoint dedup_loop (seen : gset string) (events : list Event)
    : list Event :=
  match events with
  | [] => []
  | event :: rest =>
      let event_hash := get_event_hash event in
      if decide (event_hash ∈ seen)
      then dedup_loop seen rest
      else event :: dedup_loop ({[event_hash]} ∪ seen) rest
  end.

Definition deduplicate_events (events : list Event) : list Event :=
  dedup_loop ∅ events.

(** [events.sort(key=lambda e: e.start)]: stable. *)
Fixpoint insert_event (e : Event) (l : list Event) : list Event :=
  match l with
  | [] => [e]
  | y :: l' =>
      if ev_start e <=? ev_start y then e :: l else y :: insert_event e l'
  end.

Definition sort_events (l : list Event) : list Event :=
  foldr insert_event [] l.

(** The analysis window of [_compute_import], from the clock reading. *)
Definition import_window (now : datetime) (limit : option Z)
    : datetime * datetime :=
  let week_start := combine (date_of now - weekday now) 0 in
  match limit with
  | None => (datetime_min, datetime_max)
  | Some n => (week_start - days n, week_start + days (7 + n))
  end.

(** [_compute_import]: the events of the response (the statistics are
    counts over this list). *)
Definition compute_import (request : ImportRequest) (now : datetime)
    : list Event :=
  let '(window_start, window_end) := import_window now (days_limit request) in
  let from_ics :=
    match ics_content request with
    | Some content =>
        if String.eqb content "" then []
        else parse_ics content (expand_recurring request)
                       window_start window_end
    | None => []
    end in
  let from_raw :=
    match req_events request with
    | Some raws =>
        concat (import_raw_event (expand_recurring request)
                                 window_start window_end <$> raws)
    | None => []
    end in
  let events := from_ics ++ from_raw in
  let events := List.filter (start_in_window window_start window_end) events in
  sort_events (deduplicate_events events).

End WithLibraries.

End Importer.

(** ** app/services/enricher.py: priority *)

Module Enricher.
Import Clock Schemas.

(** [needle in hay] on Python strings.  Strings are UTF-8 byte sequences
    here; a match of whole code points is a match of their bytes. *)
Fixpoint is_prefix (p s : string) : bool :=
  match p, s with
  | EmptyString, _ => true
  | String a p', String b s' => if Ascii.eqb a b then is_prefix p' s' else false
  | String _ _, EmptyString => false
  end.

Fixpoint contains (needle hay : string) : bool :=
  is_prefix needle hay ||
  match hay with
  | EmptyString => false
  | String _ hay' => contains needle hay'
  end.

(** [PRIORITY_KEYWORDS["high"]] of app/core/config.py *)
Definition PRIORITY_KEYWORDS_high : list string :=
  [ "срочно"; "важно"; "критично"; "дедлайн"; "обязательно";
    "urgent"; "important"; "critical"; "deadline"; "must";
    "asap"; "emergency"; "priority" ].

(** [str.lower] on ASCII text; it instantiates [lower] in examples whose
    text is ASCII. *)
Definition ascii_lower_char (c : ascii) : ascii :=
  let n := nat_of_ascii c in
  if ((65 <=? n) && (n <=? 90))%nat then ascii_of_nat (n + 32) else c.

Fixpoint ascii_lower (s : string) : string :=
  match s with
  | EmptyString => EmptyString
  | String c s' => String (ascii_lower_char c) (ascii_lower s')
  end.

Section WithLower.

(** [str.lower] *)
Variable lower : string -> string.

(** [text = f"{event.summary} {event.description}".lower()] *)
Definition event_text (event : Event) : string :=
  lower (ev_summary event +:+ " " +:+ ev_description event).

(** [_determine_priority] *)
Definition determine_priority (event : Event) : PriorityType :=
  let text := event_text event in
  if existsb (fun keyword => contains (lower keyword) text)
             PRIORITY_KEYWORDS_high
  then HIGH
  else if (5 <? length (ev_attendees event))%nat then HIGH
  else
    let hour := hour_of (ev_start event) in
    if ((hour <? 8) || (20 <? hour))
       && negb (contains "рутин" text) && negb (contains "routine" text)
    then HIGH
    else REGULAR.

End WithLower.

End Enricher.

(** ** app/services/analyzer.py: time windows *)

Module Analyzer.
Import Clock Schemas.

#[global] Instance EventType_eq_dec : EqDecision EventType.
Proof. solve_decision. Defined.

(** The members of [EventType], in declaration order. *)
Definition all_event_types : list EventType :=
  [WORK; STUDY; HEALTH; HOUSEHOLD; FAMILY; CREATIVE; TRAVEL; LEISURE;
   ROUTINE; OTHER].

(** [settings.default_time_windows], keyed by the member *)
Definition default_time_windows (t : EventType) : string * string :=
  match t with
  | WORK => ("09:00", "18:00")
  | STUDY => ("19:00", "21:00")
  | HEALTH => ("07:00", "09:00")
  | HOUSEHOLD => ("10:00", "12:00")
  | FAMILY => ("18:00", "22:00")
  | CREATIVE => ("20:00", "22:00")
  | TRAVEL => ("08:00", "20:00")
  | LEISURE => ("19:00", "23:00")
  | ROUTINE => ("07:00", "08:00")
  | OTHER => ("09:00", "21:00")
  end.

(** [dt.hour + dt.minute / 60] *)
Definition hour_value (t : datetime) : float :=
  (PyFloat.of_Z (hour_of t) + PyFloat.of_Z (minute_of t) / 60)%float.

(** [f"{int(x):02d}:{int((x % 1) * 60):02d}"] *)
Definition format_hhmm (x : float) : string :=
  PyFloat.fmt_02d (PyFloat.trunc x) +:+ ":" +:+
  PyFloat.fmt_02d (PyFloat.trunc (PyFloat.mod1 x * 60)%float).

(** [statistics.median]; the list is not empty where it is called. *)
Definition median (data : list float) : float :=
  let data := PyFloat.sort_floats data in
  let n := length data in
  if Nat.even n
  then ((nth (n / 2 - 1) data 0 + nth (n / 2) data 0) / 2)%float
  else nth (n / 2) data 0%float.

Section WithStatistics.

(** [statistics.stdev] *)
Variable stdev : list float -> float.

(** [_calculate_time_window]; the literal [0x1.3333333333333p-2] is the
    binary64 value of [0.3]. *)
Definition calculate_time_window (events : list EnrichedEvent) : TimeWindow :=
  match events with
  | [] => mkWindow "09:00" "17:00" 0 0
  | _ :: _ =>
      let start_hours := (fun e => hour_value (en_start e)) <$> events in
      let end_hours := (fun e => hour_value (en_end e)) <$> events in
      let n := length start_hours in
      if (3 <=? n)%nat then
        let start_hours := PyFloat.sort_floats start_hours in
        let end_hours := PyFloat.sort_floats end_hours in
        let q1_idx := (length start_hours / 4)%nat in
        let q3_idx := (3 * length end_hours / 4)%nat in
        let window_start := nth q1_idx start_hours 0%float in
        let window_end := nth q3_idx end_hours 0%float in
        let window_end :=
          if (window_end - window_start <? 1)%float
          then (window_start + 1)%float else window_end in
        let std_start := stdev start_hours in
        let std_end := stdev end_hours in
        mkWindow (format_hhmm window_start) (format_hhmm window_end)
          (PyFloat.max 0 (PyFloat.min 1 (2 - (std_start + std_end) / 2)))
          (length events)
      else
        mkWindow (format_hhmm (median start_hours))
                 (format_hhmm (median end_hours))
                 0x1.3333333333333p-2 (length events)
  end.

(** [events_by_type[event_type]] *)
Definition events_of_type (t : EventType) (events : list EnrichedEvent)
    : list EnrichedEvent :=
  filter (fun e => en_event_type e = t) events.

(** [_analyze_time_windows]: the dictionary, as its items in insertion
    order. *)
Definition analyze_time_windows (events : list EnrichedEvent)
    (min_sample_size : Z) : list (EventType * TimeWindow) :=
  (fun event_type =>
     let type_events := events_of_type event_type events in
     (event_type,
      if min_sample_size <=? Z.of_nat (length type_events)
      then calculate_time_window type_events
      else
        let default := default_time_windows event_type in
        mkWindow default.1 default.2 0 (length type_events)))
  <$> all_event_types.

(** [windows[event_type]] *)
Definition window_of (windows : list (EventType * TimeWindow))
    (t : EventType) : option TimeWindow :=
  (fun found => found.2.2) <$> list_find (fun kv => kv.1 = t) windows.

End WithStatistics.

End Analyzer.

(** ** Cache keys: app/core/db.py, app/services/cache.py,
       app/services/fs_cache.py *)

Module Cache.
Import Schemas Importer.

(** JSON-safe data: what [to_json_safe] returns for the dictionaries the
    services hash (no float occurs in them). *)
#[local] Unset Elimination Schemes.
Inductive json :=
| JNull
| JBool (b : bool)
| JInt (n : Z)
| JString (s : string)
| JList (items : list json)
| JDict (items : list (string * json)).
#[local] Set Elimination Schemes.

Definition json_option {A} (f : A -> json) (o : option A) : json :=
  match o with Some a => f a | None => JNull end.

(** [event.model_dump()] of a [RawEvent] *)
Definition raw_event_dump (r : RawEvent) : json :=
  JDict [ ("calendar", JString (raw_calendar r));
          ("start", JString (raw_start r));
          ("end", JString (raw_end r));
          ("summary", JString (raw_summary r));
          ("description", json_option JString (raw_description r));
          ("attendees", JList (JString <$> raw_attendees r));
          ("rrule", json_option JString (raw_rrule r));
          ("all_day", json_option JBool (raw_all_day r)) ].

(** [cache_input] of [ImporterService.import_events] *)
Definition import_cache_input (request : ImportRequest) : json :=
  JDict [ ("ics_content", json_option JString (ics_content request));
          ("events",
           match req_events request with
           | Some (r :: rs) => JList (raw_event_dump <$> (r :: rs))
           | _ => JNull
           end);
          ("timezone", JString (req_timezone request));
          ("expand_recurring", JBool (expand_recurring request));
          ("horizon_days", JInt (horizon_days request));
          ("days_limit", json_option JInt (days_limit request)) ].

(** The module constants a key computation can read. *)
Record Globals := mkGlobals { PIPELINE_VERSION : string }.

Definition repository_globals : Globals :=
  {| PIPELINE_VERSION := "2025-08-14" |}.

(** [params] of the flow endpoint, as [compute_cache_key] reads them with
    [params.get]. *)
Record FlowParams := mkFlowParams {
  fp_timezone : option string;
  fp_expand_recurring : bool;
  fp_horizon_days : option Z;
  fp_days_limit : option Z;
  fp_use_llm : bool
}.

(** The normalized ["params"] entry of the payload. *)
Definition normalized_params (params : FlowParams) : json :=
  JDict [ ("timezone", json_option JString (fp_timezone params));
          ("expand_recurring", JBool (fp_expand_recurring params));
          ("horizon_days", JInt (default 0 (fp_horizon_days params)));
          ("days_limit", JInt (default 0 (fp_days_limit params)));
          ("use_llm", JBool (fp_use_llm params)) ].

Section WithHashlib.

(** [hashlib.sha256(text.encode("utf-8")).hexdigest()] and
    [json.dumps(data, sort_keys=True, ensure_ascii=False)] *)
Variable sha256_hexdigest : string -> string.
Variable json_dumps : json -> string.

(** [create_hash] of app/core/db.py *)
Definition create_hash (data : json) : string :=
  sha256_hexdigest (json_dumps data).

(** The key of a pipeline stage's cache entry,
    [input_hash = create_hash(input_data)] in [CacheService]. *)
Definition stage_input_hash (g : Globals) (input_data : json) : string :=
  create_hash input_data.

(** The payload [compute_cache_key] hashes. *)
Definition cache_key_payload (g : Globals) (ics : string)
    (params : FlowParams) : json :=
  JDict [ ("v", JString (PIPELINE_VERSION g));
          ("ics", JString (sha256_hexdigest ics));
          ("params", normalized_params params) ].

(** [compute_cache_key] of app/services/fs_cache.py *)
Definition compute_cache_key (g : Globals) (ics : string)
    (params : FlowParams) : string :=
  String.substring 0 32
    (sha256_hexdigest (json_dumps (cache_key_payload g ics params))).

End WithHashlib.

End Cache.

Module Patterns.
Import Clock.

(** [list.sort()] and [sorted] on instants and on integers: ascending. *)
Fixpoint insert_sorted (x : Z) (l : list Z) : list Z :=
  match l with
  | [] => [x]
  | y :: l' => if x <=? y then x :: l else y :: insert_sorted x l'
  end.

Definition sorted (l : list Z) : list Z := foldr insert_sorted [] l.

(** [timedelta.days]: whole days, rounded down. *)
Definition td_days (td : timedelta) : Z := td / usec_per_day.

(** [for i in range(1, len(dates)): (dates[i] - dates[i-1]).days] *)
Fixpoint day_deltas (dates : list datetime) : list Z :=
  match dates with
  | [] => []
  | a :: rest =>
      match rest with
      | [] => []
      | b :: _ => td_days (b - a) :: day_deltas rest
      end
  end.

(** [statistics.median] of integers; [None] is its [StatisticsError].
    For an even count the result is the true quotient [(a + b) / 2],
    a float that holds the half-integer exactly (the sums here are day
    counts, far below 2^53); the rational is that value. *)
Definition median (data : list Z) : option Q :=
  let data := sorted data in
  let n := Z.of_nat (length data) in
  if n =? 0 then None
  else if n mod 2 =? 1 then inject_Z <$> data !! Z.to_nat (n / 2)
  else
    a ← data !! Z.to_nat (n / 2 - 1);
    b ← data !! Z.to_nat (n / 2);
    Some ((a + b) # 2).

(** [int(x)]: the integer part, towards zero. *)
Definition int_of_Q (q : Q) : Z := Z.quot (Qnum q) (Z.pos (Qden q)).

(** [str(n)] of an integer, as an f-string renders it. *)
Definition str_of_int (n : Z) : string := NilZero.string_of_int (Z.to_int n).

(** [_detect_frequency(dates)]; [None] when it raises. *)
Definition detect_frequency (dates : list datetime) : option string :=
  if (length dates <? 2)%nat then Some "разовое"
  else
    let dates := sorted dates in
    let deltas := day_deltas dates in
    match deltas with
    | [] => Some "разовое"
    | _ :: _ =>
        median_delta ← median deltas;
        Some
          (if Qle_bool median_delta 1 then "ежедневно"
           else if Qle_bool median_delta 3 then "несколько раз в неделю"
           else if Qle_bool 6 median_delta && Qle_bool median_delta 8
           then "еженедельно"
           else if Qle_bool 13 median_delta && Qle_bool median_delta 15
           then "раз в две недели"
           else if Qle_bool 27 median_delta && Qle_bool median_delta 31
           then "ежемесячно"
           else "примерно раз в " +:+ str_of_int (int_of_Q median_delta)
                +:+ " дней")
    end.

End Patterns.

(** ** app/services/json_storage.py: the cache files *)

Module JsonStorage.
Import Clock Cache.

(** One entry of a cache file, as [save_cache_entry] writes it: the two
    instants are kept as ISO texts. *)
Record CacheEntry := mkCacheEntry {
  ce_input_hash : string;
  ce_input_data : json;
  ce_result_data : json;
  ce_created_at : string;
  ce_expires_at : option string
}.

(** The content of one [cache_<stage>.json], and the data directory: the
    content of the cache file of each stage that has one. *)
Abbreviation CacheFile := (gmap string CacheEntry) (only parsing).
Abbreviation CacheDir := (gmap string (gmap string CacheEntry)) (only parsing).

(** [_load_json]: the empty dict when the file does not exist. *)
Definition load_json (dir : CacheDir) (stage : string) : CacheFile :=
  default ∅ (dir !! stage).

(** [_save_json], on a file system that accepts the write. *)
Definition save_json (dir : CacheDir) (stage : string) (data : CacheFile)
    : CacheDir :=
  <[stage := data]> dir.

(** [dt_str.replace('Z', '+00:00')] *)
Fixpoint replace_Z (s : string) : string :=
  match s with
  | EmptyString => EmptyString
  | String c rest =>
      if Ascii.eqb c "Z" then "+00:00" +:+ replace_Z rest
      else String c (replace_Z rest)
  end.

Section WithDatetimeText.

(** [datetime.isoformat] and [datetime.fromisoformat] ([None] when it
    raises). *)
Variable isoformat : datetime -> string.
Variable fromisoformat : string -> option datetime.

(** [_parse_datetime] *)
Definition parse_datetime (dt_str : option string) : option datetime :=
  match dt_str with
  | None => None
  | Some s => if String.eqb s "" then None else fromisoformat (replace_Z s)
  end.

(** [get_cache_entry(stage, input_hash)]; [utcnow] is the reading of the
    clock.  An entry past its expiry is deleted from the file. *)
Definition get_cache_entry (dir : CacheDir) (utcnow : datetime)
    (stage input_hash : string) : option CacheEntry * CacheDir :=
  let cache_data := load_json dir stage in
  match cache_data !! input_hash with
  | None => (None, dir)
  | Some entry =>
      match parse_datetime (ce_expires_at entry) with
      | Some expires_at =>
          if expires_at <? utcnow
          then (None, save_json dir stage (delete input_hash cache_data))
          else (Some entry, dir)
      | None => (Some entry, dir)
      end
  end.

(** [save_cache_entry(stage, input_hash, input_data, result_data,
    expires_at)] *)
Definition save_cache_entry (dir : CacheDir) (utcnow : datetime)
    (stage input_hash : string) (input_data result_data : json)
    (expires_at : option datetime) : CacheDir :=
  let cache_data := load_json dir stage in
  let entry :=
    {| ce_input_hash := input_hash;
       ce_input_data := input_data;
       ce_result_data := result_data;
       ce_created_at := isoformat utcnow;
       ce_expires_at := isoformat <$> expires_at |} in
  save_json dir stage (<[input_hash := entry]> cache_data).

(** One round of the loop of [invalidate_cache]: a stage that has a file
    gets the empty dict, and its entries are counted. *)
Definition invalidate_stage (acc : nat * CacheDir) (stage_name : string)
    : nat * CacheDir :=
  match acc.2 !! stage_name with
  | Some cache_data =>
      ((acc.1 + size cache_data)%nat, save_json acc.2 stage_name ∅)
  | None => acc
  end.

(** [invalidate_cache(stage, session_id)]: [session_id] is not read. *)
Definition invalidate_cache (dir : CacheDir) (stage : option string)
    (session_id : option string) : nat * CacheDir :=
  match stage with
  | Some name =>
      if String.eqb name ""
      then fold_left invalidate_stage ["import"; "enrich"; "analyze"]
                     (0%nat, dir)
      else invalidate_stage (0%nat, dir) name
  | None =>
      fold_left invalidate_stage ["import"; "enrich"; "analyze"] (0%nat, dir)
  end.

(** The test of [cleanup_expired_cache] on one entry. *)
Definition is_expired (now : datetime) (entry : CacheEntry) : bool :=
  match parse_datetime (ce_expires_at entry) with
  | Some expires_at => expires_at <? now
  | None => false
  end
  || match parse_datetime (Some (ce_created_at entry)) with
     | Some created_at => created_at + days 7 <? now
     | None => false
     end.

(** One round of the loop of [cleanup_expired_cache]. *)
Definition cleanup_stage (now : datetime) (acc : nat * CacheDir)
    (stage : string) : nat * CacheDir :=
  let cache_data := load_json acc.2 stage in
  let expired_keys :=
    (List.filter (fun kv : string * CacheEntry => is_expired now kv.2)
                 (map_to_list cache_data)).*1 in
  let cache_data' := fold_left (fun m key => delete key m)
                               expired_keys cache_data in
  ((acc.1 + length expired_keys)%nat,
   match expired_keys with
   | [] => acc.2
   | _ :: _ => save_json acc.2 stage cache_data'
   end).

(** [cleanup_expired_cache()], with the one reading [now] of the clock. *)
Definition cleanup_expired_cache (dir : CacheDir) (now : datetime)
    : nat * CacheDir :=
  fold_left (cleanup_stage now) ["import"; "enrich"; "analyze"] (0%nat, dir).

End WithDatetimeText.

End JsonStorage.

(** ** app/services/cache.py *)

Module CacheService.
Import Clock Cache JsonStorage.

Inductive PipelineStage := IMPORT | ENRICH | ANALYZE.

Definition stage_value (stage : PipelineStage) : string :=
  match stage with
  | IMPORT => "import"
  | ENRICH => "enrich"
  | ANALYZE => "analyze"
  end.

Section WithLibraries.

Variable sha256_hexdigest : string -> string.
Variable json_dumps : json -> string.
Variable isoformat : datetime -> string.
Variable fromisoformat : string -> option datetime.

(** [get_cached_result(stage, input_data, max_age_hours)]: [JNull] is
    [None]; the clock is read once by [get_cache_entry] ([now_entry])
    and once for the age test ([now_age]). *)
Definition get_cached_result (dir : CacheDir) (now_entry now_age : datetime)
    (stage : PipelineStage) (input_data : json) (max_age_hours : Z)
    : json * CacheDir :=
  let input_hash := create_hash sha256_hexdigest json_dumps input_data in
  let '(entry, dir) :=
    get_cache_entry fromisoformat dir now_entry (stage_value stage)
                    input_hash in
  match entry with
  | None => (JNull, dir)
  | Some entry =>
      match parse_datetime fromisoformat (Some (ce_created_at entry)) with
      | Some created_at =>
          let cutoff_time := now_age - hours max_age_hours in
          if created_at <? cutoff_time then (JNull, dir)
          else (ce_result_data entry, dir)
      | None => (ce_result_data entry, dir)
      end
  end.

(** [cache_result(stage, input_data, result_data, expires_hours)]: the
    clock is read for the expiry ([now_expiry]) and then by
    [save_cache_entry] ([now_created]). *)
Definition cache_result (dir : CacheDir) (now_expiry now_created : datetime)
    (stage : PipelineStage) (input_data result_data : json)
    (expires_hours : option Z) : CacheDir :=
  let input_hash := create_hash sha256_hexdigest json_dumps input_data in
  let expires_at :=
    match expires_hours with
    | Some h => if h =? 0 then None else Some (now_expiry + hours h)
    | None => None
    end in
  save_cache_entry isoformat dir now_created (stage_value stage) input_hash
                   input_data result_data expires_at.

(** The four readings of the clock during one [get_or_cache]. *)
Record Readings := mkReadings {
  at_entry : datetime;
  at_age : datetime;
  at_expiry : datetime;
  at_created : datetime
}.

(** [get_or_cache(stage, input_data, compute_func, max_age_hours,
    expires_hours)]: [compute_func] is what the call of the function
    would return, [None] when it would raise, and then [get_or_cache]
    raises too (the result [None]). *)
Definition get_or_cache (dir : CacheDir) (clock : Readings)
    (stage : PipelineStage) (input_data : json)
    (compute_func : option json) (max_age_hours : Z)
    (expires_hours : option Z) : option json * CacheDir :=
  let '(cached_result, dir) :=
    get_cached_result dir (at_entry clock) (at_age clock) stage input_data
                      max_age_hours in
  match cached_result with
  | JNull =>
      match compute_func with
      | Some result =>
          (Some result,
           cache_result dir (at_expiry clock) (at_created clock) stage
                        input_data result expires_hours)
      | None => (None, dir)
      end
  | _ => (Some cached_result, dir)
  end.

(** [invalidate_cache(stage, session_id)] *)
Definition invalidate_cache (dir : CacheDir) (stage : option PipelineStage)
    (session_id : option string) : nat * CacheDir :=
  JsonStorage.invalidate_cache dir (stage_value <$> stage) session_id.

End WithLibraries.

End CacheService.

(** ** app/services/recommender.py: scoring *)

Module Scoring.
Import Clock Schemas Recommender Analyzer.

(** [settings.scoring_weights] *)
Record ScoringWeights := mkWeights {
  time_preference_match : float;
  no_conflicts : float;
  within_working_hours : float;
  proximity : float
}.

(** The weights 0.3, 0.3, 0.2 and 0.2 of the repository. *)
Definition default_weights : ScoringWeights :=
  {| time_preference_match := 0x1.3333333333333p-2;
     no_conflicts := 0x1.3333333333333p-2;
     within_working_hours := 0x1.999999999999ap-3;
     proximity := 0x1.999999999999ap-3 |}.

(** [text.split(':')] *)
Fixpoint split_colon (text : string) : list string :=
  match text with
  | EmptyString => [EmptyString]
  | String c rest =>
      if Ascii.eqb c ":" then EmptyString :: split_colon rest
      else
        match split_colon rest with
        | first :: others => String c first :: others
        | [] => [String c EmptyString]
        end
  end.

(** [float(n)] for an integer of magnitude below 2^53 *)
Definition float_of_int (n : Z) : float :=
  if n <? 0 then (- PyFloat.of_Z (- n))%float else PyFloat.of_Z n.

Section WithLibraries.

(** [int(text)], [None] for its [ValueError], and
    [timedelta.total_seconds()]. *)
Variable int_of_str : string -> option Z.
Variable total_seconds : timedelta -> float.

(** [int(text.split(':')[0]) + int(text.split(':')[1]) / 60]; [None]
    when it raises. *)
Definition parse_hhmm (text : string) : option float :=
  hour_text ← split_colon text !! 0%nat;
  hour ← int_of_str hour_text;
  min_text ← split_colon text !! 1%nat;
  minute ← int_of_str min_text;
  Some (float_of_int hour + float_of_int minute / 60)%float.

(** Step 1 of [_score_slot]: the time-preference score and the lines it
    adds to the rationale. *)
Definition time_preference (slot : TimeSlot) (query : UserQuery)
    (history_habits : option (list (EventType * TimeWindow)))
    : option (float * list string) :=
  match history_habits, q_event_type query with
  | Some default_windows, Some event_type =>
      match window_of default_windows event_type with
      | Some window =>
          let slot_hour := hour_value (slot_start slot) in
          window_start ← parse_hhmm (tw_start window);
          window_end ← parse_hhmm (tw_end window);
          if ((window_start <=? slot_hour) && (slot_hour <=? window_end))%float
          then
            Some (1%float,
                  ["Попадает в предпочитаемое окно " +:+ tw_start window
                   +:+ "-" +:+ tw_end window])
          else
            let distance :=
              if (slot_hour <? window_start)%float
              then (window_start - slot_hour)%float
              else (slot_hour - window_end)%float in
            let time_pref_score := PyFloat.max 0 (1 - distance / 12)%float in
            Some (time_pref_score,
                  if (time_pref_score <? 0x1p-1)%float
                  then ["Вне предпочитаемого окна " +:+ tw_start window
                        +:+ "-" +:+ tw_end window]
                  else [])
      | None => Some (0%float, [])
      end
  | _, _ =>
      let hour := hour_of (slot_start slot) in
      let preferred := default "" (q_preferred_time query) in
      if String.eqb preferred "morning" && (6 <=? hour) && (hour <? 12)
      then Some (1%float, ["Утреннее время как запрошено"])
      else if String.eqb preferred "afternoon" && (12 <=? hour)
              && (hour <? 17)
      then Some (1%float, ["Дневное время как запрошено"])
      else if String.eqb preferred "evening" && (17 <=? hour) && (hour <? 22)
      then Some (1%float, ["Вечернее время как запрошено"])
      else Some (0x1p-1%float, [])
  end.

(** Step 3: inside the working hours. *)
Definition working_hours (cfg : Settings) (slot : TimeSlot)
    : float * list string :=
  let hour := hour_of (slot_start slot) in
  if (work_day_start cfg <=? hour) && (hour <? work_day_end cfg)
  then (1%float,
        if weekday (slot_start slot) <? 5
        then ["В рабочие часы буднего дня"]
        else ["В дневное время выходного"])
  else (0x1.3333333333333p-2%float, ["Вне стандартных рабочих часов"]).

(** Step 4: how soon the slot is; [now] is the reading of the clock. *)
Definition proximity_score (now : datetime) (slot : TimeSlot)
    (query : UserQuery) : float * list string :=
  let hours_until := (total_seconds (slot_start slot - now) / 3600)%float in
  match q_priority_type query with
  | HIGH =>
      if (hours_until <=? 4)%float
      then (1%float, ["Ближайшее доступное время (высокий приоритет)"])
      else if (hours_until <=? 24)%float
      then (0x1.999999999999ap-1%float, ["В течение суток"])
      else if (hours_until <=? 48)%float
      then (0x1.3333333333333p-1%float, ["В течение двух дней"])
      else (PyFloat.max 0 (1 - hours_until / 168)%float, [])
  | REGULAR =>
      if ((24 <=? hours_until) && (hours_until <=? 72))%float
      then (1%float, ["Оптимальное время планирования"])
      else if (hours_until <? 24)%float
      then (0x1.6666666666666p-1%float, ["Довольно скоро"])
      else (PyFloat.max 0x1.3333333333333p-2
                        (1 - (hours_until - 72) / 168)%float, [])
  end.

(** [_score_slot(slot, query, history_habits, existing_events)]; [None]
    when it raises. *)
Definition score_slot (cfg : Settings) (weights : ScoringWeights)
    (now : datetime) (slot : TimeSlot) (query : UserQuery)
    (history_habits : option (list (EventType * TimeWindow)))
    (existing_events : list EnrichedEvent) : option (float * list string) :=
  '(time_pref_score, rationale) ← time_preference slot query history_habits;
  let score := (0 + time_pref_score * time_preference_match weights)%float in
  let score := (score + 1 * no_conflicts weights)%float in
  let rationale :=
    rationale ++ ["Нет конфликтов с существующими событиями"] in
  let '(working_hours_score, lines) := working_hours cfg slot in
  let rationale := rationale ++ lines in
  let score :=
    (score + working_hours_score * within_working_hours weights)%float in
  let '(proximity_score, lines) := proximity_score now slot query in
  let rationale := rationale ++ lines in
  let score := (score + proximity_score * proximity weights)%float in
  let hour := hour_of (slot_start slot) in
  let '(score, rationale) :=
    if (weekday (slot_start slot) =? 0) && (hour <? 10)
    then ((score + 0x1.999999999999ap-5)%float,
          rationale ++ ["Начало недели - хорошо для планирования"])
    else (score, rationale) in
  let '(score, rationale) :=
    if (weekday (slot_start slot) =? 4) && (16 <=? hour)
    then ((score - 0x1.999999999999ap-4)%float,
          rationale ++ ["Пятница вечер - не лучшее время"])
    else (score, rationale) in
  Some (PyFloat.max 0 (PyFloat.min 1 score), rationale).

End WithLibraries.

End Scoring.

(** ** app/services/enricher.py: classification by rules *)

Module Classifier.
Import Clock Schemas Enricher.

(** [EVENT_KEYWORDS] of app/core/config.py, in the order of the dict;
    the keys are the values of the members of [EventType]. *)
Definition EVENT_KEYWORDS : list (EventType * list string) :=
  [(WORK,
     ["встреча"; "митинг"; "совещание"; "презентация"; "отчет"; "проект";
      "задача"; "дедлайн"; "созвон"; "планерка"; "meeting"; "call";
      "standup"; "review"; "sync"]);
    (STUDY,
     ["курс"; "лекция"; "вебинар"; "обучение"; "тренинг"; "книга";
      "чтение"; "изучение"; "практика"; "урок"; "study"; "learning";
      "course"; "lesson"; "tutorial"]);
    (HEALTH,
     ["врач"; "доктор"; "поликлиника"; "анализы"; "обследование";
      "тренировка"; "спорт"; "фитнес"; "бег"; "йога"; "gym"; "workout";
      "running"; "fitness"; "doctor"]);
    (HOUSEHOLD,
     ["банк"; "документы"; "оплата"; "покупки"; "магазин"; "уборка";
      "ремонт"; "стирка"; "готовка"; "продукты"; "shopping"; "cleaning";
      "payment"; "bills"; "grocery"]);
    (FAMILY,
     ["семья"; "родители"; "дети"; "жена"; "муж"; "друзья"; "встреча";
      "день рождения"; "праздник"; "гости"; "family"; "friends";
      "birthday"; "party"; "dinner"]);
    (CREATIVE,
     ["хобби"; "творчество"; "рисование"; "музыка"; "писать"; "проект";
      "идея"; "создание"; "разработка"; "дизайн"; "hobby"; "creative";
      "design"; "writing"; "art"]);
    (TRAVEL,
     ["поездка"; "путешествие"; "аэропорт"; "вокзал"; "поезд"; "самолет";
      "дорога"; "трансфер"; "такси"; "командировка"; "travel"; "flight";
      "trip"; "airport"; "train"]);
    (LEISURE,
     ["отдых"; "кино"; "театр"; "концерт"; "ресторан"; "кафе"; "бар";
      "клуб"; "игра"; "развлечение"; "relax"; "movie"; "restaurant";
      "game"; "entertainment"]);
    (ROUTINE,
     ["утренняя рутина"; "вечерняя рутина"; "медитация"; "душ";
      "завтрак"; "обед"; "ужин"; "сон"; "уход за собой";
      "morning routine"; "evening routine"; "meditation"; "breakfast"]) ].

(** [self.event_keywords[event_type_str]] *)
Definition keywords_of (event_type : EventType) : list string :=
  match list_find (fun kv : EventType * list string => kv.1 = event_type)
                  EVENT_KEYWORDS with
  | Some found => found.2.2
  | None => []
  end.

(** The dict [scores], as its items in insertion order; a score is an
    integer or, after a bonus of 0.5, a float that holds a half-integer:
    the rational is its value. *)
Abbreviation score_table := (list (EventType * Q)) (only parsing).

(** [if key in scores: scores[key] = (scores[key][0] + delta, ...)] *)
Definition bump (key : EventType) (delta : Q) (scores : score_table)
    : score_table :=
  (fun kv : EventType * Q =>
     if decide (kv.1 = key) then (kv.1, (kv.2 + delta)%Q) else kv)
  <$> scores.

(** [max(scores.items(), key=lambda x: x[1][0])]: the first item with the
    greatest score. *)
Fixpoint max_item (best : EventType * Q) (rest : score_table)
    : EventType * Q :=
  match rest with
  | [] => best
  | x :: rest' => max_item (if Qle_bool x.2 best.2 then best else x) rest'
  end.

(** The binary64 value of a score. *)
Definition float_of_score (q : Q) : float :=
  (PyFloat.of_Z (Qnum q) / PyFloat.of_Z (Z.pos (Qden q)))%float.

Section WithLower.

Variable lower : string -> string.

(** [matched_keywords] of one category *)
Definition matched_keywords (text : string) (keywords : list string)
    : list string :=
  List.filter (fun keyword => contains (lower keyword) text) keywords.

(** The first loop of [_classify_with_rules]. *)
Definition keyword_scores (text : string) : score_table :=
  omap (fun kv : EventType * list string =>
          let score := Z.of_nat (length (matched_keywords text kv.2)) in
          if 0 <? score then Some (kv.1, inject_Z score) else None)
       EVENT_KEYWORDS.

(** The bonus by the hour of the start. *)
Definition time_heuristics (event : Event) (scores : score_table)
    : score_table :=
  let hour := hour_of (ev_start event) in
  if (6 <=? hour) && (hour <? 9)
  then bump ROUTINE 1 (bump HEALTH 1 scores)
  else if (9 <=? hour) && (hour <? 18) && (weekday (ev_start event) <? 5)
  then bump WORK 1 scores
  else if (18 <=? hour) && (hour <? 22)
  then bump LEISURE (1 # 2) (bump FAMILY (1 # 2) (bump STUDY (1 # 2) scores))
  else scores.

(** The bonus for more than two attendees. *)
Definition attendee_heuristic (event : Event) (scores : score_table)
    : score_table :=
  if (2 <? length (ev_attendees event))%nat then bump WORK 1 scores
  else scores.

(** [_classify_with_rules(event)] *)
Definition classify_with_rules (event : Event) : EventType * float :=
  let text := event_text lower event in
  let scores :=
    attendee_heuristic event (time_heuristics event (keyword_scores text)) in
  match scores with
  | [] => (OTHER, 0%float)
  | item :: rest =>
      let best_type := max_item item rest in
      let max_possible_score :=
        Z.of_nat (length (keywords_of best_type.1)) + 3 in
      let confidence :=
        PyFloat.min (float_of_score best_type.2
                     / PyFloat.of_Z max_possible_score)%float 1 in
      (best_type.1, confidence)
  end.

End WithLower.

End Classifier.

(** ** app/services/enricher.py: the enrichment loop *)

Module EnrichLoop.
Import Clock Schemas Enricher Classifier.

(** [EnrichAttributes] *)
Record EnrichAttributes := mkAttributes {
  duration_min : Z;
  day_of_week : Z;
  hour_of_day : Z;
  is_working_hours : bool;
  is_weekend : bool;
  tags : list string;
  category_confidence : float
}.

(** [enrichment_stats]; [event_types] is the dict of counts, as its
    items in insertion order. *)
Record EnrichStats := mkStats {
  total_events : Z;
  classified_by_rules : Z;
  classified_by_llm : Z;
  classification_failures : Z;
  event_types : list (EventType * Z)
}.

(** [d[key] = d.get(key, 0) + 1] *)
Fixpoint increment (key : EventType) (d : list (EventType * Z))
    : list (EventType * Z) :=
  match d with
  | [] => [(key, 1)]
  | (k, n) :: rest =>
      if decide (k = key) then (k, n + 1) :: rest
      else (k, n) :: increment key rest
  end.

Section WithLibraries.

(** [str.lower], [timedelta.total_seconds], [_extract_tags] and
    [_classify_with_llm]; [settings_use_llm] is [settings.use_llm]. *)
Variable lower : string -> string.
Variable total_seconds : timedelta -> float.
Variable extract_tags : Event -> list string.
Variable classify_with_llm : Event -> option EventType * float.
Variable settings_use_llm : bool.

(** [ZoneInfo(name)]: whether the zone name is known; the constructor
    raises otherwise. *)
Variable zone_info : string -> bool.

(** Whether [event.start] and [event.end] carry a [tzinfo]: the schema
    accepts naive and aware datetimes alike, and the fields of [Event]
    hold the readings only. *)
Variable start_aware : Event -> bool.
Variable end_aware : Event -> bool.

(** [_calculate_attributes(event, tz, confidence)]; [None] when it
    raises: the subtraction of a naive and an aware datetime does
    ([TypeError]), and so does the model for a [category_confidence]
    outside [0, 1]. *)
Definition calculate_attributes (event : Event) (confidence : float)
    : option EnrichAttributes :=
  if Bool.eqb (start_aware event) (end_aware event) then
    let duration := ev_end event - ev_start event in
    let duration_min := PyFloat.trunc (total_seconds duration / 60)%float in
    let day_of_week := weekday (ev_start event) + 1 in
    let hour_of_day := hour_of (ev_start event) in
    let is_working_hours :=
      (9 <=? hour_of_day) && (hour_of_day <? 18) && (day_of_week <=? 5) in
    let is_weekend := 5 <? day_of_week in
    let tags := extract_tags event in
    if ((0 <=? confidence) && (confidence <=? 1))%float
    then Some (mkAttributes duration_min day_of_week hour_of_day
                            is_working_hours is_weekend tags confidence)
    else None
  else None.

(** The body of the loop of [_compute_enrich]: the enriched event with
    its attributes is appended and the statistics are updated; [None]
    when the body raises. *)
Definition enrich_step (use_llm : bool)
    (acc : list (EnrichedEvent * EnrichAttributes) * EnrichStats)
    (event : Event)
    : option (list (EnrichedEvent * EnrichAttributes) * EnrichStats) :=
  let '(enriched_events, stats) := acc in
  let '(event_type, confidence, stats) :=
    if use_llm && settings_use_llm then
      let '(event_type, confidence) := classify_with_llm event in
      (event_type, confidence,
       match event_type with
       | Some _ =>
           mkStats (total_events stats) (classified_by_rules stats)
                   (classified_by_llm stats + 1)
                   (classification_failures stats) (event_types stats)
       | None => stats
       end)
    else
      let '(event_type, confidence) := classify_with_rules lower event in
      (Some event_type, confidence,
       if decide (event_type = OTHER) then stats
       else mkStats (total_events stats) (classified_by_rules stats + 1)
                    (classified_by_llm stats)
                    (classification_failures stats) (event_types stats)) in
  let '(event_type, confidence, stats) :=
    match event_type with
    | Some event_type => (event_type, confidence, stats)
    | None =>
        (OTHER, 0%float,
         mkStats (total_events stats) (classified_by_rules stats)
                 (classified_by_llm stats)
                 (classification_failures stats + 1) (event_types stats))
    end in
  let priority_type := determine_priority lower event in
  enrich_attrs ← calculate_attributes event confidence;
  let enriched_event :=
    mkEnriched
      (mkEvent (ev_calendar event) (ev_start event) (ev_end event)
               (ev_summary event) (ev_description event)
               (ev_attendees event) false false)
      event_type priority_type in
  Some (enriched_events ++ [(enriched_event, enrich_attrs)],
        mkStats (total_events stats) (classified_by_rules stats)
                (classified_by_llm stats) (classification_failures stats)
                (increment event_type (event_types stats))).

(** The loop: the first failure ends it. *)
Fixpoint enrich_loop (use_llm : bool) (events : list Event)
    (acc : list (EnrichedEvent * EnrichAttributes) * EnrichStats)
    : option (list (EnrichedEvent * EnrichAttributes) * EnrichStats) :=
  match events with
  | [] => Some acc
  | event :: rest =>
      acc ← enrich_step use_llm acc event;
      enrich_loop use_llm rest acc
  end.

(** [_compute_enrich] for a request with the zone name [tz]: the
    enriched events and the statistics of the response; [None] when it
    raises, as [ZoneInfo(request.tz)] does before the loop for an unknown
    zone name. *)
Definition compute_enrich (tz : string) (events : list Event)
    (use_llm : bool)
    : option (list (EnrichedEvent * EnrichAttributes) * EnrichStats) :=
  let stats := mkStats (Z.of_nat (length events)) 0 0 0 [] in
  if zone_info tz then enrich_loop use_llm events ([], stats) else None.

End WithLibraries.

End EnrichLoop.

(** * Part II: properties *)

(** ** Normalization: deduplication, recurrence expansion, fall-back *)

Module ImporterFacts.
Import Clock Schemas Importer.

(** *** Deduplication *)

Section Dedup.

Variable isoformat : datetime -> string.
Variable md5_hexdigest : string -> string.

#[local] Abbreviation hash := (get_event_hash isoformat md5_hexdigest).
#[local] Abbreviation loop := (dedup_loop isoformat md5_hexdigest).

(** The hashes of a list of events, as the set [seen] holds them. *)
Definition hashes (l : list Event) : gset string := list_to_set (hash <$> l).

Lemma dedup_loop_sublist (seen : gset string) (l : list Event) :
  sublist (loop seen l) l.
Proof.
  revert seen. induction l as [|e l IH]; intros seen; simpl; [constructor|].
  destruct (decide (hash e ∈ seen)).
  - apply sublist_cons. apply IH.
  - apply sublist_skip. apply IH.
Qed.

Lemma dedup_loop_fresh (seen : gset string) (l : list Event) (e : Event) :
  e ∈ loop seen l -> hash e ∉ seen.
Proof.
  revert seen. induction l as [|x l IH]; intros seen; simpl.
  - intros H. by apply elem_of_nil in H.
  - destruct (decide (hash x ∈ seen)) as [Hin|Hout]; [apply IH|].
    intros [->|He]%elem_of_cons; [exact Hout|].
    apply IH in He. intros Hs. apply He. apply elem_of_union. by right.
Qed.

Lemma dedup_loop_NoDup (seen : gset string) (l : list Event) :
  NoDup (hash <$> loop seen l).
Proof.
  revert seen. induction l as [|x l IH]; intros seen; simpl; [constructor|].
  destruct (decide (hash x ∈ seen)); [apply IH|].
  rewrite fmap_cons. constructor; [|apply IH].
  intros (e & He & Hin)%list_elem_of_fmap.
  apply dedup_loop_fresh in Hin. apply Hin.
  apply elem_of_union. left. by apply elem_of_singleton.
Qed.

Lemma dedup_loop_app (seen : gset string) (l1 l2 : list Event) :
  loop seen (l1 ++ l2) = loop seen l1 ++ loop (hashes l1 ∪ seen) l2.
Proof.
  revert seen. induction l1 as [|x l1 IH]; intros seen; simpl.
  - unfold hashes. simpl. by rewrite (left_id_L ∅ (∪)).
  - unfold hashes. simpl. fold (hashes l1).
    destruct (decide (hash x ∈ seen)) as [Hin|Hout].
    + rewrite IH. do 2 f_equal.
      apply set_eq. intros y. rewrite !elem_of_union, elem_of_singleton.
      split; [tauto|]. intros [[->|?]|?]; tauto.
    + simpl. rewrite IH. do 3 f_equal.
      apply set_eq. intros y. rewrite !elem_of_union, elem_of_singleton. tauto.
Qed.

Lemma dedup_loop_idem (seen : gset string) (l : list Event) :
  loop seen (loop seen l) = loop seen l.
Proof.
  revert seen. induction l as [|x l IH]; intros seen; simpl; [done|].
  destruct (decide (hash x ∈ seen)) as [Hin|Hout]; [apply IH|].
  simpl. destruct (decide (hash x ∈ seen)); [done|]. by rewrite IH.
Qed.

(** C6.  Deduplication is idempotent; its result is a subsequence of the
    input (relative order kept) in which no identity hash occurs twice;
    an event that is the first of the input with its hash is kept, after
    the kept events that precede it; and an event whose hash occurred
    earlier in the input is dropped. *)
Theorem deduplicate_keeps_first_and_is_idempotent (events : list Event) :
  deduplicate_events isoformat md5_hexdigest
    (deduplicate_events isoformat md5_hexdigest events)
  = deduplicate_events isoformat md5_hexdigest events
  /\ sublist (deduplicate_events isoformat md5_hexdigest events) events
  /\ NoDup (get_event_hash isoformat md5_hexdigest
            <$> deduplicate_events isoformat md5_hexdigest events)
  /\ (forall l1 e l2,
        events = l1 ++ e :: l2 -> hash e ∉ hashes l1 ->
        deduplicate_events isoformat md5_hexdigest events
        = deduplicate_events isoformat md5_hexdigest l1
          ++ e :: dedup_loop isoformat md5_hexdigest
                    ({[hash e]} ∪ hashes l1) l2)
  /\ (forall l1 e l2,
        events = l1 ++ e :: l2 -> hash e ∈ hashes l1 ->
        deduplicate_events isoformat md5_hexdigest events
        = deduplicate_events isoformat md5_hexdigest (l1 ++ l2)).
Proof.
  unfold deduplicate_events. split; [apply dedup_loop_idem|].
  split; [apply dedup_loop_sublist|]. split; [apply dedup_loop_NoDup|].
  split.
  - intros l1 e l2 -> Hfresh. rewrite dedup_loop_app. simpl.
    rewrite (right_id_L ∅ (∪)).
    destruct (decide (hash e ∈ hashes l1)); [done|reflexivity].
  - intros l1 e l2 -> Hseen. rewrite !dedup_loop_app. simpl.
    rewrite (right_id_L ∅ (∪)).
    destruct (decide (hash e ∈ hashes l1)); [reflexivity|done].
Qed.

End Dedup.

(** Formatting and hashing for the examples: the decimal digits of the
    instant, and the key itself as its hash. *)
Definition example_isoformat (t : datetime) : string :=
  NilZero.string_of_int (Z.to_int t).

Definition example_hash (key : string) : string := key.

Definition standup_a : Event :=
  mkEvent "cal" (at_time 100 9 0) (at_time 100 10 0) "standup" "a" []
          false false.
Definition review_b : Event :=
  mkEvent "cal" (at_time 100 10 0) (at_time 100 11 0) "review" "" []
          false false.
Definition standup_c : Event :=
  mkEvent "cal" (at_time 100 9 0) (at_time 100 10 0) "standup" "c" []
          false false.

(** The theorem at a stand-up, a review and a second entry of the
    stand-up: the second entry is dropped, the order of the others kept,
    and a second run changes nothing. *)
Lemma deduplicate_keeps_first_and_is_idempotent_witness :
  deduplicate_events example_isoformat example_hash
    [standup_a; review_b; standup_c] = [standup_a; review_b]
  /\ deduplicate_events example_isoformat example_hash
       (deduplicate_events example_isoformat example_hash
          [standup_a; review_b; standup_c])
     = [standup_a; review_b].
Proof.
  destruct (deduplicate_keeps_first_and_is_idempotent example_isoformat
              example_hash [standup_a; review_b; standup_c])
    as (Hidem & _ & _ & _ & Hdrop).
  assert (Heq : deduplicate_events example_isoformat example_hash
                  [standup_a; review_b; standup_c]
                = [standup_a; review_b]).
  { rewrite (Hdrop [standup_a; review_b] standup_c [] eq_refl).
    - vm_compute. reflexivity.
    - vm_compute. reflexivity. }
  split; [exact Heq|]. rewrite Hidem. exact Heq.
Defined.

(** The scenario of two entries with the same calendar, start, end and
    summary: one event is kept, whatever the hash functions are. *)
Example two_identical_entries_give_one_event
    (isoformat : datetime -> string) (md5_hexdigest : string -> string) :
  deduplicate_events isoformat md5_hexdigest
    [ mkEvent "cal" (at_time 100 9 0) (at_time 100 10 0) "standup" "a" []
              false false;
      mkEvent "cal" (at_time 100 9 0) (at_time 100 10 0) "standup" "b" []
              false false ]
  = [ mkEvent "cal" (at_time 100 9 0) (at_time 100 10 0) "standup" "a" []
              false false ].
Proof.
  unfold deduplicate_events. simpl.
  destruct (decide _) as [Hin|_]; [by apply elem_of_empty in Hin|].
  destruct (decide _) as [_|Hout]; [reflexivity|].
  exfalso. apply Hout. apply elem_of_union. left. by apply elem_of_singleton.
Qed.

(** *** Recurrence expansion *)

Lemma filter_none {A} (f : A -> bool) (l : list A) :
  Forall (fun x => f x = false) l -> List.filter f l = [].
Proof.
  induction 1 as [|x l Hx _ IH]; simpl; [done|]. by rewrite Hx.
Qed.

Lemma between_loop_started (after before : datetime) (gen : list datetime) :
  StronglySorted Z.le gen ->
  between_loop after before true gen
  = List.filter (fun i => i <? before) gen.
Proof.
  induction 1 as [|i rest Hs IH Hi]; simpl; [done|].
  destruct (before <=? i) eqn:Hb.
  - apply Z.leb_le in Hb.
    replace (i <? before) with false by (symmetry; apply Z.ltb_ge; lia).
    symmetry. apply filter_none.
    eapply Forall_impl; [exact Hi|]. simpl. intros x Hx. apply Z.ltb_ge. lia.
  - apply Z.leb_gt in Hb.
    replace (i <? before) with true by (symmetry; apply Z.ltb_lt; lia).
    by rewrite IH.
Qed.

(** Over an ascending sequence, [between] keeps exactly the occurrences
    strictly between the two bounds. *)
Lemma between_filter (after before : datetime) (gen : list datetime) :
  StronglySorted Z.le gen ->
  between gen after before
  = List.filter (fun i => (after <? i) && (i <? before)) gen.
Proof.
  unfold between. induction 1 as [|i rest Hs IH Hi]; simpl; [done|].
  destruct (before <=? i) eqn:Hb.
  - apply Z.leb_le in Hb.
    replace (i <? before) with false by (symmetry; apply Z.ltb_ge; lia).
    rewrite andb_false_r. symmetry. apply filter_none.
    eapply Forall_impl; [exact Hi|]. simpl. intros x Hx.
    apply andb_false_iff. right. apply Z.ltb_ge. lia.
  - apply Z.leb_gt in Hb.
    replace (i <? before) with true by (symmetry; apply Z.ltb_lt; lia).
    rewrite andb_true_r. destruct (after <? i) eqn:Ha.
    + apply Z.ltb_lt in Ha. rewrite between_loop_started by done.
      f_equal. apply filter_ext_in. intros x Hx.
      apply list_elem_of_In in Hx.
      pose proof (proj1 (Forall_forall _ _) Hi x Hx).
      replace (after <? x) with true by (symmetry; apply Z.ltb_lt; lia).
      reflexivity.
    + exact IH.
Qed.

(** C3 (as stated) fails at the lower bound: for a daily rule whose first
    occurrence is the window start itself (00:00 of day 100, window
    [day 100, day 102)), the occurrence at the window start lies in the
    half-open window and is not emitted; only the one of day 101 is. *)
Lemma expand_rrule_drops_occurrence_at_window_start :
  (at_time 100 0 0 <= at_time 100 0 0 < at_time 102 0 0)
  /\ forall rrulestr' : string -> datetime -> option (list datetime),
       rrulestr' "FREQ=DAILY;COUNT=2" (at_time 100 0 0)
         = Some [at_time 100 0 0; at_time 101 0 0] ->
       expand_rrule rrulestr' "FREQ=DAILY;COUNT=2"
         (at_time 100 0 0) (at_time 100 1 0)
         (at_time 100 0 0) (at_time 102 0 0) "standup" "" "cal" [] false
       = [ mkEvent "cal" (at_time 101 0 0) (at_time 101 1 0) "standup" "" []
                   true false ].
Proof.
  split; [vm_compute; split; discriminate || reflexivity|].
  intros rrulestr' Hrule. unfold expand_rrule. rewrite Hrule.
  vm_compute. reflexivity.
Qed.

Section Expansion.

Variable rrulestr : string -> datetime -> option (list datetime).

(** The occurrence of a master event at [occurrence]. *)
Definition occurrence_event (start_dt end_dt : datetime)
    (summary description calendar : string) (attendees : list string)
    (all_day : bool) (occurrence : datetime) : Event :=
  {| ev_calendar := calendar;
     ev_start := occurrence;
     ev_end := occurrence + (end_dt - start_dt);
     ev_summary := summary;
     ev_description := description;
     ev_attendees := attendees;
     ev_from_recurring := true;
     ev_all_day := all_day |}.

(** C3 (amended).  For a rule text that parses (to a rule iterating its
    occurrences in ascending order), recurrence expansion emits exactly
    the occurrences whose start lies strictly between the window bounds,
    [windowStart < start < windowEnd], one event each and in order: every
    emitted event starts at such an occurrence (so never outside
    [windowStart, windowEnd)), every such occurrence is emitted, and each
    emitted event has the master's duration, summary, description and
    attendees. *)
Theorem expand_rrule_emits_occurrences_inside_window
    (rrule_data : string) (start_dt end_dt window_start window_end : datetime)
    (summary description calendar : string) (attendees : list string)
    (all_day : bool) (rule : list datetime) :
  rrulestr rrule_data start_dt = Some rule ->
  StronglySorted Z.le rule ->
  expand_rrule rrulestr rrule_data start_dt end_dt window_start window_end
               summary description calendar attendees all_day
  = occurrence_event start_dt end_dt summary description calendar attendees
                     all_day
    <$> List.filter (fun o => (window_start <? o) && (o <? window_end)) rule
  /\ (forall e,
        e ∈ expand_rrule rrulestr rrule_data start_dt end_dt window_start
              window_end summary description calendar attendees all_day ->
        ev_start e ∈ rule
        /\ window_start < ev_start e < window_end
        /\ ev_end e - ev_start e = end_dt - start_dt
        /\ ev_summary e = summary /\ ev_description e = description
        /\ ev_attendees e = attendees)
  /\ (forall o,
        o ∈ rule -> window_start < o < window_end ->
        exists e,
          e ∈ expand_rrule rrulestr rrule_data start_dt end_dt window_start
                window_end summary description calendar attendees all_day
          /\ ev_start e = o).
Proof.
  intros Hrule Hsorted.
  assert (Heq : expand_rrule rrulestr rrule_data start_dt end_dt window_start
                  window_end summary description calendar attendees all_day
                = occurrence_event start_dt end_dt summary description
                    calendar attendees all_day
                  <$> List.filter
                        (fun o => (window_start <? o) && (o <? window_end))
                        rule).
  { unfold expand_rrule. rewrite Hrule.
    by rewrite (between_filter _ _ _ Hsorted). }
  split; [exact Heq|]. rewrite Heq. split.
  - intros e (o & -> & Ho)%list_elem_of_fmap.
    apply list_elem_of_In, filter_In in Ho as [Hin Hw].
    apply andb_true_iff in Hw as [H1 H2].
    apply Z.ltb_lt in H1, H2. apply list_elem_of_In in Hin.
    simpl. repeat split; [exact Hin|lia|lia|lia].
  - intros o Ho [H1 H2].
    exists (occurrence_event start_dt end_dt summary description calendar
              attendees all_day o).
    split; [|reflexivity]. apply list_elem_of_fmap. exists o.
    split; [reflexivity|]. apply list_elem_of_In, filter_In.
    split; [by apply list_elem_of_In|].
    apply andb_true_iff. split; apply Z.ltb_lt; lia.
Qed.

End Expansion.

(** A rule that yields its start and the two following days, as
    "FREQ=DAILY;COUNT=3" does. *)
Definition daily_three (text : string) (dtstart : datetime)
    : option (list datetime) :=
  Some [dtstart; dtstart + days 1; dtstart + days 2].

(** The theorem at a daily 09:00-09:30 event of days 100..102 and the
    window from day 101 00:00 to day 103 00:00: days 101 and 102. *)
Lemma expand_rrule_emits_occurrences_inside_window_witness :
  daily_three "FREQ=DAILY;COUNT=3" (at_time 100 9 0)
    = Some [at_time 100 9 0; at_time 101 9 0; at_time 102 9 0]
  /\ StronglySorted Z.le [at_time 100 9 0; at_time 101 9 0; at_time 102 9 0]
  /\ expand_rrule daily_three "FREQ=DAILY;COUNT=3"
       (at_time 100 9 0) (at_time 100 9 30)
       (at_time 101 0 0) (at_time 103 0 0) "standup" "" "cal" [] false
     = [ mkEvent "cal" (at_time 101 9 0) (at_time 101 9 30) "standup" "" []
                 true false;
         mkEvent "cal" (at_time 102 9 0) (at_time 102 9 30) "standup" "" []
                 true false ].
Proof.
  assert (H1 : daily_three "FREQ=DAILY;COUNT=3" (at_time 100 9 0)
               = Some [at_time 100 9 0; at_time 101 9 0; at_time 102 9 0])
    by (vm_compute; reflexivity).
  assert (H2 : StronglySorted Z.le
                 [at_time 100 9 0; at_time 101 9 0; at_time 102 9 0]).
  { repeat constructor; vm_compute; discriminate. }
  split; [exact H1|]. split; [exact H2|].
  destruct (expand_rrule_emits_occurrences_inside_window daily_three
              "FREQ=DAILY;COUNT=3" (at_time 100 9 0) (at_time 100 9 30)
              (at_time 101 0 0) (at_time 103 0 0) "standup" "" "cal" [] false
              _ H1 H2) as [Heq _].
  exact (eq_trans Heq eq_refl).
Defined.

(** *** The fall-back of a rule that does not parse *)

Section Fallback.

Variable parser_parse : string -> option datetime.
Variable rrulestr : string -> datetime -> option (list datetime).
Variable from_ical : string -> option ICalendar.
Variable isoformat : datetime -> string.
Variable md5_hexdigest : string -> string.

#[local] Abbreviation import :=
  (compute_import parser_parse rrulestr from_ical isoformat md5_hexdigest).

(** The test that decides whether the master occurrence is in the output:
    the end-exclusive intersection test of [_expand_rrule] and the lower
    bound of the window filter of [_compute_import]. *)
Definition master_kept (window : datetime * datetime) (m : Event) : bool :=
  (window.1 <? ev_end m) && (ev_start m <? window.2)
  && (window.1 <=? ev_start m).

Lemma master_kept_spec (ws we : datetime) (m : Event) :
  master_kept (ws, we) m = true
  <-> (ev_end m > ws /\ ev_start m < we) /\ ws <= ev_start m.
Proof.
  unfold master_kept. simpl.
  rewrite !andb_true_iff, !Z.ltb_lt, Z.leb_le. lia.
Qed.

(** The window filter applied to what the fall-back returns. *)
Lemma fallback_filtered (ws we : datetime) (m : Event) :
  List.filter (start_in_window ws we)
    (if intersects (ev_start m) (ev_end m) ws we then [m] else [])
  = if master_kept (ws, we) m then [m] else [].
Proof.
  unfold master_kept, intersects, start_in_window. simpl.
  destruct (ws <? ev_end m); simpl; [|reflexivity].
  destruct (ev_start m <? we) eqn:Hlt; simpl; [|reflexivity].
  apply Z.ltb_lt in Hlt.
  replace (ev_start m <=? we) with true by (symmetry; apply Z.leb_le; lia).
  rewrite andb_true_r. by destruct (ws <=? ev_start m).
Qed.

Lemma single_event_output (m : Event) (b : bool) :
  sort_events
    (deduplicate_events isoformat md5_hexdigest (if b then [m] else []))
  = if b then [m] else [].
Proof.
  destruct b; [|reflexivity]. unfold deduplicate_events. simpl.
  destruct (decide _) as [Hin|_]; [by apply elem_of_empty in Hin|].
  reflexivity.
Qed.

Lemma insert_event_elem (x y : Event) (l : list Event) :
  y ∈ insert_event x l <-> y = x \/ y ∈ l.
Proof.
  induction l as [|z l IH]; simpl.
  - rewrite list_elem_of_singleton, elem_of_nil. tauto.
  - destruct (ev_start x <=? ev_start z); rewrite !elem_of_cons; [tauto|].
    rewrite IH. tauto.
Qed.

Lemma sort_events_elem (y : Event) (l : list Event) :
  y ∈ sort_events l <-> y ∈ l.
Proof.
  induction l as [|x l IH]; simpl; [done|].
  rewrite insert_event_elem, elem_of_cons, IH. tauto.
Qed.

(** Deduplication keeps, for every event, an event with its hash. *)
Lemma dedup_loop_represents (seen : gset string) (l : list Event)
    (x : Event) :
  x ∈ l -> get_event_hash isoformat md5_hexdigest x ∉ seen ->
  exists e, e ∈ dedup_loop isoformat md5_hexdigest seen l
            /\ get_event_hash isoformat md5_hexdigest e
               = get_event_hash isoformat md5_hexdigest x.
Proof.
  revert seen. induction l as [|y l IH]; intros seen Hx Hfresh.
  - by apply elem_of_nil in Hx.
  - simpl.
    destruct (decide (get_event_hash isoformat md5_hexdigest y ∈ seen))
      as [Hin|Hout].
    + apply elem_of_cons in Hx as [->|Hx]; [done|]. by apply IH.
    + destruct (decide (get_event_hash isoformat md5_hexdigest y
                        = get_event_hash isoformat md5_hexdigest x))
        as [Heq|Hne].
      * exists y. split; [apply list_elem_of_here|exact Heq].
      * apply elem_of_cons in Hx as [->|Hx]; [done|].
        destruct (IH ({[get_event_hash isoformat md5_hexdigest y]} ∪ seen)
                     Hx) as (e & He & Hh).
        { rewrite elem_of_union, elem_of_singleton. intros [?|?]; auto. }
        exists e. split; [by apply list_elem_of_further|exact Hh].
Qed.

(** An event that passes the window filter is represented in the output
    of the import by an event with its identity hash. *)
Lemma compute_import_represents (request : ImportRequest) (now : datetime)
    (x : Event) :
  x ∈ (match ics_content request with
       | Some content =>
           if String.eqb content "" then []
           else parse_ics rrulestr from_ical content
                  (expand_recurring request)
                  (import_window now (days_limit request)).1
                  (import_window now (days_limit request)).2
       | None => []
       end)
      ++ (match req_events request with
          | Some raws =>
              concat (import_raw_event parser_parse rrulestr
                        (expand_recurring request)
                        (import_window now (days_limit request)).1
                        (import_window now (days_limit request)).2 <$> raws)
          | None => []
          end) ->
  start_in_window (import_window now (days_limit request)).1
                  (import_window now (days_limit request)).2 x = true ->
  exists e, e ∈ import request now
            /\ get_event_hash isoformat md5_hexdigest e
               = get_event_hash isoformat md5_hexdigest x.
Proof.
  unfold compute_import.
  destruct (import_window now (days_limit request)) as [ws we]. simpl.
  intros Hx Hin.
  destruct (dedup_loop_represents ∅
              (List.filter (start_in_window ws we)
                 ((match ics_content request with
                   | Some content =>
                       if String.eqb content "" then []
                       else parse_ics rrulestr from_ical content
                              (expand_recurring request) ws we
                   | None => []
                   end)
                  ++ (match req_events request with
                      | Some raws =>
                          concat (import_raw_event parser_parse rrulestr
                                    (expand_recurring request) ws we <$> raws)
                      | None => []
                      end))) x) as (e & He & Hh).
  - apply list_elem_of_In, filter_In. split; [by apply list_elem_of_In|done].
  - apply not_elem_of_empty.
  - exists e. split; [|exact Hh]. by apply sort_events_elem.
Qed.

Lemma elem_of_concat_fmap {A B} (f : A -> list B) (l : list A) (a : A)
    (x : B) :
  a ∈ l -> x ∈ f a -> x ∈ concat (f <$> l).
Proof.
  intros Ha Hx. induction Ha as [a l|a b l _ IH]; simpl;
    apply elem_of_app; [by left|right; by apply IH].
Qed.

Lemma single_event_elem (m : Event) (b : bool) :
  m ∈ (if b then [m] else []) <-> b = true.
Proof.
  destruct b; split; intros H; try done.
  - apply list_elem_of_here.
  - by apply elem_of_nil in H.
Qed.

(** The master occurrence [_parse_ics] builds for a VEVENT. *)
Definition vevent_master (calendar_name : string) (v : VEvent)
    (dtstart : ical_time) : Event :=
  {| ev_calendar := calendar_name;
     ev_start := vevent_start dtstart;
     ev_end := vevent_end dtstart (ve_dtend v);
     ev_summary := ve_summary v;
     ev_description := ve_description v;
     ev_attendees := ve_attendees v;
     ev_from_recurring := false;
     ev_all_day := is_all_day dtstart |}.

(** What the loop over the raw events adds for a raw event whose rule
    does not parse: the master, when it intersects the window. *)
Lemma import_raw_event_fallback (ws we : datetime) (r : RawEvent) (m : Event)
    (text : string) :
  normalize_event parser_parse r = Some m ->
  raw_rrule r = Some text -> text <> "" ->
  rrulestr text (ev_start m) = None ->
  import_raw_event parser_parse rrulestr true ws we r
  = if intersects (ev_start m) (ev_end m) ws we then [m] else [].
Proof.
  intros Hnorm Hrule Htext Hparse.
  unfold import_raw_event. rewrite Hnorm, Hrule.
  apply String.eqb_neq in Htext. rewrite Htext. simpl.
  unfold expand_rrule. rewrite Hparse.
  unfold normalize_event in Hnorm.
  destruct (parse_datetime_string parser_parse (raw_start r))
    as [s|]; [|discriminate].
  destruct (parse_datetime_string parser_parse (raw_end r))
    as [e|]; [|discriminate].
  simpl in Hnorm. injection Hnorm as <-. reflexivity.
Qed.

Lemma parse_vevent_fallback (ws we : datetime) (calendar_name : string)
    (v : VEvent) (dtstart : ical_time) (text : string) :
  ve_dtstart v = Some dtstart -> ve_rrule v = Some text ->
  rrulestr text (vevent_start dtstart) = None ->
  parse_vevent rrulestr calendar_name true ws we v
  = if intersects (ev_start (vevent_master calendar_name v dtstart))
                  (ev_end (vevent_master calendar_name v dtstart)) ws we
    then [vevent_master calendar_name v dtstart] else [].
Proof.
  intros Hstart Hrule Hparse.
  unfold parse_vevent. rewrite Hstart, Hrule.
  unfold expand_rrule. by rewrite Hparse.
Qed.

(** C2 (amended).  With expansion requested, for a raw event or a VEVENT
    whose recurrence rule does not parse: what the event contributes
    after the window filter of [_compute_import] is the master occurrence
    when its interval intersects the window under the end-exclusive test
    [end > windowStart] and [start < windowEnd] and, in addition, its
    start is not before [windowStart], and nothing otherwise.  In the
    first case the output holds an event with the master's identity hash
    (the master itself unless an earlier event has that hash); imported
    alone, the master is the whole output in the first case and the
    output is empty in the second, so the master appears in the output
    if and only if both conditions hold. *)
Theorem rrule_fallback_master_in_output (request : ImportRequest)
    (now : datetime) :
  expand_recurring request = true ->
  (forall raws r m text,
     req_events request = Some raws -> r ∈ raws ->
     normalize_event parser_parse r = Some m ->
     raw_rrule r = Some text -> text <> "" ->
     rrulestr text (ev_start m) = None ->
     List.filter
       (start_in_window (import_window now (days_limit request)).1
                        (import_window now (days_limit request)).2)
       (import_raw_event parser_parse rrulestr true
          (import_window now (days_limit request)).1
          (import_window now (days_limit request)).2 r)
     = (if master_kept (import_window now (days_limit request)) m
        then [m] else [])
     /\ (master_kept (import_window now (days_limit request)) m = true ->
         exists e,
           e ∈ compute_import parser_parse rrulestr from_ical isoformat
                 md5_hexdigest request now
           /\ get_event_hash isoformat md5_hexdigest e
              = get_event_hash isoformat md5_hexdigest m)
     /\ (ics_content request = None -> raws = [r] ->
         compute_import parser_parse rrulestr from_ical isoformat
                        md5_hexdigest request now
         = (if master_kept (import_window now (days_limit request)) m
            then [m] else [])
         /\ (m ∈ compute_import parser_parse rrulestr from_ical isoformat
                   md5_hexdigest request now
             <-> (ev_end m > (import_window now (days_limit request)).1
                  /\ ev_start m < (import_window now (days_limit request)).2)
                 /\ (import_window now (days_limit request)).1
                    <= ev_start m)))
  /\
  (forall content cal v dtstart text,
     ics_content request = Some content -> content <> "" ->
     from_ical content = Some cal -> VEVENT v ∈ cal_components cal ->
     ve_dtstart v = Some dtstart -> ve_rrule v = Some text ->
     rrulestr text (vevent_start dtstart) = None ->
     let m := vevent_master (default "Calendar" (cal_name cal)) v dtstart in
     List.filter
       (start_in_window (import_window now (days_limit request)).1
                        (import_window now (days_limit request)).2)
       (parse_vevent rrulestr (default "Calendar" (cal_name cal)) true
          (import_window now (days_limit request)).1
          (import_window now (days_limit request)).2 v)
     = (if master_kept (import_window now (days_limit request)) m
        then [m] else [])
     /\ (master_kept (import_window now (days_limit request)) m = true ->
         exists e,
           e ∈ compute_import parser_parse rrulestr from_ical isoformat
                 md5_hexdigest request now
           /\ get_event_hash isoformat md5_hexdigest e
              = get_event_hash isoformat md5_hexdigest m)
     /\ (req_events request = None -> cal_components cal = [VEVENT v] ->
         compute_import parser_parse rrulestr from_ical isoformat
                        md5_hexdigest request now
         = (if master_kept (import_window now (days_limit request)) m
            then [m] else [])
         /\ (m ∈ compute_import parser_parse rrulestr from_ical isoformat
                   md5_hexdigest request now
             <-> (ev_end m > (import_window now (days_limit request)).1
                  /\ ev_start m < (import_window now (days_limit request)).2)
                 /\ (import_window now (days_limit request)).1
                    <= ev_start m))).
Proof.
  intros Hexpand. split.
  - intros raws r m text Hraw Hr Hnorm Hrule Htext Hparse.
    pose proof (compute_import_represents request now m) as Hrep.
    destruct (import_window now (days_limit request)) as [ws we] eqn:Hwin.
    simpl in *.
    pose proof (import_raw_event_fallback ws we r m text Hnorm Hrule Htext
                  Hparse) as Hfb.
    split; [rewrite Hfb; apply fallback_filtered|]. split.
    + intros Hkept. apply Hrep.
      * rewrite Hraw, Hexpand. apply elem_of_app. right.
        apply (elem_of_concat_fmap _ raws r); [exact Hr|].
        rewrite Hfb. apply master_kept_spec in Hkept.
        replace (intersects (ev_start m) (ev_end m) ws we) with true;
          [apply list_elem_of_here|].
        symmetry. unfold intersects. apply andb_true_iff.
        split; apply Z.ltb_lt; lia.
      * apply master_kept_spec in Hkept. unfold start_in_window.
        apply andb_true_iff. split; apply Z.leb_le; lia.
    + intros Hics ->.
      assert (Heq : import request now
                    = if master_kept (ws, we) m then [m] else []).
      { unfold compute_import. rewrite Hwin, Hics, Hraw, Hexpand. simpl.
        rewrite app_nil_r, Hfb, fallback_filtered.
        apply single_event_output. }
      split; [exact Heq|].
      rewrite Heq, single_event_elem. apply master_kept_spec.
  - intros content cal v dtstart text Hics Hcontent Hcal Hv Hstart Hrule
           Hparse m.
    pose proof (compute_import_represents request now m) as Hrep.
    destruct (import_window now (days_limit request)) as [ws we] eqn:Hwin.
    simpl in *.
    pose proof (parse_vevent_fallback ws we (default "Calendar" (cal_name cal))
                  v dtstart text Hstart Hrule Hparse) as Hfb.
    fold m in Hfb. apply String.eqb_neq in Hcontent.
    split; [rewrite Hfb; apply fallback_filtered|]. split.
    + intros Hkept. apply Hrep.
      * rewrite Hics, Hcontent, Hexpand. apply elem_of_app. left.
        unfold parse_ics. rewrite Hcal.
        apply (elem_of_concat_fmap _ (cal_components cal) (VEVENT v));
          [exact Hv|].
        rewrite Hfb. apply master_kept_spec in Hkept.
        replace (intersects (ev_start m) (ev_end m) ws we) with true;
          [apply list_elem_of_here|].
        symmetry. unfold intersects. apply andb_true_iff.
        split; apply Z.ltb_lt; lia.
      * apply master_kept_spec in Hkept. unfold start_in_window.
        apply andb_true_iff. split; apply Z.leb_le; lia.
    + intros Hraw Hcomp.
      assert (Heq : import request now
                    = if master_kept (ws, we) m then [m] else []).
      { unfold compute_import. rewrite Hwin, Hics, Hraw, Hexpand, Hcontent.
        unfold parse_ics. rewrite Hcal, Hcomp. simpl.
        rewrite !app_nil_r, Hfb, fallback_filtered.
        apply single_event_output. }
      split; [exact Heq|].
      rewrite Heq, single_event_elem. apply master_kept_spec.
Qed.

End Fallback.

(** A raw event from Sunday 23:30 to Monday 00:30 with a rule text that
    does not parse, and the request that imports it alone with
    [days_limit = 0] (the window is the current week, from Monday 00:00
    of day 98 to day 105). *)
Definition late_sunday_raw : RawEvent :=
  {| raw_calendar := "cal"; raw_start := "Sun 23:30"; raw_end := "Mon 00:30";
     raw_summary := "night shift"; raw_description := None;
     raw_attendees := []; raw_rrule := Some "FREQ=BOGUS";
     raw_all_day := None |}.

Definition single_raw_request (r : RawEvent) : ImportRequest :=
  {| ics_content := None; req_events := Some [r];
     req_timezone := "Europe/Moscow"; expand_recurring := true;
     horizon_days := 30; days_limit := Some 0 |}.

(** C2 (as stated) fails: the master occurrence Sunday 23:30 - Monday
    00:30 intersects the window that starts Monday 00:00, yet the output
    is empty, because [_compute_import] then keeps only events whose
    start lies in the window. *)
Lemma rrule_fallback_master_dropped_before_window :
  import_window (at_time 100 12 0) (Some 0) = (at_time 98 0 0, at_time 105 0 0)
  /\ intersects (at_time 97 23 30) (at_time 98 0 30)
                (at_time 98 0 0) (at_time 105 0 0) = true
  /\ forall (parser_parse : string -> option datetime)
            (rrulestr : string -> datetime -> option (list datetime))
            (from_ical : string -> option ICalendar)
            (isoformat : datetime -> string)
            (md5_hexdigest : string -> string),
       parser_parse "Sun 23:30" = Some (at_time 97 23 30) ->
       parser_parse "Mon 00:30" = Some (at_time 98 0 30) ->
       rrulestr "FREQ=BOGUS" (at_time 97 23 30) = None ->
       compute_import parser_parse rrulestr from_ical isoformat md5_hexdigest
                      (single_raw_request late_sunday_raw) (at_time 100 12 0)
       = [].
Proof.
  assert (Hwin : import_window (at_time 100 12 0) (Some 0)
                 = (at_time 98 0 0, at_time 105 0 0))
    by (vm_compute; reflexivity).
  split; [exact Hwin|]. split; [vm_compute; reflexivity|].
  intros parser_parse rrulestr from_ical isoformat md5_hexdigest H1 H2 H3.
  unfold compute_import, single_raw_request. simpl days_limit.
  rewrite Hwin. simpl.
  unfold import_raw_event, normalize_event, parse_datetime_string. simpl.
  rewrite H1, H2. simpl. unfold expand_rrule. simpl.
  replace (if at_time 98 0 30 <=? at_time 97 23 30
           then at_time 97 23 30 + hours 1 else at_time 98 0 30)
    with (at_time 98 0 30) by (vm_compute; reflexivity).
  rewrite H3.
  replace (intersects (at_time 97 23 30) (at_time 98 0 30)
                      (at_time 98 0 0) (at_time 105 0 0))
    with true by (vm_compute; reflexivity).
  simpl. unfold start_in_window. simpl ev_start.
  replace ((at_time 98 0 0 <=? at_time 97 23 30)
           && (at_time 97 23 30 <=? at_time 105 0 0))
    with false by (vm_compute; reflexivity).
  reflexivity.
Qed.

(** Library functions for the examples: a parser that reads two texts,
    a rule parser that rejects every text, no calendar, and constant
    formatting and hashing. *)
Definition example_parse (text : string) : option datetime :=
  if String.eqb text "Mon 09:00" then Some (at_time 98 9 0)
  else if String.eqb text "Mon 10:00" then Some (at_time 98 10 0)
  else None.

Definition monday_raw : RawEvent :=
  {| raw_calendar := "cal"; raw_start := "Mon 09:00"; raw_end := "Mon 10:00";
     raw_summary := "standup"; raw_description := None;
     raw_attendees := []; raw_rrule := Some "FREQ=BOGUS";
     raw_all_day := None |}.

(** The theorem at a Monday 09:00-10:00 event inside the week's window:
    the master is the output. *)
Lemma rrule_fallback_master_in_output_witness :
  expand_recurring (single_raw_request monday_raw) = true
  /\ compute_import example_parse (fun _ _ => None) (fun _ => None)
       (fun _ => "") (fun text => text)
       (single_raw_request monday_raw) (at_time 100 12 0)
     = [ mkEvent "cal" (at_time 98 9 0) (at_time 98 10 0) "standup" "" []
                 false false ].
Proof.
  split; [reflexivity|].
  destruct (rrule_fallback_master_in_output example_parse (fun _ _ => None)
              (fun _ => None) (fun _ => "") (fun text => text)
              (single_raw_request monday_raw) (at_time 100 12 0) eq_refl)
    as [Hraw _].
  destruct (Hraw [monday_raw] monday_raw
              (mkEvent "cal" (at_time 98 9 0) (at_time 98 10 0) "standup" ""
                       [] false false)
              "FREQ=BOGUS" eq_refl (list_elem_of_here _ _) eq_refl eq_refl
              ltac:(discriminate) eq_refl) as (_ & _ & Halone).
  destruct (Halone eq_refl eq_refl) as [Heq _].
  exact (eq_trans Heq eq_refl).
Defined.

(** *** The invariant end > start *)

(** The raw-event path: a normalized event ends after it starts, and its
    end is the parsed end when that lies after the start, the start plus
    one hour otherwise. *)
Lemma normalize_event_end_after_start
    (parser_parse : string -> option datetime) (r : RawEvent) (m : Event) :
  normalize_event parser_parse r = Some m ->
  ev_start m < ev_end m
  /\ exists s e,
       parse_datetime_string parser_parse (raw_start r) = Some s
       /\ parse_datetime_string parser_parse (raw_end r) = Some e
       /\ ev_start m = s
       /\ ev_end m = (if e <=? s then s + hours 1 else e).
Proof.
  unfold normalize_event.
  destruct (parse_datetime_string parser_parse (raw_start r)) as [s|];
    [|discriminate].
  destruct (parse_datetime_string parser_parse (raw_end r)) as [e|];
    [|discriminate].
  simpl. intros [= <-]. simpl. split.
  - destruct (e <=? s) eqn:Hle; [unfold hours, usec_per_hour; lia|].
    apply Z.leb_gt in Hle. lia.
  - by exists s, e.
Qed.

(** The lemma at a raw event whose end text denotes 09:00 and whose start
    text denotes 10:00: the end is corrected to 11:00. *)
Lemma normalize_event_end_after_start_witness :
  normalize_event example_parse
    (mkRaw "cal" "Mon 10:00" "Mon 09:00" "review" None [] None None)
  = Some (mkEvent "cal" (at_time 98 10 0) (at_time 98 11 0) "review" "" []
                  false false)
  /\ at_time 98 10 0 < at_time 98 11 0.
Proof.
  assert (H : normalize_event example_parse
                (mkRaw "cal" "Mon 10:00" "Mon 09:00" "review" None [] None
                       None)
              = Some (mkEvent "cal" (at_time 98 10 0) (at_time 98 11 0)
                              "review" "" [] false false))
    by (vm_compute; reflexivity).
  split; [exact H|].
  exact (proj1 (normalize_event_end_after_start example_parse _ _ H)).
Defined.

(** A VEVENT from 10:00 to 09:00 of the same day, no rule. *)
Definition backwards_vevent : VEvent :=
  {| ve_summary := "review"; ve_description := "";
     ve_attendees := [];
     ve_dtstart := Some (ICalDateTime (at_time 100 10 0));
     ve_dtend := Some (ICalDateTime (at_time 100 9 0));
     ve_rrule := None |}.

(** C5 fails on the ICS path: [_parse_ics] keeps the parsed end of a
    VEVENT whose DTEND lies before its DTSTART, so the imported event has
    [end < start]: the loop body returns it (on the unbounded window; any
    window that holds the event does the same), and so does the whole
    import of a calendar that holds this one VEVENT, whatever the library
    functions are. *)
Theorem parse_ics_keeps_end_before_start
    (rrulestr : string -> datetime -> option (list datetime)) :
  parse_vevent rrulestr "Calendar" true datetime_min datetime_max
               backwards_vevent
  = [ mkEvent "Calendar" (at_time 100 10 0) (at_time 100 9 0) "review" "" []
              false false ]
  /\ at_time 100 9 0 < at_time 100 10 0
  /\ forall (parser_parse : string -> option datetime)
            (from_ical : string -> option ICalendar)
            (isoformat : datetime -> string)
            (md5_hexdigest : string -> string) (now : datetime),
       from_ical "BEGIN:VCALENDAR"
         = Some (mkCalendar None [VEVENT backwards_vevent]) ->
       compute_import parser_parse rrulestr from_ical isoformat md5_hexdigest
         {| ics_content := Some "BEGIN:VCALENDAR"; req_events := None;
            req_timezone := "Europe/Moscow"; expand_recurring := true;
            horizon_days := 30; days_limit := None |} now
       = [ mkEvent "Calendar" (at_time 100 10 0) (at_time 100 9 0) "review"
                   "" [] false false ].
Proof.
  assert (Hloop : parse_vevent rrulestr "Calendar" true datetime_min
                    datetime_max backwards_vevent
                  = [ mkEvent "Calendar" (at_time 100 10 0) (at_time 100 9 0)
                              "review" "" [] false false ]).
  { unfold parse_vevent, backwards_vevent. simpl.
    unfold intersects, start_in_window. simpl.
    replace ((datetime_min <? at_time 100 9 0)
             && (at_time 100 10 0 <? datetime_max))
      with true by (vm_compute; reflexivity).
    replace ((datetime_min <=? at_time 100 10 0)
             && (at_time 100 10 0 <=? datetime_max))
      with true by (vm_compute; reflexivity).
    reflexivity. }
  split; [exact Hloop|]. split; [vm_compute; reflexivity|].
  intros parser_parse from_ical isoformat md5_hexdigest now Hcal.
  unfold compute_import, import_window, parse_ics.
  cbn -[parse_vevent datetime_min datetime_max at_time].
  rewrite Hcal.
  cbn -[parse_vevent datetime_min datetime_max at_time].
  rewrite Hloop. simpl.
  unfold start_in_window. simpl ev_start.
  replace ((datetime_min <=? at_time 100 10 0)
           && (at_time 100 10 0 <=? datetime_max))
    with true by (vm_compute; reflexivity).
  unfold deduplicate_events. simpl.
  destruct (decide _) as [Hin|_]; [by apply elem_of_empty in Hin|].
  reflexivity.
Qed.

End ImporterFacts.

(** ** Classification: priority *)

Module EnricherFacts.
Import Clock Schemas Enricher.

(** *** Hours of the day *)

Lemma hour_of_before (t : datetime) (h : Z) :
  0 <= h -> (hour_of t < h <-> t mod usec_per_day < hours h).
Proof.
  unfold hour_of, hours, usec_per_day, usec_per_hour. intros Hh.
  Z.div_mod_to_equations. lia.
Qed.

Lemma hour_of_after (t : datetime) (h : Z) :
  0 <= h -> (h < hour_of t <-> hours (h + 1) <= t mod usec_per_day).
Proof.
  unfold hour_of, hours, usec_per_day, usec_per_hour. intros Hh.
  Z.div_mod_to_equations. lia.
Qed.

(** *** Priority *)

(** An event taken as example: a dinner at 20:30 with no attendee. *)
Definition dinner_at_2030 : Event :=
  mkEvent "cal" (at_time 100 20 30) (at_time 100 21 30) "Dinner" "" []
          false false.

(** C7 (as stated) fails: an event that starts at 20:30, after 20:00,
    with no urgency keyword, no attendee and no mention of a routine has
    priority "regular", because the code compares the hour of day with
    20. *)
Lemma priority_regular_after_2000 :
  determine_priority ascii_lower dinner_at_2030 = REGULAR
  /\ hours 20 < ev_start dinner_at_2030 mod usec_per_day
  /\ existsb (fun keyword => contains (ascii_lower keyword)
                               (event_text ascii_lower dinner_at_2030))
             PRIORITY_KEYWORDS_high = false
  /\ length (ev_attendees dinner_at_2030) = 0%nat
  /\ contains "routine" (event_text ascii_lower dinner_at_2030) = false
  /\ contains "рутин" (event_text ascii_lower dinner_at_2030) = false.
Proof. repeat split; vm_compute; reflexivity. Qed.

Section Priority.

Variable lower : string -> string.

(** The three grounds for a high priority, as the code tests them. *)
Definition has_urgency_keyword (event : Event) : Prop :=
  exists keyword,
    In keyword PRIORITY_KEYWORDS_high
    /\ contains (lower keyword) (event_text lower event) = true.

Definition has_many_attendees (event : Event) : Prop :=
  (5 < length (ev_attendees event))%nat.

Definition off_hours_and_no_routine (event : Event) : Prop :=
  (hour_of (ev_start event) < 8 \/ 20 < hour_of (ev_start event))
  /\ contains "рутин" (event_text lower event) = false
  /\ contains "routine" (event_text lower event) = false.

(** The tests of [_determine_priority], as one boolean. *)
Definition high_priority_test (event : Event) : bool :=
  existsb (fun keyword => contains (lower keyword) (event_text lower event))
          PRIORITY_KEYWORDS_high
  || (5 <? length (ev_attendees event))%nat
  || ((hour_of (ev_start event) <? 8) || (20 <? hour_of (ev_start event)))
     && negb (contains "рутин" (event_text lower event))
     && negb (contains "routine" (event_text lower event)).

Lemma determine_priority_test (event : Event) :
  determine_priority lower event
  = if high_priority_test event then HIGH else REGULAR.
Proof.
  unfold determine_priority, high_priority_test.
  destruct (existsb _ _); [reflexivity|].
  destruct (5 <? length (ev_attendees event))%nat; [reflexivity|].
  simpl. by destruct (_ && _ && _).
Qed.

Lemma high_priority_test_spec (event : Event) :
  high_priority_test event = true
  <-> has_urgency_keyword event \/ has_many_attendees event
      \/ off_hours_and_no_routine event.
Proof.
  unfold high_priority_test, has_urgency_keyword, has_many_attendees,
    off_hours_and_no_routine.
  rewrite !orb_true_iff, !andb_true_iff, !orb_true_iff, !negb_true_iff,
    existsb_exists, Nat.ltb_lt, !Z.ltb_lt.
  tauto.
Qed.

(** C7 (amended).  The priority is "high" exactly when the lower-cased
    summary+description text contains an urgency keyword, or the attendee
    count exceeds 5, or the hour of day of the start is below 8 or above
    20 (the event starts before 08:00, or at 21:00 or later) and the text
    mentions neither "рутин" nor "routine"; in every other case it is
    "regular". *)
Theorem determine_priority_high_iff (event : Event) :
  (determine_priority lower event = HIGH
   <-> has_urgency_keyword event \/ has_many_attendees event
       \/ off_hours_and_no_routine event)
  /\ (determine_priority lower event = REGULAR
      <-> ~ (has_urgency_keyword event \/ has_many_attendees event
             \/ off_hours_and_no_routine event))
  /\ (hour_of (ev_start event) < 8
      <-> ev_start event mod usec_per_day < hours 8)
  /\ (20 < hour_of (ev_start event)
      <-> hours 21 <= ev_start event mod usec_per_day).
Proof.
  assert (Hhigh : determine_priority lower event = HIGH
                  <-> has_urgency_keyword event \/ has_many_attendees event
                      \/ off_hours_and_no_routine event).
  { rewrite determine_priority_test. destruct (high_priority_test event) eqn:Ht.
    - split; [intros _|done]. by apply high_priority_test_spec.
    - split; [done|]. intros H. apply high_priority_test_spec in H.
      congruence. }
  split; [exact Hhigh|]. split.
  - rewrite <- Hhigh.
    destruct (determine_priority lower event); split; intros H;
      first [discriminate | reflexivity | by exfalso; apply H
            | intros Habs; discriminate ].
  - split; [by apply hour_of_before|].
    change (hours 21) with (hours (20 + 1)). by apply hour_of_after.
Qed.

End Priority.

End EnricherFacts.

(** ** Habit analysis: time windows *)

(** *** The order of binary64 values *)

Module FloatOrder.

(** The order [<=] of binary64 values, through its specification on
    [spec_float]. *)

Lemma SFleb_trans (a b c : spec_float) :
  SFleb a b = true -> SFleb b c = true -> SFleb a c = true.
Proof.
  unfold SFleb.
  destruct a as [sa|sa| |sa ma ea], b as [sb|sb| |sb mb eb],
           c as [sc|sc| |sc mc ec]; simpl;
    repeat match goal with s : bool |- _ => destruct s end; simpl;
    try (intros; (reflexivity || discriminate)).
  all: change (Pos.compare_cont Eq ma mb) with (Pos.compare ma mb).
  all: change (Pos.compare_cont Eq mb mc) with (Pos.compare mb mc).
  all: change (Pos.compare_cont Eq ma mc) with (Pos.compare ma mc).
  all: destruct (Z.compare_spec ea eb), (Z.compare_spec eb ec),
         (Z.compare_spec ea ec); simpl;
       try (intros; (reflexivity || discriminate || lia)).
  all: destruct (Pos.compare_spec ma mb), (Pos.compare_spec mb mc),
         (Pos.compare_spec ma mc); simpl;
       try (intros; (reflexivity || discriminate || lia)).
Qed.

Lemma SFleb_total (a b : spec_float) :
  SFleb a a = true -> SFleb b b = true ->
  SFleb a b = false -> SFleb b a = true.
Proof.
  unfold SFleb.
  destruct a as [sa|sa| |sa ma ea], b as [sb|sb| |sb mb eb]; simpl;
    repeat match goal with s : bool |- _ => destruct s end; simpl;
    try (intros; (reflexivity || discriminate)).
  all: change (Pos.compare_cont Eq ma mb) with (Pos.compare ma mb).
  all: change (Pos.compare_cont Eq mb ma) with (Pos.compare mb ma).
  all: intros _ _.
  all: destruct (Z.compare_spec ea eb), (Z.compare_spec eb ea); simpl;
       try (intros; (reflexivity || discriminate || lia)).
  all: destruct (Pos.compare_spec ma mb), (Pos.compare_spec mb ma); simpl;
       try (intros; (reflexivity || discriminate || lia)).
Qed.

Lemma SFleb_refl_l (a b : spec_float) : SFleb a b = true -> SFleb a a = true.
Proof.
  unfold SFleb.
  destruct a as [sa|sa| |sa ma ea], b as [sb|sb| |sb mb eb]; simpl;
    repeat match goal with s : bool |- _ => destruct s end; simpl;
    try (intros; (reflexivity || discriminate)).
  all: intros _; rewrite Z.compare_refl.
  all: change (Pos.compare_cont Eq ma ma) with (Pos.compare ma ma).
  all: by rewrite Pos.compare_refl.
Qed.

Lemma SFleb_refl_r (a b : spec_float) : SFleb a b = true -> SFleb b b = true.
Proof.
  unfold SFleb.
  destruct a as [sa|sa| |sa ma ea], b as [sb|sb| |sb mb eb]; simpl;
    repeat match goal with s : bool |- _ => destruct s end; simpl;
    try (intros; (reflexivity || discriminate)).
  all: intros _; rewrite Z.compare_refl.
  all: change (Pos.compare_cont Eq mb mb) with (Pos.compare mb mb).
  all: by rewrite Pos.compare_refl.
Qed.

Lemma leb_trans (x y z : float) :
  (x <=? y)%float = true -> (y <=? z)%float = true -> (x <=? z)%float = true.
Proof. rewrite !FloatAxioms.leb_spec. apply SFleb_trans. Qed.

(** A value that compares with something is not a NaN, and two such
    values are comparable. *)
Lemma leb_total (x y lo hi : float) :
  (lo <=? x)%float = true -> (y <=? hi)%float = true ->
  (x <=? y)%float = false -> (y <=? x)%float = true.
Proof.
  rewrite !FloatAxioms.leb_spec. intros Hx Hy.
  apply SFleb_total; [by apply SFleb_refl_r in Hx|by apply SFleb_refl_l in Hy].
Qed.

(** The test [0 <= x <= 1] of the models' [Field(ge=0.0, le=1.0)]. *)
Definition in_unit (x : float) : bool := ((0 <=? x) && (x <=? 1))%float.

Lemma ltb_leb (x y : float) :
  (x <? y)%float = true -> (x <=? y)%float = true.
Proof.
  rewrite FloatAxioms.ltb_spec, FloatAxioms.leb_spec. unfold SFltb, SFleb.
  by destruct (SFcompare (Prim2SF x) (Prim2SF y)) as [[| |]|].
Qed.

(** [max(0.0, min(1.0, x))] lies between 0 and 1 for every binary64
    value [x], a NaN included. *)
Lemma clamp_unit (x : float) :
  (0 <=? PyFloat.max 0 (PyFloat.min 1 x))%float = true
  /\ (PyFloat.max 0 (PyFloat.min 1 x) <=? 1)%float = true.
Proof.
  unfold PyFloat.max, PyFloat.min.
  destruct (x <? 1)%float eqn:Hx1.
  - destruct (0 <? x)%float eqn:H0x.
    + split; by apply ltb_leb.
    + split; reflexivity.
  - replace (0 <? 1)%float with true by reflexivity. split; reflexivity.
Qed.

Lemma clamp_in_unit (x : float) :
  in_unit (PyFloat.max 0 (PyFloat.min 1 x)) = true.
Proof.
  unfold in_unit. destruct (clamp_unit x) as [H0 H1]. by rewrite H0, H1.
Qed.

End FloatOrder.

Module AnalyzerFacts.
Import Clock Schemas Analyzer.

(** *** The sort of the hour values *)

Lemma insert_float_length (x : float) (l : list float) :
  length (PyFloat.insert_float x l) = S (length l).
Proof.
  induction l as [|y l IH]; simpl; [done|].
  destruct (x <=? y)%float; simpl; by rewrite ?IH.
Qed.

Lemma sort_floats_length (l : list float) :
  length (PyFloat.sort_floats l) = length l.
Proof.
  induction l as [|x l IH]; simpl; [done|].
  by rewrite insert_float_length, IH.
Qed.

(** Ascending order of binary64 values. *)
Definition ascending (l : list float) : Prop :=
  StronglySorted (fun a b => (a <=? b)%float = true) l.

(** A value that is not a NaN: it compares with itself. *)
Definition comparable (x : float) : Prop := (x <=? x)%float = true.

Lemma leb_comparable (x y : float) :
  comparable x -> comparable y ->
  (x <=? y)%float = false -> (y <=? x)%float = true.
Proof.
  unfold comparable. rewrite !FloatAxioms.leb_spec.
  apply FloatOrder.SFleb_total.
Qed.

Lemma insert_float_perm (x : float) (l : list float) :
  PyFloat.insert_float x l ≡ₚ x :: l.
Proof.
  induction l as [|y l IH]; simpl; [done|].
  destruct (x <=? y)%float; [done|].
  rewrite IH. apply Permutation_swap.
Qed.

Lemma sort_floats_perm (l : list float) : PyFloat.sort_floats l ≡ₚ l.
Proof.
  induction l as [|x l IH]; simpl; [done|].
  by rewrite insert_float_perm, IH.
Qed.

Lemma insert_float_ascending (x : float) (l : list float) :
  comparable x -> Forall comparable l ->
  ascending l -> ascending (PyFloat.insert_float x l).
Proof.
  intros Hx Hl Hs. induction Hs as [|y l Hs IH Hy]; simpl.
  - repeat constructor.
  - apply Forall_cons in Hl as [Hyc Hl].
    destruct (x <=? y)%float eqn:Hxy.
    + constructor; [by constructor|]. constructor; [exact Hxy|].
      eapply Forall_impl; [exact Hy|]. simpl. intros z Hz.
      by apply (FloatOrder.leb_trans x y z).
    + constructor; [by apply IH|].
      rewrite insert_float_perm. constructor; [|exact Hy].
      by apply leb_comparable.
Qed.

Lemma sort_floats_ascending (l : list float) :
  Forall comparable l -> ascending (PyFloat.sort_floats l).
Proof.
  induction 1 as [|x l Hx Hl IH]; simpl; [constructor|].
  apply insert_float_ascending; [exact Hx| |exact IH].
  by rewrite sort_floats_perm.
Qed.

(** *** The hour values are numbers *)

(** [hour + minute / 60] *)
Definition hour_minute_value (h m : Z) : float :=
  (PyFloat.of_Z h + PyFloat.of_Z m / 60)%float.

Lemma hour_minute_table :
  forallb (fun h =>
             forallb (fun m =>
                        (hour_minute_value h m <=? hour_minute_value h m)%float)
                     (seqZ 0 60))
          (seqZ 0 24) = true.
Proof. vm_compute. reflexivity. Qed.

Lemma hour_of_in_day (t : datetime) : 0 <= hour_of t < 24.
Proof.
  unfold hour_of, usec_per_day, usec_per_hour.
  Z.div_mod_to_equations. lia.
Qed.

Lemma minute_of_in_hour (t : datetime) : 0 <= minute_of t < 60.
Proof.
  unfold minute_of, usec_per_hour, usec_per_minute.
  Z.div_mod_to_equations. lia.
Qed.

Lemma hour_value_comparable (t : datetime) : comparable (hour_value t).
Proof.
  unfold comparable.
  change (hour_value t) with (hour_minute_value (hour_of t) (minute_of t)).
  pose proof hour_minute_table as Htable.
  rewrite forallb_forall in Htable.
  specialize (Htable (hour_of t)).
  rewrite forallb_forall in Htable.
  apply Htable.
  - apply list_elem_of_In, elem_of_seqZ. pose proof (hour_of_in_day t). lia.
  - apply list_elem_of_In, elem_of_seqZ. pose proof (minute_of_in_hour t). lia.
Qed.

(** *** The windows *)

(** The two series of a list of events. *)
Definition start_hours (events : list EnrichedEvent) : list float :=
  (fun e => hour_value (en_start e)) <$> events.

Definition end_hours (events : list EnrichedEvent) : list float :=
  (fun e => hour_value (en_end e)) <$> events.

Section Windows.

Variable stdev : list float -> float.

(** [clamp(x, lo, hi)] *)
Definition clamp (x lo hi : float) : float :=
  PyFloat.max lo (PyFloat.min hi x).

(** The window the specification describes for a category with [n]
    samples, from the two series in ascending order: the start-hour value
    at index [n/4] and the end-hour value at index [3*n/4]; the end moved
    to start + 1 when the window is narrower than one hour; the
    confidence clamped from the two standard deviations. *)
Definition quantile_window (starts ends : list float) (n : nat)
    : TimeWindow :=
  let window_start := nth (n / 4) starts 0%float in
  let quantile_end := nth (3 * n / 4) ends 0%float in
  let window_end :=
    if (quantile_end - window_start <? 1)%float
    then (window_start + 1)%float else quantile_end in
  {| tw_start := format_hhmm window_start;
     tw_end := format_hhmm window_end;
     tw_confidence := clamp (2 - (stdev starts + stdev ends) / 2)%float 0 1;
     tw_sample_size := n |}.

(** The built-in window of a category, with confidence 0. *)
Definition default_window (t : EventType) (sample_size : nat) : TimeWindow :=
  {| tw_start := (default_time_windows t).1;
     tw_end := (default_time_windows t).2;
     tw_confidence := 0;
     tw_sample_size := sample_size |}.

Lemma calculate_time_window_quantile (events : list EnrichedEvent) :
  (3 <= length events)%nat ->
  calculate_time_window stdev events
  = quantile_window (PyFloat.sort_floats (start_hours events))
                    (PyFloat.sort_floats (end_hours events))
                    (length events).
Proof.
  intros Hn.
  unfold calculate_time_window, quantile_window, start_hours, end_hours.
  destruct events as [|e events]; [simpl in Hn; lia|].
  rewrite !sort_floats_length, !length_fmap.
  replace (3 <=? length (e :: events))%nat with true
    by (symmetry; by apply Nat.leb_le).
  reflexivity.
Qed.

Lemma series_sorted (events : list EnrichedEvent) :
  PyFloat.sort_floats (start_hours events) ≡ₚ start_hours events
  /\ ascending (PyFloat.sort_floats (start_hours events))
  /\ PyFloat.sort_floats (end_hours events) ≡ₚ end_hours events
  /\ ascending (PyFloat.sort_floats (end_hours events)).
Proof.
  split; [apply sort_floats_perm|]. split.
  { apply sort_floats_ascending, Forall_fmap, Forall_forall.
    intros e _. apply hour_value_comparable. }
  split; [apply sort_floats_perm|].
  apply sort_floats_ascending, Forall_fmap, Forall_forall.
  intros e _. apply hour_value_comparable.
Qed.

Lemma window_of_analyze (events : list EnrichedEvent) (min_sample_size : Z)
    (t : EventType) :
  window_of (analyze_time_windows stdev events min_sample_size) t
  = Some (if min_sample_size
             <=? Z.of_nat (length (events_of_type t events))
          then calculate_time_window stdev (events_of_type t events)
          else default_window t (length (events_of_type t events))).
Proof. destruct t; reflexivity. Qed.


End Windows.

(** [statistics.stdev] computed in binary64 (sample standard deviation
    from the mean); an instance for the examples. *)
Definition float_sum (l : list float) : float :=
  fold_left (fun acc x => (acc + x)%float) l 0%float.

Definition float_stdev (l : list float) : float :=
  let n := PyFloat.of_Z (Z.of_nat (length l)) in
  let mean := (float_sum l / n)%float in
  let ss := float_sum ((fun x => ((x - mean) * (x - mean))%float) <$> l) in
  PrimFloat.sqrt (ss / (n - 1))%float.

Definition work_event (s e : datetime) : EnrichedEvent :=
  mkEnriched (mkEvent "cal" s e "standup" "" [] false false) WORK REGULAR.

(** Four work sessions, not in the order of their hours: 11:00-12:00,
    09:00-09:30, 10:00-11:00 and 08:00-08:30. *)
Definition sessions : list EnrichedEvent :=
  [ work_event (at_time 100 11 0) (at_time 100 12 0);
    work_event (at_time 101 9 0) (at_time 101 9 30);
    work_event (at_time 102 10 0) (at_time 102 11 0);
    work_event (at_time 103 8 0) (at_time 103 8 30) ].


(** The "HH:MM" rendering truncates a binary64 product, so it can show
    the minute before: 16:01 is rendered "16:00". *)
Example format_hhmm_truncates :
  format_hhmm (hour_value (at_time 100 16 1)) = "16:00".
Proof. vm_compute. reflexivity. Qed.

End AnalyzerFacts.

(** ** Recommendation: free slots *)

Module RecommenderFacts.
Import Clock Schemas Recommender.

(** *** Day arithmetic *)

Lemma date_of_lower (t : datetime) : days (date_of t) <= t.
Proof. unfold days, date_of, usec_per_day. Z.div_mod_to_equations. lia. Qed.

Lemma date_of_upper (t : datetime) : t < days (date_of t + 1).
Proof. unfold days, date_of, usec_per_day. Z.div_mod_to_equations. lia. Qed.

Lemma days_mono (a b : Z) : a <= b -> days a <= days b.
Proof. unfold days, usec_per_day. lia. Qed.

Lemma time_replace_hour_Some (h : Z) (t : timedelta) :
  time_replace_hour h = Some t -> 0 <= t <= hours 23.
Proof.
  unfold time_replace_hour, hours, usec_per_hour.
  destruct (0 <=? h) eqn:H0; destruct (h <=? 23) eqn:H1; simpl; try discriminate.
  intros [= <-]. lia.
Qed.

Lemma time_replace_hour_valid (h : Z) :
  0 <= h <= 23 -> time_replace_hour h = Some (hours h).
Proof.
  intros [H0 H1]. unfold time_replace_hour.
  apply Z.leb_le in H0, H1. now rewrite H0, H1.
Qed.

(** *** Separation of a slot from an interval *)

Definition iv_ok (b : interval) : Prop := instant b.1 <= instant b.2.

(** The slot lies wholly before or wholly after the interval. *)
Definition apart (s : TimeSlot) (b : interval) : Prop :=
  slot_end s <= instant b.1 \/ instant b.2 <= slot_start s.

Definition before (a c : TimeSlot) : Prop := slot_end a <= slot_start c.

Definition le_start (a b : interval) : Prop := instant a.1 <= instant b.1.

(** Both bounds read their date on the clock of the time line. *)
Definition on_line (b : interval) : Prop :=
  offset b.1 = 0 /\ offset b.2 = 0.

Lemma local_date_on_line (t : aware) :
  offset t = 0 -> local_date t = date_of (instant t).
Proof. intros H. unfold local_date. rewrite H. f_equal. lia. Qed.

Lemma instant_max_aware (a b : aware) :
  instant (max_aware a b) = Z.max (instant a) (instant b).
Proof.
  unfold max_aware. destruct (instant a <? instant b) eqn:H.
  - apply Z.ltb_lt in H. lia.
  - apply Z.ltb_ge in H. lia.
Qed.

Lemma offset_max_aware (a b : aware) :
  offset a = 0 -> offset b = 0 -> offset (max_aware a b) = 0.
Proof. intros Ha Hb. unfold max_aware. by destruct (instant a <? instant b). Qed.

(** *** The sort *)

Lemma insert_by_start_elem (x y : interval) (l : list interval) :
  y ∈ insert_by_start x l <-> y = x \/ y ∈ l.
Proof.
  induction l as [|z l IH]; simpl.
  - rewrite list_elem_of_singleton, elem_of_nil. tauto.
  - destruct (instant x.1 <=? instant z.1); rewrite !elem_of_cons; [tauto|].
    rewrite IH. tauto.
Qed.

Lemma sort_by_start_elem (y : interval) (l : list interval) :
  y ∈ sort_by_start l <-> y ∈ l.
Proof.
  induction l as [|x l IH]; simpl; [done|].
  rewrite insert_by_start_elem, elem_of_cons, IH. tauto.
Qed.

Lemma insert_by_start_sorted (x : interval) (l : list interval) :
  StronglySorted le_start l -> StronglySorted le_start (insert_by_start x l).
Proof.
  induction 1 as [|z l Hl IH Hz]; simpl.
  - repeat constructor.
  - destruct (instant x.1 <=? instant z.1) eqn:Hxz.
    + apply Z.leb_le in Hxz. constructor; [by constructor|].
      constructor; [exact Hxz|].
      eapply Forall_impl; [exact Hz|]. unfold le_start. intros; lia.
    + apply Z.leb_gt in Hxz. constructor; [exact IH|].
      apply Forall_forall. intros y Hy.
      apply insert_by_start_elem in Hy as [->|Hy].
      * unfold le_start. lia.
      * eapply Forall_forall in Hz; eauto.
Qed.

Lemma sort_by_start_sorted (l : list interval) :
  StronglySorted le_start (sort_by_start l).
Proof.
  induction l; simpl; [constructor | by apply insert_by_start_sorted].
Qed.

(** *** The merge *)

Definition covered_by (l : list interval) (x : interval) : Prop :=
  exists a, a ∈ l /\ instant a.1 <= instant x.1
            /\ instant x.2 <= instant a.2.

(** Two intervals apart, the first wholly before the second. *)
Definition separated (a b : interval) : Prop := instant a.2 < instant b.1.

(** State of the merge loop: the reversed accumulator holds well-formed
    intervals, each wholly after the ones below it, and no start read
    later is smaller than one of theirs. *)
Definition merge_state (acc rest : list interval) : Prop :=
  Forall iv_ok acc /\ StronglySorted (flip separated) acc /\
  Forall (fun a => Forall (le_start a) rest) acc.

Lemma merge_step_state (acc rest : list interval) (r : interval) :
  iv_ok r -> Forall (le_start r) rest ->
  merge_state acc (r :: rest) -> merge_state (merge_step acc r) rest.
Proof.
  intros Hr Hrest (Hok & Hs & Hle). unfold merge_step.
  destruct acc as [|last before].
  - repeat split; repeat constructor; auto.
  - apply Forall_cons in Hok as [Hlast Hok].
    apply StronglySorted_cons in Hs as [Hlb Hs].
    apply Forall_cons in Hle as [Hl1 Hle].
    apply Forall_cons in Hl1 as [Hlr Hl1].
    destruct (instant r.1 <=? instant last.2) eqn:Hm.
    + repeat split.
      * constructor; [|exact Hok]. unfold iv_ok in *; simpl.
        rewrite instant_max_aware. lia.
      * apply StronglySorted_cons. split; [|exact Hs].
        eapply Forall_impl; [exact Hlb|]. unfold flip, separated. simpl. auto.
      * constructor.
        -- eapply Forall_impl; [exact Hl1|]. unfold le_start. simpl. auto.
        -- eapply Forall_impl; [exact Hle|]. simpl.
           intros a Ha. by apply Forall_cons in Ha as [_ Ha].
    + apply Z.leb_gt in Hm. repeat split.
      * by repeat constructor.
      * apply StronglySorted_cons. split; [|by apply StronglySorted_cons].
        constructor; [exact Hm|].
        eapply Forall_impl; [exact Hlb|]. unfold flip, separated, iv_ok in *.
        simpl. intros; lia.
      * constructor; [exact Hrest|]. constructor; [exact Hl1|].
        eapply Forall_impl; [exact Hle|]. simpl.
        intros a Ha. by apply Forall_cons in Ha as [_ Ha].
Qed.

Lemma merge_step_cover (acc : list interval) (r x : interval) :
  Forall (fun a => le_start a r) acc ->
  x = r \/ covered_by acc x -> covered_by (merge_step acc r) x.
Proof.
  intros Hle Hx. unfold merge_step.
  destruct acc as [|last before].
  - destruct Hx as [->|(a & Ha & _)]; [|by apply elem_of_nil in Ha].
    exists r. rewrite list_elem_of_singleton. split; [done|lia].
  - apply Forall_cons in Hle as [Hlast _]. unfold le_start in Hlast.
    destruct (instant r.1 <=? instant last.2) eqn:Hm.
    + destruct Hx as [->|(a & Ha & Ha1 & Ha2)].
      * eexists. split; [apply list_elem_of_here|]. simpl.
        rewrite instant_max_aware. lia.
      * apply elem_of_cons in Ha as [->|Ha].
        -- eexists. split; [apply list_elem_of_here|]. simpl.
           rewrite instant_max_aware. lia.
        -- exists a. split; [by apply list_elem_of_further|lia].
    + destruct Hx as [->|(a & Ha & Ha1 & Ha2)].
      * exists r. split; [apply list_elem_of_here|lia].
      * exists a. split; [by apply list_elem_of_further|lia].
Qed.

Lemma merge_loop (rest acc : list interval) :
  Forall iv_ok rest -> StronglySorted le_start rest -> merge_state acc rest ->
  merge_state (fold_left merge_step rest acc) [] /\
  forall x, x ∈ rest \/ covered_by acc x ->
            covered_by (fold_left merge_step rest acc) x.
Proof.
  revert acc. induction rest as [|r rest IH]; intros acc Hok Hs Hst; simpl.
  - split; [exact Hst|]. intros x [Hx|Hx]; [by apply elem_of_nil in Hx|exact Hx].
  - apply Forall_cons in Hok as [Hr Hok].
    apply StronglySorted_cons in Hs as [Hrr Hs].
    destruct (IH (merge_step acc r) Hok Hs) as [Hfin Hcov].
    { by apply merge_step_state. }
    split; [exact Hfin|]. intros x Hx. apply Hcov.
    assert (Hacc : Forall (fun a => le_start a r) acc).
    { destruct Hst as (_ & _ & Hle). eapply Forall_impl; [exact Hle|]. simpl.
      intros a Ha. by apply Forall_cons in Ha as [Ha _]. }
    destruct Hx as [Hx|Hx].
    + apply elem_of_cons in Hx as [->|Hx]; [|by left].
      right. apply merge_step_cover; auto.
    + right. apply merge_step_cover; auto.
Qed.

Lemma StronglySorted_reverse_flip {A} (R : relation A) (l : list A) :
  StronglySorted (flip R) l -> StronglySorted R (reverse l).
Proof.
  induction 1 as [|a l Hl IH Ha]; [constructor|].
  rewrite reverse_cons.
  apply StronglySorted_app.
  split; [|split; [exact IH|repeat constructor]].
  intros x1 x2 Hx1 Hx2. apply list_elem_of_singleton in Hx2 as ->.
  rewrite elem_of_reverse in Hx1.
  exact (proj1 (Forall_forall _ _) Ha x1 Hx1).
Qed.

Lemma separated_le_start (l : list interval) :
  Forall iv_ok l -> StronglySorted separated l -> StronglySorted le_start l.
Proof.
  intros Hok Hs. induction Hs as [|a l Hl IH Ha]; [constructor|].
  apply Forall_cons in Hok as [Haok Hok].
  constructor; [by apply IH|].
  eapply Forall_impl; [exact Ha|]. unfold separated, le_start, iv_ok in *.
  simpl. intros; lia.
Qed.

Lemma merge_intervals_spec (l : list interval) :
  Forall iv_ok l -> StronglySorted le_start l ->
  Forall iv_ok (merge_intervals l) /\
  StronglySorted separated (merge_intervals l) /\
  forall x, x ∈ l -> covered_by (merge_intervals l) x.
Proof.
  intros Hok Hs. unfold merge_intervals.
  destruct (merge_loop l [] Hok Hs) as [(Hok' & Hs' & _) Hcov].
  { repeat split; constructor. }
  repeat split.
  - by apply Forall_reverse.
  - by apply StronglySorted_reverse_flip.
  - intros x Hx. destruct (Hcov x (or_introl Hx)) as (a & Ha & Hb).
    exists a. by rewrite elem_of_reverse.
Qed.

Lemma merge_step_on_line (acc : list interval) (r : interval) :
  Forall on_line acc -> on_line r -> Forall on_line (merge_step acc r).
Proof.
  intros Hacc Hr. unfold merge_step. destruct acc as [|last before].
  - constructor; [exact Hr|constructor].
  - apply Forall_cons in Hacc as [[Hl1 Hl2] Hacc].
    destruct (instant r.1 <=? instant last.2).
    + constructor; [|exact Hacc]. split; [exact Hl1|]. simpl.
      apply offset_max_aware; [exact Hl2|exact (proj2 Hr)].
    + constructor; [exact Hr|]. by constructor.
Qed.

Lemma merge_intervals_on_line (l : list interval) :
  Forall on_line l -> Forall on_line (merge_intervals l).
Proof.
  intros Hl. unfold merge_intervals. apply Forall_reverse.
  assert (Hacc : Forall on_line (@nil interval)) by constructor.
  revert Hacc. generalize (@nil interval) as acc.
  induction Hl as [|r l Hr Hl IH]; intros acc Hacc; simpl; [exact Hacc|].
  apply IH. by apply merge_step_on_line.
Qed.

(** *** Busy intervals *)

(** An event taken as example: a work meeting from [s] to [e]. *)
Definition meeting (s e : datetime) : EnrichedEvent :=
  mkEnriched (mkEvent "cal" s e "meeting" "" [] false false) WORK REGULAR.

(** The clock of the time line for every event. *)
Definition same_zone : EnrichedEvent -> timedelta := fun _ => 0.

Section Offsets.

Variable start_offset : EnrichedEvent -> timedelta.
Variable end_offset : EnrichedEvent -> timedelta.

#[local] Abbreviation inflate :=
  (Recommender.inflate start_offset end_offset).
#[local] Abbreviation busy_intervals :=
  (Recommender.busy_intervals start_offset end_offset).
#[local] Abbreviation merged_busy :=
  (Recommender.merged_busy start_offset end_offset).
#[local] Abbreviation generate_free_slots :=
  (Recommender.generate_free_slots start_offset end_offset).

Lemma busy_intervals_elem (cfg : Settings) (start_from : datetime)
    (events : list EnrichedEvent) (x : interval) :
  x ∈ busy_intervals cfg start_from events <->
  exists e, e ∈ events /\ start_from <= en_start e /\ x = inflate cfg e.
Proof.
  induction events as [|e events IH]; simpl.
  - rewrite elem_of_nil. split; [tauto|]. intros (e & He & _).
    by apply elem_of_nil in He.
  - destruct (start_from <=? en_start e) eqn:Hs.
    + apply Z.leb_le in Hs. rewrite elem_of_cons, IH. split.
      * intros [->|(e' & He' & H1 & H2)].
        -- exists e. split; [apply list_elem_of_here|done].
        -- exists e'. split; [by apply list_elem_of_further|done].
      * intros (e' & He' & H1 & H2). apply elem_of_cons in He' as [->|He'].
        -- by left.
        -- right. by exists e'.
    + apply Z.leb_gt in Hs. rewrite IH. split.
      * intros (e' & He' & H1 & H2).
        exists e'. split; [by apply list_elem_of_further|done].
      * intros (e' & He' & H1 & H2). apply elem_of_cons in He' as [->|He'].
        -- lia.
        -- by exists e'.
Qed.

(** Every future event has a well-formed inflated interval. *)
Definition future_ok (cfg : Settings) (start_from : datetime)
    (events : list EnrichedEvent) : Prop :=
  forall e, e ∈ events -> start_from <= en_start e -> iv_ok (inflate cfg e).

(** Every future event has its start and its end on the clock of the time
    line. *)
Definition future_on_line (start_from : datetime)
    (events : list EnrichedEvent) : Prop :=
  forall e, e ∈ events -> start_from <= en_start e ->
            start_offset e = 0 /\ end_offset e = 0.

Lemma merged_busy_on_line (cfg : Settings) (start_from : datetime)
    (events : list EnrichedEvent) :
  future_on_line start_from events ->
  Forall on_line (merged_busy cfg start_from events).
Proof.
  intros Hline. unfold Recommender.merged_busy.
  apply merge_intervals_on_line, Forall_forall. intros x Hx.
  apply sort_by_start_elem, busy_intervals_elem in Hx as (e & He & Hs & ->).
  exact (Hline e He Hs).
Qed.

Lemma merged_busy_spec (cfg : Settings) (start_from : datetime)
    (events : list EnrichedEvent) :
  future_ok cfg start_from events ->
  Forall iv_ok (merged_busy cfg start_from events) /\
  StronglySorted separated (merged_busy cfg start_from events) /\
  StronglySorted le_start (merged_busy cfg start_from events) /\
  forall e, e ∈ events -> start_from <= en_start e ->
            covered_by (merged_busy cfg start_from events) (inflate cfg e).
Proof.
  intros Hok. unfold Recommender.merged_busy.
  destruct (merge_intervals_spec
              (sort_by_start (busy_intervals cfg start_from events)))
    as (H1 & H2 & H3).
  - apply Forall_forall. intros x Hx.
    apply sort_by_start_elem, busy_intervals_elem in Hx as (e & He & Hs & ->).
    by apply Hok.
  - apply sort_by_start_sorted.
  - repeat split; [exact H1|exact H2|by apply separated_le_start|].
    intros e He Hs. apply H3, sort_by_start_elem, busy_intervals_elem.
    by exists e.
Qed.

(** *** The walk over one day *)

Lemma apart_outside_day (d : Z) (s : TimeSlot) (b : interval) :
  on_line b ->
  days d <= slot_start s -> slot_end s <= days (d + 1) ->
  (local_date b.1 <=? d) && (d <=? local_date b.2) = false -> apart s b.
Proof.
  intros [Hb1 Hb2] Hs He Hb. unfold apart.
  rewrite (local_date_on_line _ Hb1), (local_date_on_line _ Hb2) in Hb.
  pose proof (date_of_lower (instant b.1)).
  pose proof (date_of_upper (instant b.2)).
  apply andb_false_iff in Hb as [Hb|Hb]; apply Z.leb_gt in Hb.
  - left. pose proof (days_mono (d + 1) (date_of (instant b.1))). lia.
  - right. pose proof (days_mono (date_of (instant b.2) + 1) d). lia.
Qed.

Lemma walk_busy_spec (d : Z) (dur : timedelta) (merged : list interval) :
  StronglySorted le_start merged -> Forall iv_ok merged ->
  Forall on_line merged ->
  forall ct slots final,
    days d <= ct -> walk_busy d dur ct merged = (slots, final) ->
    ct <= final /\
    Forall (fun b => (local_date b.1 <=? d) && (d <=? local_date b.2) = true ->
                     instant b.2 <= final) merged /\
    Forall (fun s => ct <= slot_start s /\ slot_end s <= final /\
                     slot_end s <= days (d + 1) /\
                     Forall (apart s) merged) slots /\
    StronglySorted before slots.
Proof.
  induction 1 as [|[bs be] rest Hrest IH Hb];
    intros Hok Hline ct slots final Hct Hw.
  - simpl in Hw. injection Hw as <- <-.
    repeat split; [lia|constructor..].
  - apply Forall_cons in Hok as [Hbok Hok]. unfold iv_ok in Hbok.
    apply Forall_cons in Hline as [Hbline Hline].
    simpl in Hbok. cbn [walk_busy] in Hw.
    destruct ((local_date bs <=? d) && (d <=? local_date be)) eqn:Hday.
    + destruct (walk_busy d dur (Z.max ct (instant be)) rest)
        as [more fin] eqn:Hrec.
      injection Hw as <- <-.
      assert (Hct' : days d <= Z.max ct (instant be)) by lia.
      destruct (IH Hok Hline _ _ _ Hct' Hrec) as (H1 & H2 & H3 & H4).
      assert (Hbd : instant bs < days (d + 1)).
      { apply andb_true_iff in Hday as [Hd _]. apply Z.leb_le in Hd.
        rewrite (local_date_on_line bs (proj1 Hbline)) in Hd.
        pose proof (date_of_upper (instant bs)).
        pose proof (days_mono (date_of (instant bs) + 1) (d + 1)). lia. }
      assert (Hmore : Forall (fun s => ct <= slot_start s /\
                 slot_end s <= fin /\ slot_end s <= days (d + 1) /\
                 Forall (apart s) ((bs, be) :: rest)) more).
      { eapply Forall_impl; [exact H3|]. simpl.
        intros s (Ha & Hb' & Hc & Hd). repeat split; [lia|lia|lia|].
        constructor; [|exact Hd]. right. simpl. lia. }
      split; [lia|]. split.
      * constructor; [simpl; lia|exact H2].
      * destruct ((ct <? instant bs) && (dur <=? instant bs - ct)) eqn:Hgap;
          simpl.
        -- apply andb_true_iff in Hgap as [Hg1 Hg2].
           apply Z.ltb_lt in Hg1. apply Z.leb_le in Hg2. split.
           ++ constructor; [|exact Hmore]. simpl.
              repeat split; [lia|lia|lia|].
              constructor; [left; simpl; lia|].
              eapply Forall_impl; [exact Hb|]. unfold le_start, apart. simpl.
              intros; lia.
           ++ apply StronglySorted_cons. split; [|exact H4].
              eapply Forall_impl; [exact H3|]. unfold before. simpl.
              intros; lia.
        -- split; [exact Hmore|exact H4].
    + destruct (IH Hok Hline _ _ _ Hct Hw) as (H1 & H2 & H3 & H4).
      split; [exact H1|]. split; [|split; [|exact H4]].
      * constructor; [simpl; congruence|exact H2].
      * eapply Forall_impl; [exact H3|]. simpl.
        intros s (Ha & Hb' & Hc & Hd). repeat split; [lia|lia|lia|].
        constructor; [|exact Hd].
        apply (apart_outside_day d); [exact Hbline|lia|lia|exact Hday].
Qed.

(** What one day contributes: slots inside the day [d], in order, and
    apart from every merged busy interval. *)
Definition day_ok (merged : list interval) (d : Z) (slots : list TimeSlot)
    : Prop :=
  Forall (fun s => days d <= slot_start s /\ slot_end s <= days (d + 1) /\
                   Forall (apart s) merged) slots /\
  StronglySorted before slots.

Lemma day_slots_spec (cfg : Settings) (merged : list interval)
    (start_from : datetime) (dur : timedelta) (day : Z)
    (slots : list TimeSlot) :
  StronglySorted le_start merged -> Forall iv_ok merged ->
  Forall on_line merged ->
  day_slots cfg merged start_from dur day = Some slots ->
  day_ok merged (date_of start_from + day) slots.
Proof.
  intros Hs Hok Hline. unfold day_slots.
  destruct (time_replace_hour (work_day_start cfg)) as [t_start|] eqn:E1;
    [|discriminate].
  destruct (time_replace_hour (work_day_end cfg)) as [t_end|] eqn:E2;
    [|discriminate].
  apply time_replace_hour_Some in E1, E2. simpl.
  set (d := date_of start_from + day).
  set (day_start := if day =? 0 then _ else _).
  assert (Hds : days d <= day_start).
  { subst day_start. unfold combine. destruct (day =? 0); lia. }
  destruct (walk_busy d dur day_start merged) as [found final] eqn:Hw.
  intros [= <-].
  destruct (walk_busy_spec d dur merged Hs Hok Hline _ _ _ Hds Hw)
    as (H1 & H2 & H3 & H4).
  assert (Hfound : Forall (fun s => days d <= slot_start s /\
            slot_end s <= days (d + 1) /\ Forall (apart s) merged) found).
  { eapply Forall_impl; [exact H3|]. simpl. intros s (? & ? & ? & ?).
    repeat split; [lia|lia|done]. }
  destruct ((final <? combine d t_end) && (dur <=? combine d t_end - final))
    eqn:Htail.
  - apply andb_true_iff in Htail as [Ht1 Ht2].
    apply Z.ltb_lt in Ht1. apply Z.leb_le in Ht2.
    assert (Hend : final + dur <= days (d + 1)).
    { unfold combine, days, hours, usec_per_day, usec_per_hour in *. lia. }
    split.
    + apply Forall_app. split; [exact Hfound|].
      constructor; [|constructor]. simpl. repeat split; [lia|lia|].
      apply Forall_forall. intros b Hb.
      destruct ((local_date b.1 <=? d) && (d <=? local_date b.2)) eqn:Hday.
      * right. simpl. exact (proj1 (Forall_forall _ _) H2 b Hb Hday).
      * apply (apart_outside_day d); simpl;
          [exact (proj1 (Forall_forall _ _) Hline b Hb)|lia|lia|exact Hday].
    + apply StronglySorted_app.
      split; [|split; [exact H4|repeat constructor]].
      intros x1 x2 Hx1 Hx2. apply list_elem_of_singleton in Hx2 as ->.
      destruct (proj1 (Forall_forall _ _) H3 x1 Hx1) as (_ & Hx & _).
      exact Hx.
  - rewrite app_nil_r. split; [exact Hfound|exact H4].
Qed.

(** *** All days *)

Lemma seqZ_lt_sorted (n : nat) (m : Z) :
  StronglySorted Z.lt (seqZ m (Z.of_nat n)).
Proof.
  revert m. induction n as [|n IH]; intros m.
  - rewrite seqZ_nil by lia. constructor.
  - rewrite seqZ_cons by lia.
    replace (Z.pred (Z.of_nat (S n))) with (Z.of_nat n) by lia.
    constructor; [apply IH|].
    apply Forall_forall. intros k Hk. apply elem_of_seqZ in Hk. lia.
Qed.

Lemma concat_days (merged : list interval) (d0 : Z) (ds : list Z)
    (per_day : list (list TimeSlot)) :
  StronglySorted Z.lt ds ->
  Forall2 (fun day slots => day_ok merged (d0 + day) slots) ds per_day ->
  StronglySorted before (concat per_day) /\
  Forall (fun s => Forall (apart s) merged) (concat per_day) /\
  forall m, Forall (Z.le m) ds ->
            Forall (fun s => days (d0 + m) <= slot_start s) (concat per_day).
Proof.
  intros Hs H. revert Hs.
  induction H as [|day slots ds per_day [Hday Hord] _ IH]; intros Hs; simpl.
  - repeat split; constructor.
  - apply StronglySorted_cons in Hs as [Hlt Hs].
    destruct (IH Hs) as (H1 & H2 & H3).
    split; [|split].
    + apply StronglySorted_app. split; [|split; [exact Hord|exact H1]].
      intros x1 x2 Hx1 Hx2.
      destruct (proj1 (Forall_forall _ _) Hday x1 Hx1) as (_ & Hx & _).
      assert (Hm : Forall (Z.le (day + 1)) ds).
      { eapply Forall_impl; [exact Hlt|]. simpl. intros; lia. }
      pose proof (proj1 (Forall_forall _ _) (H3 _ Hm) x2 Hx2) as Hy.
      simpl in Hy. unfold before.
      replace (d0 + (day + 1)) with (d0 + day + 1) in Hy by lia. lia.
    + apply Forall_app. split; [|exact H2].
      eapply Forall_impl; [exact Hday|]. simpl. by intros s (_ & _ & ?).
    + intros m Hm. apply Forall_cons in Hm as [Hm1 Hm2].
      apply Forall_app. split; [|by apply H3].
      eapply Forall_impl; [exact Hday|]. simpl. intros s (Hx & _).
      pose proof (days_mono (d0 + m) (d0 + day)). lia.
Qed.

Lemma StronglySorted_lookup_lt {A} (R : relation A) (l : list A)
    (i j : nat) (a b : A) :
  StronglySorted R l -> (i < j)%nat ->
  l !! i = Some a -> l !! j = Some b -> R a b.
Proof.
  intros Hs. revert i j. induction Hs as [|x l Hl IH Hx]; intros i j Hij Hi Hj.
  - by rewrite lookup_nil in Hi.
  - destruct j as [|j]; [lia|]. simpl in Hj. destruct i as [|i].
    + injection Hi as ->.
      exact (proj1 (Forall_forall _ _) Hx b (list_elem_of_lookup_2 _ _ _ Hj)).
    + simpl in Hi. apply (IH i j); [lia|done|done].
Qed.

(** *** Overlap *)

Definition slots_overlap (a b : TimeSlot) : Prop :=
  slot_start a < slot_end b /\ slot_start b < slot_end a.

Definition slot_overlaps_busy (s : TimeSlot) (b : interval) : Prop :=
  slot_start s < instant b.2 /\ instant b.1 < slot_end s.

Definition valid_hours (cfg : Settings) : Prop :=
  0 <= work_day_start cfg <= 23 /\ 0 <= work_day_end cfg <= 23.

Lemma generate_free_slots_total (cfg : Settings)
    (events : list EnrichedEvent) (start_from : datetime)
    (days_ahead duration_min : Z) :
  valid_hours cfg ->
  is_Some (generate_free_slots cfg events start_from days_ahead duration_min).
Proof.
  intros [H1 H2]. unfold Recommender.generate_free_slots.
  set (f := day_slots _ _ _ _).
  destruct (mapM_is_Some_2 f (seqZ 0 days_ahead)) as [per_day ->];
    [|by eexists].
  apply Forall_forall. intros day _. subst f. unfold compose, day_slots.
  rewrite (time_replace_hour_valid _ H1), (time_replace_hour_valid _ H2).
  simpl. destruct (walk_busy _ _ _ _). by eexists.
Qed.

Lemma generate_free_slots_spec (cfg : Settings)
    (events : list EnrichedEvent) (start_from : datetime)
    (days_ahead duration_min : Z) (slots : list TimeSlot) :
  future_ok cfg start_from events ->
  future_on_line start_from events ->
  generate_free_slots cfg events start_from days_ahead duration_min
    = Some slots ->
  StronglySorted before slots /\
  Forall (fun s => Forall (apart s) (merged_busy cfg start_from events)) slots.
Proof.
  intros Hev Hline. unfold Recommender.generate_free_slots.
  destruct (merged_busy_spec cfg start_from events Hev) as (Hok & _ & Hs & _).
  pose proof (merged_busy_on_line cfg start_from events Hline) as Hon.
  destruct (mapM _ _) as [per_day|] eqn:Hm; [|discriminate].
  simpl. intros [= <-]. apply mapM_Some_1 in Hm.
  destruct (concat_days (merged_busy cfg start_from events)
              (date_of start_from) (seqZ 0 days_ahead) per_day) as (H1 & H2 & _).
  - destruct (Z.le_gt_cases days_ahead 0).
    + rewrite seqZ_nil by done. constructor.
    + rewrite <- (Z2Nat.id days_ahead) by lia. apply seqZ_lt_sorted.
  - eapply Forall2_impl; [exact Hm|]. simpl. intros day sl Hd.
    by apply (day_slots_spec cfg _ start_from (minutes duration_min)).
  - split; [exact H1|exact H2].
Qed.

Lemma apart_not_overlap (s : TimeSlot) (b : interval) :
  apart s b -> ~ slot_overlaps_busy s b.
Proof. unfold apart, slot_overlaps_busy. lia. Qed.

Lemma apart_covered (s : TimeSlot) (x : interval) (l : list interval) :
  iv_ok x -> covered_by l x -> Forall (apart s) l -> apart s x.
Proof.
  intros Hx (a & Ha & H1 & H2) Hl.
  pose proof (proj1 (Forall_forall _ _) Hl a Ha) as Hs.
  unfold apart, iv_ok in *. lia.
Qed.


(** The merged busy intervals form a sorted disjoint set: each interval
    is well-formed and ends strictly before the next one starts, and the
    inflated interval of every future event lies inside one of them. *)
Theorem merged_busy_sorted_disjoint (cfg : Settings) (start_from : datetime)
    (events : list EnrichedEvent) :
  Forall (fun e => start_from <= en_start e ->
                   instant (inflate cfg e).1 <= instant (inflate cfg e).2)
         events ->
  Forall (fun b => instant b.1 <= instant b.2)
         (merged_busy cfg start_from events)
  /\ StronglySorted (fun a b => instant a.2 < instant b.1)
                    (merged_busy cfg start_from events)
  /\ forall e, e ∈ events -> start_from <= en_start e ->
       exists b, b ∈ merged_busy cfg start_from events
                 /\ instant b.1 <= instant (inflate cfg e).1
                 /\ instant (inflate cfg e).2 <= instant b.2.
Proof.
  intros Hev.
  destruct (merged_busy_spec cfg start_from events) as (H1 & H2 & _ & H3).
  { intros e He. exact (proj1 (Forall_forall _ _) Hev e He). }
  split; [exact H1|]. split; [exact H2|exact H3].
Qed.

(** *** Events in progress *)

Lemma busy_intervals_app (cfg : Settings) (start_from : datetime)
    (l1 l2 : list EnrichedEvent) :
  busy_intervals cfg start_from (l1 ++ l2)
  = busy_intervals cfg start_from l1 ++ busy_intervals cfg start_from l2.
Proof.
  induction l1 as [|e l1 IH]; simpl; [done|].
  destruct (start_from <=? en_start e); simpl; by rewrite IH.
Qed.

(** C10.  An event in progress at the query time (start strictly before
    it, end after it) contributes no busy interval: removing it from the
    list changes neither the busy intervals nor the generated slots; and
    a returned slot can overlap such an event (a meeting 08:00-12:00,
    queried at 09:00, leaves the slot 09:30-10:30). *)
Theorem in_progress_event_is_not_busy (cfg : Settings)
    (start_from : datetime) (earlier later : list EnrichedEvent)
    (e : EnrichedEvent) :
  en_start e < start_from -> start_from < en_end e ->
  busy_intervals cfg start_from (earlier ++ e :: later)
    = busy_intervals cfg start_from (earlier ++ later)
  /\ (forall days_ahead duration_min,
        generate_free_slots cfg (earlier ++ e :: later) start_from
                            days_ahead duration_min
        = generate_free_slots cfg (earlier ++ later) start_from
                              days_ahead duration_min)
  /\ exists events now slots s ev,
       generate_free_slots default_settings events now 1 60 = Some slots
       /\ s ∈ slots /\ ev ∈ events
       /\ en_start ev < now < en_end ev
       /\ slot_start s < en_end ev /\ en_start ev < slot_end s.
Proof.
  intros Hs He.
  assert (Hbusy : busy_intervals cfg start_from (earlier ++ e :: later)
                  = busy_intervals cfg start_from (earlier ++ later)).
  { rewrite !busy_intervals_app. simpl.
    destruct (start_from <=? en_start e) eqn:Hle; [|done].
    apply Z.leb_le in Hle. lia. }
  split; [exact Hbusy|]. split.
  - intros days_ahead duration_min.
    unfold Recommender.generate_free_slots, Recommender.merged_busy.
    by rewrite Hbusy.
  - exists [meeting (at_time 100 8 0) (at_time 100 12 0)], (at_time 100 9 0).
    exists [mkSlot (at_time 100 9 30) (at_time 100 10 30)].
    exists (mkSlot (at_time 100 9 30) (at_time 100 10 30)).
    exists (meeting (at_time 100 8 0) (at_time 100 12 0)).
    split; [vm_compute; reflexivity|].
    split; [apply list_elem_of_here|]. split; [apply list_elem_of_here|].
    vm_compute. repeat split; discriminate || reflexivity.
Qed.

End Offsets.



(** The theorem at two meetings 10:00-11:00 and 11:15-12:00 (their
    inflated intervals overlap) and one at 15:00-16:00: two busy
    intervals, 09:50-12:10 and 14:50-16:10. *)
Lemma merged_busy_sorted_disjoint_witness :
  merged_busy same_zone same_zone default_settings (at_time 100 6 0)
    [ meeting (at_time 100 15 0) (at_time 100 16 0);
      meeting (at_time 100 10 0) (at_time 100 11 0);
      meeting (at_time 100 11 15) (at_time 100 12 0) ]
  = [ (mkAware (at_time 100 9 50) 0, mkAware (at_time 100 12 10) 0);
      (mkAware (at_time 100 14 50) 0, mkAware (at_time 100 16 10) 0) ]
  /\ StronglySorted (fun a b : interval => instant a.2 < instant b.1)
       [ (mkAware (at_time 100 9 50) 0, mkAware (at_time 100 12 10) 0);
         (mkAware (at_time 100 14 50) 0, mkAware (at_time 100 16 10) 0) ].
Proof.
  assert (Heq : merged_busy same_zone same_zone default_settings
            (at_time 100 6 0)
            [ meeting (at_time 100 15 0) (at_time 100 16 0);
              meeting (at_time 100 10 0) (at_time 100 11 0);
              meeting (at_time 100 11 15) (at_time 100 12 0) ]
          = [ (mkAware (at_time 100 9 50) 0, mkAware (at_time 100 12 10) 0);
              (mkAware (at_time 100 14 50) 0,
               mkAware (at_time 100 16 10) 0) ])
    by (vm_compute; reflexivity).
  split; [exact Heq|]. rewrite <- Heq.
  apply merged_busy_sorted_disjoint.
  repeat constructor; vm_compute; discriminate.
Defined.

(** The theorem at the meeting 08:00-12:00 queried at 09:00. *)
Lemma in_progress_event_is_not_busy_witness :
  en_start (meeting (at_time 100 8 0) (at_time 100 12 0)) < at_time 100 9 0
  /\ at_time 100 9 0 < en_end (meeting (at_time 100 8 0) (at_time 100 12 0))
  /\ busy_intervals same_zone same_zone default_settings (at_time 100 9 0)
       [meeting (at_time 100 8 0) (at_time 100 12 0)] = []
  /\ generate_free_slots same_zone same_zone default_settings
       [meeting (at_time 100 8 0) (at_time 100 12 0)] (at_time 100 9 0) 1 60
     = Some [mkSlot (at_time 100 9 30) (at_time 100 10 30)].
Proof.
  assert (H1 : en_start (meeting (at_time 100 8 0) (at_time 100 12 0))
               < at_time 100 9 0) by (vm_compute; reflexivity).
  assert (H2 : at_time 100 9 0
               < en_end (meeting (at_time 100 8 0) (at_time 100 12 0)))
    by (vm_compute; reflexivity).
  destruct (in_progress_event_is_not_busy same_zone same_zone
              default_settings (at_time 100 9 0)
              [] [] (meeting (at_time 100 8 0) (at_time 100 12 0)) H1 H2)
    as (Hb & Hg & _).
  split; [exact H1|]. split; [exact H2|]. split; [exact Hb|].
  exact (eq_trans (Hg 1 60) eq_refl).
Defined.

(** *** The empty result of [recommend_slot] *)

(** C9.  When free-slot generation returns the empty list,
    [recommend_slot] returns (it does not raise) the degenerate response:
    a slot with start = end = now, score 0.0, one rationale line, no
    alternative and one top-level conflict message. *)
Theorem no_free_slot_gives_degenerate_recommendation
    (start_offset end_offset : EnrichedEvent -> timedelta)
    (score_slot : TimeSlot -> UserQuery ->
                  option (list (EventType * TimeWindow)) ->
                  list EnrichedEvent -> float * list string)
    (check_conflicts : TimeSlot -> list EnrichedEvent -> list string)
    (cfg : Settings) (request : RecommendRequest) (now : datetime) :
  generate_free_slots start_offset end_offset cfg (enriched_events request)
                      now (search_days request)
                      (q_duration_min (user_query request)) = Some [] ->
  recommend_slot start_offset end_offset score_slot check_conflicts cfg
                 request now
  = Some {| recommendation :=
              {| rec_slot := mkSlot now now;
                 rec_score := 0;
                 rec_rationale := ["Не найдено свободных слотов"] |};
            alternatives := [];
            conflicts_found := ["Календарь полностью занят"];
            search_stats := [("slots_found", 0)] |}.
Proof.
  intros Hgen. unfold recommend_slot. rewrite Hgen. simpl.
  unfold make_recommendation.
  replace ((0 <=? 0)%float && (0 <=? 1)%float) with true
    by (vm_compute; reflexivity).
  reflexivity.
Qed.

(** A day booked from 06:30 to 23:00, queried at 06:00 for one day. *)
Definition booked_day_request : RecommendRequest :=
  {| user_query := mkQuery "sync" 60 None REGULAR None;
     enriched_events := [meeting (at_time 100 6 30) (at_time 100 23 0)];
     history_habits := None;
     search_days := 1;
     max_alternatives := 3 |}.

Lemma no_free_slot_gives_degenerate_recommendation_witness :
  generate_free_slots same_zone same_zone default_settings
    (enriched_events booked_day_request) (at_time 100 6 0) 1 60 = Some []
  /\ recommendation <$>
       recommend_slot same_zone same_zone (fun _ _ _ _ => (1%float, []))
                      (fun _ _ => []) default_settings booked_day_request
                      (at_time 100 6 0)
     = Some {| rec_slot := mkSlot (at_time 100 6 0) (at_time 100 6 0);
               rec_score := 0;
               rec_rationale := ["Не найдено свободных слотов"] |}.
Proof.
  assert (H : generate_free_slots same_zone same_zone default_settings
                (enriched_events booked_day_request) (at_time 100 6 0)
                (search_days booked_day_request)
                (q_duration_min (user_query booked_day_request)) = Some [])
    by (vm_compute; reflexivity).
  split; [exact H|].
  rewrite (no_free_slot_gives_degenerate_recommendation same_zone same_zone
             (fun _ _ _ _ => (1%float, [])) (fun _ _ => [])
             default_settings booked_day_request (at_time 100 6 0) H).
  reflexivity.
Defined.

End RecommenderFacts.

(** ** Cache keys *)

Module CacheFacts.
Import Clock Schemas Importer Cache.

(** A request taken as example: one raw event, default parameters. *)
Definition example_request : ImportRequest :=
  {| ics_content := None;
     req_events :=
       Some [ {| raw_calendar := "cal"; raw_start := "2025-08-18T09:00:00";
                 raw_end := "2025-08-18T10:00:00"; raw_summary := "standup";
                 raw_description := None; raw_attendees := [];
                 raw_rrule := None; raw_all_day := None |} ];
     req_timezone := "Europe/Moscow";
     expand_recurring := true;
     horizon_days := 30;
     days_limit := Some 14 |}.

(** C4 (as stated) fails for the key of a pipeline stage: the key
    [create_hash(cache_input)] of the import stage is the same under two
    different pipeline versions, whatever SHA-256 and [json.dumps]
    compute, so a new version leaves the stage's cache entries valid. *)
Lemma stage_key_same_under_two_versions :
  PIPELINE_VERSION (mkGlobals "2025-08-14")
    <> PIPELINE_VERSION (mkGlobals "2025-09-01")
  /\ forall (sha256_hexdigest : string -> string)
            (json_dumps : json -> string),
       stage_input_hash sha256_hexdigest json_dumps (mkGlobals "2025-08-14")
                        (import_cache_input example_request)
       = stage_input_hash sha256_hexdigest json_dumps
                          (mkGlobals "2025-09-01")
                          (import_cache_input example_request).
Proof.
  split; [simpl; discriminate|].
  intros sha256_hexdigest json_dumps. unfold stage_input_hash. reflexivity.
Qed.

Section Keys.

Variable sha256_hexdigest : string -> string.
Variable json_dumps : json -> string.

(** The hash [compute_cache_key] applies to its payload. *)
Definition key_of_payload (payload : json) : string :=
  String.substring 0 32 (sha256_hexdigest (json_dumps payload)).

(** C4 (amended).  The flow cache key [compute_cache_key] is the first 32
    hex digits of the SHA-256 of the JSON text of the triple
    {v: pipelineVersion, ics: sha256(rawInputText), params:
    normalizedParams}; two calls whose version, input text and normalized
    parameters agree map to the same key; a change of pipelineVersion
    changes the payload that is hashed, so the keys differ unless the
    truncated hash collides on the two payloads.  The key of a pipeline
    stage,
    [create_hash(cache_input)], is the SHA-256 of the JSON text of the
    stage's input: equal inputs give equal keys, and the key does not
    depend on pipelineVersion. *)
Theorem cache_keys_and_pipeline_version :
  (forall g ics params,
     compute_cache_key sha256_hexdigest json_dumps g ics params
     = String.substring 0 32
         (sha256_hexdigest
            (json_dumps
               (JDict [ ("v", JString (PIPELINE_VERSION g));
                        ("ics", JString (sha256_hexdigest ics));
                        ("params", normalized_params params) ]))))
  /\ (forall g1 g2 ics params1 params2,
        PIPELINE_VERSION g1 = PIPELINE_VERSION g2 ->
        normalized_params params1 = normalized_params params2 ->
        compute_cache_key sha256_hexdigest json_dumps g1 ics params1
        = compute_cache_key sha256_hexdigest json_dumps g2 ics params2)
  /\ (forall g1 g2 ics params,
        PIPELINE_VERSION g1 <> PIPELINE_VERSION g2 ->
        cache_key_payload sha256_hexdigest g1 ics params
        <> cache_key_payload sha256_hexdigest g2 ics params)
  /\ (forall g1 g2 ics params,
        PIPELINE_VERSION g1 <> PIPELINE_VERSION g2 ->
        compute_cache_key sha256_hexdigest json_dumps g1 ics params
        = compute_cache_key sha256_hexdigest json_dumps g2 ics params ->
        exists payload1 payload2,
          payload1 <> payload2
          /\ key_of_payload payload1 = key_of_payload payload2)
  /\ (forall g1 g2 request1 request2,
        import_cache_input request1 = import_cache_input request2 ->
        stage_input_hash sha256_hexdigest json_dumps g1
                         (import_cache_input request1)
        = stage_input_hash sha256_hexdigest json_dumps g2
                           (import_cache_input request2)).
Proof.
  assert (Hpayload : forall g1 g2 ics params,
            PIPELINE_VERSION g1 <> PIPELINE_VERSION g2 ->
            cache_key_payload sha256_hexdigest g1 ics params
            <> cache_key_payload sha256_hexdigest g2 ics params).
  { intros g1 g2 ics params Hv Heq. apply Hv.
    unfold cache_key_payload in Heq. by injection Heq. }
  split; [reflexivity|]. split; [|split; [exact Hpayload|split]].
  - intros g1 g2 ics params1 params2 Hv Hp.
    unfold compute_cache_key, cache_key_payload. by rewrite Hv, Hp.
  - intros g1 g2 ics params Hv Hkey.
    exists (cache_key_payload sha256_hexdigest g1 ics params),
           (cache_key_payload sha256_hexdigest g2 ics params).
    split; [by apply Hpayload|exact Hkey].
  - intros g1 g2 request1 request2 Hin.
    unfold stage_input_hash. by rewrite Hin.
Qed.

End Keys.

(** The flow keeps one key for [days_limit = None] and [days_limit = 0]:
    both normalize to 0. *)
Example unbounded_and_zero_limit_share_a_key
    (sha256_hexdigest : string -> string) (json_dumps : json -> string)
    (g : Globals) (ics : string) :
  compute_cache_key sha256_hexdigest json_dumps g ics
    (mkFlowParams (Some "Europe/Moscow") true (Some 30) None true)
  = compute_cache_key sha256_hexdigest json_dumps g ics
      (mkFlowParams (Some "Europe/Moscow") true (Some 30) (Some 0) true).
Proof.
  unfold compute_cache_key, cache_key_payload, normalized_params.
  simpl. reflexivity.
Qed.

End CacheFacts.

Module ImportPipelineFacts.
Import Clock Schemas Importer.

(** *** The analysis window *)

Lemma weekday_range (t : datetime) : 0 <= weekday t <= 6.
Proof. unfold weekday. pose proof (Z.mod_pos_bound (date_of t) 7). lia. Qed.

(** Monday 00:00 of the week of [now], as [_compute_import] computes it. *)
Definition week_start (now : datetime) : datetime :=
  combine (date_of now - weekday now) 0.

Lemma date_of_days (d r : Z) :
  0 <= r < usec_per_day -> date_of (days d + r) = d.
Proof.
  unfold date_of, days, usec_per_day. intros Hr.
  symmetry. apply (Z.div_unique_pos _ _ d r); lia.
Qed.

Lemma week_start_bounds (now : datetime) :
  week_start now <= now < week_start now + days 7.
Proof.
  unfold week_start, combine. pose proof (weekday_range now).
  pose proof (RecommenderFacts.date_of_lower now). pose proof (RecommenderFacts.date_of_upper now).
  unfold days, usec_per_day in *. lia.
Qed.

Lemma week_start_monday (now : datetime) :
  weekday (week_start now) = 0 /\ week_start now = days (date_of (week_start now)).
Proof.
  unfold week_start, combine.
  rewrite (date_of_days _ 0) by (unfold usec_per_day; lia).
  split; [|lia]. unfold weekday.
  rewrite (date_of_days _ 0) by (unfold usec_per_day; lia).
  rewrite Zminus_mod_idemp_r. by rewrite Z.sub_diag.
Qed.

Lemma week_start_same_week (now now' : datetime) :
  week_start now <= now' < week_start now + days 7 ->
  week_start now' = week_start now.
Proof.
  intros Hin. unfold week_start, combine in *.
  f_equal. f_equal.
  pose proof (weekday_range now) as Hw. pose proof (weekday_range now') as Hw'.
  pose proof (RecommenderFacts.date_of_lower now') as Hl. pose proof (RecommenderFacts.date_of_upper now') as Hu.
  assert (Hm : (date_of now - weekday now) mod 7 = 0).
  { unfold weekday. rewrite Zminus_mod_idemp_r. by rewrite Z.sub_diag. }
  unfold weekday in *. unfold days, usec_per_day in *.
  set (a := date_of now) in *. set (b := date_of now') in *.
  clearbody a b.
  assert (a - a mod 7 <= b < a - a mod 7 + 7) by lia.
  apply Z.mod_divide in Hm; [|lia]. destruct Hm as [k Hk].
  assert (b mod 7 = b - 7 * k).
  { symmetry. apply (Z.mod_unique_pos b 7 k); lia. }
  lia.
Qed.

(** For a non-negative [days_limit] the analysis window holds the whole
    current week, hence the present instant; it is [7 + 2 * days_limit]
    days wide; the week starts on a Monday at 00:00; and the window is the
    same for every clock reading of that week. *)
Theorem import_window_covers_current_week (now : datetime) (n : Z) :
  0 <= n ->
  (import_window now (Some n)).1 <= week_start now <= now
  /\ now < week_start now + days 7 <= (import_window now (Some n)).2
  /\ (import_window now (Some n)).2 - (import_window now (Some n)).1
     = days (7 + 2 * n)
  /\ weekday (week_start now) = 0
  /\ week_start now = days (date_of (week_start now))
  /\ forall now',
       week_start now <= now' < week_start now + days 7 ->
       import_window now' (Some n) = import_window now (Some n).
Proof.
  intros Hn. simpl. fold (week_start now).
  pose proof (week_start_bounds now) as Hb.
  pose proof (week_start_monday now) as [Hmon Hmid].
  unfold days in *. unfold usec_per_day in *.
  split; [lia|]. split; [lia|]. split; [lia|].
  split; [exact Hmon|]. split; [exact Hmid|].
  intros now' Hin. unfold import_window. fold (week_start now').
  fold (week_start now).
  rewrite (week_start_same_week now now'); [reflexivity|].
  unfold days, usec_per_day. lia.
Qed.

Lemma import_window_covers_current_week_witness :
  0 <= 14
  /\ import_window (at_time 100 12 0) (Some 14)
     = (at_time 84 0 0, at_time 119 0 0)
  /\ at_time 84 0 0 <= at_time 100 12 0 < at_time 119 0 0.
Proof.
  pose proof (import_window_covers_current_week (at_time 100 12 0) 14
                ltac:(lia)) as (H1 & H2 & _).
  split; [lia|]. split; [vm_compute; reflexivity|].
  change (import_window (at_time 100 12 0) (Some 14))
    with (at_time 84 0 0, at_time 119 0 0) in H1, H2.
  simpl in H1, H2. lia.
Defined.

(** *** The output of the import *)

Definition by_start (a b : Event) : Prop := ev_start a <= ev_start b.

Lemma insert_event_perm (x : Event) (l : list Event) :
  insert_event x l ≡ₚ x :: l.
Proof.
  induction l as [|y l IH]; simpl; [done|].
  destruct (ev_start x <=? ev_start y); [done|].
  rewrite IH. apply Permutation_swap.
Qed.

Lemma sort_events_perm (l : list Event) : sort_events l ≡ₚ l.
Proof.
  induction l as [|x l IH]; simpl; [done|].
  rewrite insert_event_perm. by rewrite IH.
Qed.

Lemma insert_event_sorted (x : Event) (l : list Event) :
  StronglySorted by_start l -> StronglySorted by_start (insert_event x l).
Proof.
  induction 1 as [|y l Hs IH Hy]; simpl.
  - repeat constructor.
  - destruct (ev_start x <=? ev_start y) eqn:Hle.
    + apply Z.leb_le in Hle. constructor; [by constructor|].
      constructor; [exact Hle|].
      eapply Forall_impl; [exact Hy|]. unfold by_start. intros; lia.
    + apply Z.leb_gt in Hle. constructor; [exact IH|].
      rewrite insert_event_perm. constructor; [unfold by_start; lia|exact Hy].
Qed.

Lemma sort_events_sorted (l : list Event) :
  StronglySorted by_start (sort_events l).
Proof.
  induction l as [|x l IH]; simpl; [constructor|].
  by apply insert_event_sorted.
Qed.

Section Output.

Variable parser_parse : string -> option datetime.
Variable rrulestr : string -> datetime -> option (list datetime).
Variable from_ical : string -> option ICalendar.
Variable isoformat : datetime -> string.
Variable md5_hexdigest : string -> string.

(** The events [_compute_import] collects from the ICS text and from the
    raw events, before the window filter. *)
Definition collected (request : ImportRequest) (now : datetime)
    : list Event :=
  (match ics_content request with
   | Some content =>
       if String.eqb content "" then []
       else parse_ics rrulestr from_ical content (expand_recurring request)
              (import_window now (days_limit request)).1
              (import_window now (days_limit request)).2
   | None => []
   end)
  ++ (match req_events request with
      | Some raws =>
          concat (import_raw_event parser_parse rrulestr
                    (expand_recurring request)
                    (import_window now (days_limit request)).1
                    (import_window now (days_limit request)).2 <$> raws)
      | None => []
      end).

Lemma compute_import_unfold (request : ImportRequest) (now : datetime) :
  compute_import parser_parse rrulestr from_ical isoformat md5_hexdigest
                 request now
  = sort_events
      (deduplicate_events isoformat md5_hexdigest
         (List.filter
            (start_in_window (import_window now (days_limit request)).1
                             (import_window now (days_limit request)).2)
            (collected request now))).
Proof.
  unfold compute_import, collected.
  by destruct (import_window now (days_limit request)) as [ws we].
Qed.

(** The events of an import response are in ascending order of start;
    each starts inside the analysis window (bounds included); no identity
    hash occurs twice; each was collected from the request; and every
    collected event that starts inside the window is represented by an
    event with its identity hash. *)
Theorem compute_import_sorted_windowed_unique (request : ImportRequest)
    (now : datetime) :
  StronglySorted by_start
    (compute_import parser_parse rrulestr from_ical isoformat md5_hexdigest
                    request now)
  /\ Forall (fun e =>
               (import_window now (days_limit request)).1 <= ev_start e
               <= (import_window now (days_limit request)).2)
       (compute_import parser_parse rrulestr from_ical isoformat
                       md5_hexdigest request now)
  /\ NoDup (get_event_hash isoformat md5_hexdigest
            <$> compute_import parser_parse rrulestr from_ical isoformat
                  md5_hexdigest request now)
  /\ (forall e,
        e ∈ compute_import parser_parse rrulestr from_ical isoformat
              md5_hexdigest request now ->
        e ∈ collected request now)
  /\ (forall x,
        x ∈ collected request now ->
        (import_window now (days_limit request)).1 <= ev_start x
        <= (import_window now (days_limit request)).2 ->
        exists e,
          e ∈ compute_import parser_parse rrulestr from_ical isoformat
                md5_hexdigest request now
          /\ get_event_hash isoformat md5_hexdigest e
             = get_event_hash isoformat md5_hexdigest x).
Proof.
  rewrite compute_import_unfold.
  set (ws := (import_window now (days_limit request)).1).
  set (we := (import_window now (days_limit request)).2).
  assert (Hsub : forall e,
            e ∈ sort_events
                  (deduplicate_events isoformat md5_hexdigest
                     (List.filter (start_in_window ws we)
                                  (collected request now))) ->
            e ∈ collected request now
            /\ start_in_window ws we e = true).
  { intros e He. apply (proj1 (ImporterFacts.sort_events_elem _ _)) in He. unfold deduplicate_events in He.
    pose proof (ImporterFacts.dedup_loop_sublist isoformat md5_hexdigest ∅
                  (List.filter (start_in_window ws we)
                               (collected request now))) as Hs.
    apply (fun H => elem_of_sublist _ _ _ H Hs) in He.
    apply list_elem_of_In, filter_In in He as [He Hw].
    split; [by apply list_elem_of_In|exact Hw]. }
  split; [apply sort_events_sorted|]. split; [|split; [|split]].
  - apply Forall_forall. intros e He. apply Hsub in He as [_ Hw].
    unfold start_in_window in Hw.
    apply andb_true_iff in Hw as [H1 H2]. apply Z.leb_le in H1, H2. lia.
  - rewrite sort_events_perm. apply ImporterFacts.dedup_loop_NoDup.
  - intros e He. by apply Hsub in He as [He _].
  - intros x Hx Hw.
    destruct (ImporterFacts.dedup_loop_represents isoformat md5_hexdigest ∅
                (List.filter (start_in_window ws we)
                             (collected request now)) x) as (e & He & Hh).
    + apply list_elem_of_In, filter_In. split; [by apply list_elem_of_In|].
      unfold start_in_window. apply andb_true_iff.
      split; apply Z.leb_le; lia.
    + apply not_elem_of_empty.
    + exists e. split; [|exact Hh]. by apply ImporterFacts.sort_events_elem.
Qed.

End Output.

End ImportPipelineFacts.

Module PatternFacts.
Import Clock Patterns.

Lemma insert_sorted_perm (x : Z) (l : list Z) : insert_sorted x l ≡ₚ x :: l.
Proof.
  induction l as [|y l IH]; simpl; [done|].
  destruct (x <=? y); [done|]. rewrite IH. apply Permutation_swap.
Qed.

Lemma sorted_perm (l : list Z) : sorted l ≡ₚ l.
Proof.
  induction l as [|x l IH]; simpl; [done|].
  rewrite insert_sorted_perm. by rewrite IH.
Qed.

Lemma insert_sorted_ascending (x : Z) (l : list Z) :
  StronglySorted Z.le l -> StronglySorted Z.le (insert_sorted x l).
Proof.
  induction 1 as [|y l Hs IH Hy]; simpl.
  - repeat constructor.
  - destruct (x <=? y) eqn:Hle.
    + apply Z.leb_le in Hle. constructor; [by constructor|].
      constructor; [exact Hle|].
      eapply Forall_impl; [exact Hy|]. intros; lia.
    + apply Z.leb_gt in Hle. constructor; [exact IH|].
      rewrite insert_sorted_perm. constructor; [lia|exact Hy].
Qed.

Lemma sorted_ascending (l : list Z) : StronglySorted Z.le (sorted l).
Proof.
  induction l as [|x l IH]; simpl; [constructor|].
  by apply insert_sorted_ascending.
Qed.

(** Sorting forgets the order of its input. *)
Lemma sorted_of_perm (l1 l2 : list Z) : l1 ≡ₚ l2 -> sorted l1 = sorted l2.
Proof.
  intros Hp. apply (StronglySorted_unique Z.le).
  - apply sorted_ascending.
  - apply sorted_ascending.
  - by rewrite !sorted_perm.
Qed.

Lemma day_deltas_length (dates : list datetime) :
  length (day_deltas dates) = pred (length dates).
Proof.
  induction dates as [|a [|b rest] IH]; simpl in *; [done|done|].
  by rewrite IH.
Qed.

(** The median of a non-empty list lies between any two bounds of its
    elements. *)
Lemma median_bounds (data : list Z) (lo hi : Z) :
  data <> [] ->
  Forall (fun g => lo <= g <= hi) data ->
  exists m, median data = Some m
            /\ (inject_Z lo <= m)%Q /\ (m <= inject_Z hi)%Q.
Proof.
  intros Hne Hall. unfold median.
  assert (Hs : Forall (fun g => lo <= g <= hi) (sorted data))
    by (by rewrite sorted_perm).
  assert (Hlen : length (sorted data) = length data)
    by (by rewrite sorted_perm).
  assert (Hpos : (0 < length data)%nat) by (destruct data; simpl; [done|lia]).
  set (s := sorted data) in *. set (n := Z.of_nat (length s)).
  assert (Hn : 0 < n) by (unfold n; lia).
  replace (n =? 0) with false by (symmetry; apply Z.eqb_neq; lia).
  assert (Hget : forall i, 0 <= i < n ->
            exists x, s !! Z.to_nat i = Some x /\ lo <= x <= hi).
  { intros i Hi.
    destruct (lookup_lt_is_Some_2 s (Z.to_nat i)) as [x Hx];
      [unfold n in Hi; lia|].
    exists x. split; [exact Hx|].
    exact (proj1 (Forall_lookup _ _) Hs _ _ Hx). }
  destruct (n mod 2 =? 1) eqn:Hodd.
  - destruct (Hget (n / 2)) as (x & Hx & Hb);
      [Z.div_mod_to_equations; lia|].
    exists (inject_Z x). rewrite Hx. split; [reflexivity|].
    unfold Qle, inject_Z. simpl. lia.
  - apply Z.eqb_neq in Hodd.
    destruct (Hget (n / 2 - 1)) as (a & Ha & Hba);
      [Z.div_mod_to_equations; lia|].
    destruct (Hget (n / 2)) as (b & Hb & Hbb);
      [Z.div_mod_to_equations; lia|].
    exists ((a + b) # 2). rewrite Ha, Hb. split; [reflexivity|].
    unfold Qle, inject_Z. simpl. lia.
Qed.

(** The branch [_detect_frequency] takes, from bounds on the median. *)
Lemma frequency_label_cases (m : Q) (lo hi : Z) :
  (inject_Z lo <= m)%Q -> (m <= inject_Z hi)%Q ->
  forall label,
    label
    = (if Qle_bool m 1 then "ежедневно"
       else if Qle_bool m 3 then "несколько раз в неделю"
       else if Qle_bool 6 m && Qle_bool m 8 then "еженедельно"
       else if Qle_bool 13 m && Qle_bool m 15 then "раз в две недели"
       else if Qle_bool 27 m && Qle_bool m 31 then "ежемесячно"
       else "примерно раз в " +:+ str_of_int (int_of_Q m) +:+ " дней") ->
    (hi <= 1 -> label = "ежедневно")
    /\ (2 <= lo -> hi <= 3 -> label = "несколько раз в неделю")
    /\ (6 <= lo -> hi <= 8 -> label = "еженедельно")
    /\ (13 <= lo -> hi <= 15 -> label = "раз в две недели")
    /\ (27 <= lo -> hi <= 31 -> label = "ежемесячно")
    /\ (lo = hi ->
        4 <= lo <= 5 \/ 9 <= lo <= 12 \/ 16 <= lo <= 26 \/ 32 <= lo ->
        label = "примерно раз в " +:+ str_of_int lo +:+ " дней").
Proof.
  destruct m as [num den]. unfold Qle, Qle_bool, int_of_Q, inject_Z. simpl.
  intros Hlo Hhi label ->.
  assert (Hd : 0 < Z.pos den) by lia.
  repeat match goal with
         | |- context [?a <=? ?b] => destruct (Z.leb_spec a b)
         end; simpl;
    (split; [intros; first [reflexivity|nia]|]);
    (split; [intros; first [reflexivity|nia]|]);
    (split; [intros; first [reflexivity|nia]|]);
    (split; [intros; first [reflexivity|nia]|]);
    (split; [intros; first [reflexivity|nia]|]);
    intros Heq Hg; first [nia|idtac].
  all: subst hi; replace num with (lo * Z.pos den) by nia.
  all: rewrite Z.quot_mul by lia; reflexivity.
Qed.

(** [_detect_frequency] from the gaps between consecutive occurrences,
    whatever the order of the dates: when every gap is at most one whole
    day the label is "ежедневно"; 2 to 3 days, "несколько раз в неделю";
    6 to 8 days, "еженедельно"; 13 to 15, "раз в две недели"; 27 to 31,
    "ежемесячно"; and a constant gap of 4-5, 9-12, 16-26 or at least 32
    days falls between the named labels and is reported as
    "примерно раз в N дней". *)
Theorem detect_frequency_by_gaps (dates : list datetime) (lo hi : Z) :
  (2 <= length dates)%nat ->
  Forall (fun g => lo <= g <= hi) (day_deltas (sorted dates)) ->
  (hi <= 1 -> detect_frequency dates = Some "ежедневно")
  /\ (2 <= lo -> hi <= 3 ->
      detect_frequency dates = Some "несколько раз в неделю")
  /\ (6 <= lo -> hi <= 8 -> detect_frequency dates = Some "еженедельно")
  /\ (13 <= lo -> hi <= 15 ->
      detect_frequency dates = Some "раз в две недели")
  /\ (27 <= lo -> hi <= 31 -> detect_frequency dates = Some "ежемесячно")
  /\ (lo = hi ->
      4 <= lo <= 5 \/ 9 <= lo <= 12 \/ 16 <= lo <= 26 \/ 32 <= lo ->
      detect_frequency dates
      = Some ("примерно раз в " +:+ str_of_int lo +:+ " дней")).
Proof.
  intros Hlen Hgaps. unfold detect_frequency.
  replace (length dates <? 2)%nat with false
    by (symmetry; apply Nat.ltb_ge; lia).
  assert (Hne : day_deltas (sorted dates) <> []).
  { intros Hnil. apply (f_equal length) in Hnil.
    rewrite day_deltas_length, sorted_perm in Hnil. simpl in Hnil. lia. }
  destruct (median_bounds _ lo hi Hne Hgaps) as (m & Hm & Hlo & Hhi).
  destruct (day_deltas (sorted dates)) as [|d ds] eqn:Hd; [done|].
  rewrite Hm. simpl.
  destruct (frequency_label_cases m lo hi Hlo Hhi _ eq_refl)
    as (H1 & H2 & H3 & H4 & H5 & H6).
  split; [intros; f_equal; by apply H1|].
  split; [intros; f_equal; by apply H2|].
  split; [intros; f_equal; by apply H3|].
  split; [intros; f_equal; by apply H4|].
  split; [intros; f_equal; by apply H5|].
  intros; f_equal; by apply H6.
Qed.

(** The theorem at three occurrences given out of order, one week apart
    up to half an hour: the gaps are 7 and 6 whole days. *)
Lemma detect_frequency_by_gaps_witness :
  day_deltas (sorted [at_time 114 9 0; at_time 100 9 0; at_time 107 9 30])
  = [7; 6]
  /\ detect_frequency [at_time 114 9 0; at_time 100 9 0; at_time 107 9 30]
     = Some "еженедельно".
Proof.
  split; [vm_compute; reflexivity|].
  destruct (detect_frequency_by_gaps
              [at_time 114 9 0; at_time 100 9 0; at_time 107 9 30] 6 7)
    as (_ & _ & H & _).
  - simpl. lia.
  - replace (day_deltas
               (sorted [at_time 114 9 0; at_time 100 9 0; at_time 107 9 30]))
      with [7; 6] by (vm_compute; reflexivity).
    repeat constructor; lia.
  - apply H; lia.
Defined.

(** [_detect_frequency] never raises; fewer than two dates are "разовое";
    and the label does not depend on the order of the dates. *)
Theorem detect_frequency_total_and_order_free (dates dates' : list datetime) :
  (exists label, detect_frequency dates = Some label)
  /\ ((length dates < 2)%nat -> detect_frequency dates = Some "разовое")
  /\ (dates ≡ₚ dates' -> detect_frequency dates' = detect_frequency dates).
Proof.
  split; [|split].
  - unfold detect_frequency. destruct (length dates <? 2)%nat; [by eexists|].
    destruct (day_deltas (sorted dates)) as [|d ds] eqn:Hd; [by eexists|].
    destruct (median_bounds (d :: ds) (foldr Z.min d ds) (foldr Z.max d ds))
      as (m & Hm & _); [done| |rewrite Hm; by eexists].
    clear Hd.
    assert (Hb : forall x, x ∈ d :: ds ->
              foldr Z.min d ds <= x <= foldr Z.max d ds).
    { induction ds as [|y ds IH]; simpl.
      - intros x ->%list_elem_of_singleton. lia.
      - intros x Hx. rewrite !elem_of_cons in Hx.
        destruct Hx as [->|[->|Hx]].
        + specialize (IH d (list_elem_of_here _ _)). lia.
        + lia.
        + specialize (IH x (list_elem_of_further _ _ _ Hx)). lia. }
    apply Forall_forall. exact Hb.
  - intros Hlt. unfold detect_frequency.
    by replace (length dates <? 2)%nat with true
      by (symmetry; apply Nat.ltb_lt; lia).
  - intros Hp. unfold detect_frequency.
    by rewrite <- (sorted_of_perm _ _ Hp), <- Hp.
Qed.

End PatternFacts.

Module StorageFacts.
Import Clock Cache JsonStorage CacheService.

(** *** Lookups in the data directory *)

Lemma load_save_same (dir : CacheDir) (stage : string) (data : CacheFile) :
  load_json (save_json dir stage data) stage = data.
Proof. unfold load_json, save_json. by rewrite lookup_insert_eq. Qed.

Lemma load_save_other (dir : CacheDir) (stage stage' : string)
    (data : CacheFile) :
  stage <> stage' ->
  load_json (save_json dir stage data) stage' = load_json dir stage'.
Proof.
  intros Hne. unfold load_json, save_json. by rewrite lookup_insert_ne.
Qed.

Lemma stage_value_inj (s s' : PipelineStage) :
  stage_value s = stage_value s' -> s = s'.
Proof. by destruct s, s'. Qed.

Section Lookup.

Variable sha256_hexdigest : string -> string.
Variable json_dumps : json -> string.
Variable isoformat : datetime -> string.
Variable fromisoformat : string -> option datetime.

#[local] Abbreviation key := (create_hash sha256_hexdigest json_dumps).
#[local] Abbreviation store :=
  (cache_result sha256_hexdigest json_dumps isoformat).
#[local] Abbreviation lookup :=
  (get_cached_result sha256_hexdigest json_dumps fromisoformat).

(** The text [isoformat] gives for [t] is read back as [t]. *)
Definition round_trips (t : datetime) : Prop :=
  parse_datetime fromisoformat (Some (isoformat t)) = Some t.

(** The expiry [cache_result] sets: none for [expires_hours] absent or 0. *)
Definition expiry (expires_hours : option Z) (now_expiry : datetime)
    : option datetime :=
  match expires_hours with
  | Some h => if h =? 0 then None else Some (now_expiry + hours h)
  | None => None
  end.

Lemma store_entry (dir : CacheDir) (t_exp t_save : datetime)
    (stage : PipelineStage) (input result : json) (expires_hours : option Z) :
  load_json (store dir t_exp t_save stage input result expires_hours)
            (stage_value stage) !! key input
  = Some {| ce_input_hash := key input;
            ce_input_data := input;
            ce_result_data := result;
            ce_created_at := isoformat t_save;
            ce_expires_at := isoformat <$> expiry expires_hours t_exp |}.
Proof.
  unfold cache_result, save_cache_entry. rewrite load_save_same.
  by rewrite lookup_insert_eq.
Qed.

(** A lookup that reads the clock after the expiry of the stored entry
    misses and deletes the entry. *)
Lemma lookup_expired (dir : CacheDir) (stage : PipelineStage)
    (input result : json) (expires_hours : option Z) (max_age_hours : Z)
    (t_exp t_save t_get t_age e : datetime) :
  expiry expires_hours t_exp = Some e -> round_trips e -> e < t_get ->
  lookup (store dir t_exp t_save stage input result expires_hours)
         t_get t_age stage input max_age_hours
  = (JNull,
     save_json (store dir t_exp t_save stage input result expires_hours)
       (stage_value stage)
       (delete (key input)
          (load_json
             (store dir t_exp t_save stage input result expires_hours)
             (stage_value stage)))).
Proof.
  intros He Hrt Hlt. unfold get_cached_result, get_cache_entry.
  rewrite store_entry. simpl ce_expires_at. rewrite He. simpl fmap.
  rewrite Hrt.
  by replace (e <? t_get) with true by (symmetry; apply Z.ltb_lt; lia).
Qed.

(** A lookup that reads the clock no later than the expiry (if any)
    returns the stored result unless the entry is older than
    [max_age_hours]; the directory is left as it is. *)
Lemma lookup_not_expired (dir : CacheDir) (stage : PipelineStage)
    (input result : json) (expires_hours : option Z) (max_age_hours : Z)
    (t_exp t_save t_get t_age : datetime) :
  round_trips t_save ->
  (forall e, expiry expires_hours t_exp = Some e ->
             round_trips e /\ t_get <= e) ->
  lookup (store dir t_exp t_save stage input result expires_hours)
         t_get t_age stage input max_age_hours
  = (if t_save <? t_age - hours max_age_hours then JNull else result,
     store dir t_exp t_save stage input result expires_hours).
Proof.
  intros Hsave Hfresh. unfold get_cached_result, get_cache_entry.
  rewrite store_entry. simpl ce_expires_at. simpl ce_created_at.
  destruct (expiry expires_hours t_exp) as [e|] eqn:He; simpl fmap.
  - destruct (Hfresh e eq_refl) as [Hrt Hle]. rewrite Hrt.
    replace (e <? t_get) with false by (symmetry; apply Z.ltb_ge; lia).
    cbn [ce_created_at ce_result_data]. rewrite Hsave.
    by destruct (t_save <? t_age - hours max_age_hours).
  - cbn [parse_datetime ce_created_at ce_result_data].
    fold (parse_datetime fromisoformat (Some (isoformat t_save))).
    rewrite Hsave.
    by destruct (t_save <? t_age - hours max_age_hours).
Qed.

(** A lookup right after a store.  When the entry has an expiry and the
    lookup reads the clock after it, the lookup misses and deletes the
    entry, leaving every other entry as it was before the store;
    otherwise the stored result is returned exactly when the entry is not
    older than [max_age_hours] at the second reading of the clock, and a
    miss for age leaves the entry in place.  [expires_hours = 0] sets no
    expiry. *)
Theorem lookup_after_store (dir : CacheDir) (stage : PipelineStage)
    (input result : json) (expires_hours : option Z) (max_age_hours : Z)
    (t_exp t_save t_get t_age : datetime) :
  round_trips t_save ->
  (forall e, expiry expires_hours t_exp = Some e -> round_trips e) ->
  (forall e,
     expiry expires_hours t_exp = Some e -> e < t_get ->
     (lookup (store dir t_exp t_save stage input result expires_hours)
             t_get t_age stage input max_age_hours).1 = JNull
     /\ load_json
          (lookup (store dir t_exp t_save stage input result expires_hours)
                  t_get t_age stage input max_age_hours).2
          (stage_value stage) !! key input = None
     /\ forall stage' k,
          (stage', k) <> (stage_value stage, key input) ->
          load_json
            (lookup (store dir t_exp t_save stage input result expires_hours)
                    t_get t_age stage input max_age_hours).2 stage' !! k
          = load_json dir stage' !! k)
  /\ ((forall e, expiry expires_hours t_exp = Some e -> t_get <= e) ->
      lookup (store dir t_exp t_save stage input result expires_hours)
             t_get t_age stage input max_age_hours
      = (if t_save <? t_age - hours max_age_hours then JNull else result,
         store dir t_exp t_save stage input result expires_hours))
  /\ expiry (Some 0) t_exp = None.
Proof.
  intros Hsave Hexp. split; [|split; [|reflexivity]].
  - intros e He Hlt.
    rewrite (lookup_expired dir stage input result expires_hours
               max_age_hours t_exp t_save t_get t_age e He (Hexp e He) Hlt).
    cbn [fst snd]. split; [reflexivity|]. split.
    + rewrite load_save_same. apply lookup_delete_eq.
    + intros stage' k Hne. unfold cache_result, save_cache_entry.
      destruct (decide (stage' = stage_value stage)) as [->|Hs].
      * rewrite !load_save_same.
        assert (k <> key input) by (intros ->; done).
        rewrite lookup_delete_ne by done. by rewrite lookup_insert_ne.
      * by rewrite !load_save_other.
  - intros Hfresh. apply lookup_not_expired; [exact Hsave|].
    intros e He. split; [by apply Hexp|by apply Hfresh].
Qed.

(** [get_or_cache] on a miss returns what [compute_func] returns and
    stores it, and raises when [compute_func] raises; a later
    [get_or_cache] for the same input, no later than the expiry and within
    its [max_age_hours], returns the stored result without a look at its
    own [compute_func] - even one that would raise - and leaves the
    directory as it is.  A stored [None] is never a hit. *)
Theorem get_or_cache_computes_once (dir : CacheDir) (clock clock' : Readings)
    (stage : PipelineStage) (input result : json)
    (compute_func' : option json) (max_age_hours max_age_hours' : Z)
    (expires_hours expires_hours' : option Z) :
  (lookup dir (at_entry clock) (at_age clock) stage input max_age_hours).1
    = JNull ->
  round_trips (at_created clock) ->
  (forall e, expiry expires_hours (at_expiry clock) = Some e ->
             round_trips e /\ at_entry clock' <= e) ->
  at_age clock' - hours max_age_hours' <= at_created clock ->
  (get_or_cache sha256_hexdigest json_dumps isoformat fromisoformat dir clock
                stage input None max_age_hours expires_hours).1 = None
  /\ exists dir1,
       get_or_cache sha256_hexdigest json_dumps isoformat fromisoformat dir
                    clock stage input (Some result) max_age_hours
                    expires_hours
       = (Some result, dir1)
       /\ (result <> JNull ->
           get_or_cache sha256_hexdigest json_dumps isoformat fromisoformat
                        dir1 clock' stage input compute_func'
                        max_age_hours' expires_hours'
           = (Some result, dir1))
       /\ (result = JNull ->
           (get_or_cache sha256_hexdigest json_dumps isoformat fromisoformat
                         dir1 clock' stage input compute_func'
                         max_age_hours' expires_hours').1
           = compute_func').
Proof.
  intros Hmiss Hcreated Hexp Hage. unfold get_or_cache at 1 2.
  destruct (lookup dir (at_entry clock) (at_age clock) stage input
                   max_age_hours) as [cached dir0] eqn:Hfirst.
  simpl in Hmiss. subst cached. split; [reflexivity|].
  eexists. split; [reflexivity|].
  assert (Hsecond :
            lookup (store dir0 (at_expiry clock) (at_created clock) stage
                          input result expires_hours)
                   (at_entry clock') (at_age clock') stage input
                   max_age_hours'
            = (result,
               store dir0 (at_expiry clock) (at_created clock) stage input
                     result expires_hours)).
  { rewrite lookup_not_expired by done.
    by replace (at_created clock <? at_age clock' - hours max_age_hours')
      with false by (symmetry; apply Z.ltb_ge; lia). }
  split.
  - intros Hnn. unfold get_or_cache. rewrite Hsecond.
    by destruct result.
  - intros ->. unfold get_or_cache. rewrite Hsecond.
    by destruct compute_func'.
Qed.

End Lookup.

(** Library functions for the examples: instants as decimal texts, the
    text of a JSON string as its serialization, the text as its digest. *)
Definition example_fromisoformat (text : string) : option datetime :=
  Z.of_int <$> NilZero.int_of_string text.

Definition example_dumps (data : json) : string :=
  match data with JString text => text | _ => "" end.

Definition example_digest (text : string) : string := text.

(** The theorem at an import result stored at 09:00 with an expiry of 48
    hours and looked up 23 hours later with a maximal age of 24 hours:
    the result is returned. *)
Lemma lookup_after_store_witness :
  round_trips ImporterFacts.example_isoformat example_fromisoformat
              (at_time 100 9 0)
  /\ (get_cached_result example_digest example_dumps example_fromisoformat
        (cache_result example_digest example_dumps
           ImporterFacts.example_isoformat ∅ (at_time 100 9 0)
           (at_time 100 9 0) IMPORT (JString "ics") (JString "events")
           (Some 48))
        (at_time 101 8 0) (at_time 101 8 0) IMPORT (JString "ics") 24).1
     = JString "events".
Proof.
  assert (Hrt : round_trips ImporterFacts.example_isoformat
                  example_fromisoformat (at_time 100 9 0))
    by (vm_compute; reflexivity).
  split; [exact Hrt|].
  destruct (lookup_after_store example_digest example_dumps
              ImporterFacts.example_isoformat example_fromisoformat ∅ IMPORT
              (JString "ics") (JString "events") (Some 48) 24
              (at_time 100 9 0) (at_time 100 9 0) (at_time 101 8 0)
              (at_time 101 8 0) Hrt) as (_ & Hfresh & _).
  - intros e [= <-]. vm_compute. reflexivity.
  - rewrite Hfresh; [reflexivity|].
    intros e [= <-]. vm_compute. discriminate.
Defined.

(** The theorem at an empty directory: the first call stores "events",
    and a call 23 hours later whose function would raise returns it. *)
Lemma get_or_cache_computes_once_witness :
  (get_or_cache example_digest example_dumps ImporterFacts.example_isoformat
     example_fromisoformat
     (get_or_cache example_digest example_dumps
        ImporterFacts.example_isoformat example_fromisoformat ∅
        (mkReadings (at_time 100 9 0) (at_time 100 9 0) (at_time 100 9 0)
                    (at_time 100 9 0))
        IMPORT (JString "ics") (Some (JString "events")) 24 (Some 48)).2
     (mkReadings (at_time 101 8 0) (at_time 101 8 0) (at_time 101 8 0)
                 (at_time 101 8 0))
     IMPORT (JString "ics") None 24 (Some 48)).1
  = Some (JString "events").
Proof.
  destruct (get_or_cache_computes_once example_digest example_dumps
              ImporterFacts.example_isoformat example_fromisoformat ∅
              (mkReadings (at_time 100 9 0) (at_time 100 9 0)
                          (at_time 100 9 0) (at_time 100 9 0))
              (mkReadings (at_time 101 8 0) (at_time 101 8 0)
                          (at_time 101 8 0) (at_time 101 8 0))
              IMPORT (JString "ics") (JString "events") None 24 24
              (Some 48) (Some 48))
    as (_ & dir1 & Hfirst & Hsecond & _).
  - reflexivity.
  - vm_compute. reflexivity.
  - intros e [= <-]. split; [vm_compute; reflexivity|].
    vm_compute. discriminate.
  - vm_compute. discriminate.
  - rewrite Hfirst. cbn [snd]. rewrite Hsecond; [reflexivity|discriminate].
Defined.

(** *** Invalidation *)

Lemma invalidate_stage_spec (acc : nat * CacheDir) (name : string) :
  (invalidate_stage acc name).1 = (acc.1 + size (load_json acc.2 name))%nat
  /\ load_json (invalidate_stage acc name).2 name = ∅
  /\ forall name', name <> name' ->
       load_json (invalidate_stage acc name).2 name' = load_json acc.2 name'.
Proof.
  unfold invalidate_stage, load_json.
  destruct (acc.2 !! name) as [cache_data|] eqn:Hfile; simpl.
  - unfold save_json. rewrite lookup_insert_eq. split; [done|].
    split; [done|]. intros name' Hne. by rewrite lookup_insert_ne.
  - rewrite Hfile. simpl. rewrite map_size_empty. split; [lia|]. done.
Qed.

Section Invalidate.

Variable sha256_hexdigest : string -> string.
Variable json_dumps : json -> string.
Variable fromisoformat : string -> option datetime.

Lemma lookup_empty_stage (dir : CacheDir) (stage : PipelineStage)
    (t_get t_age : datetime) (input : json) (max_age_hours : Z) :
  load_json dir (stage_value stage) = ∅ ->
  get_cached_result sha256_hexdigest json_dumps fromisoformat dir t_get
                    t_age stage input max_age_hours
  = (JNull, dir).
Proof.
  intros Hempty. unfold get_cached_result, get_cache_entry.
  rewrite Hempty. by rewrite lookup_empty.
Qed.

(** [invalidate_cache] for one stage reports the number of entries of
    that stage, after it every lookup on the stage misses, and the other
    stages keep their entries; without a stage it empties the three
    stages and reports the total.  The session id makes no difference. *)
Theorem invalidate_cache_empties (dir : CacheDir) (stage : PipelineStage)
    (session_id : option string) :
  (CacheService.invalidate_cache dir (Some stage) session_id).1
    = size (load_json dir (stage_value stage))
  /\ (forall t_get t_age input max_age_hours,
        get_cached_result sha256_hexdigest json_dumps fromisoformat
          (CacheService.invalidate_cache dir (Some stage) session_id).2
          t_get t_age stage input max_age_hours
        = (JNull, (CacheService.invalidate_cache dir (Some stage)
                     session_id).2))
  /\ (forall stage', stage' <> stage ->
        load_json (CacheService.invalidate_cache dir (Some stage)
                     session_id).2 (stage_value stage')
        = load_json dir (stage_value stage'))
  /\ (CacheService.invalidate_cache dir None session_id).1
     = (size (load_json dir "import") + size (load_json dir "enrich")
        + size (load_json dir "analyze"))%nat
  /\ (forall t_get t_age stage' input max_age_hours,
        get_cached_result sha256_hexdigest json_dumps fromisoformat
          (CacheService.invalidate_cache dir None session_id).2
          t_get t_age stage' input max_age_hours
        = (JNull, (CacheService.invalidate_cache dir None session_id).2)).
Proof.
  unfold CacheService.invalidate_cache, JsonStorage.invalidate_cache.
  cbn [fmap option_fmap option_map].
  replace (String.eqb (stage_value stage) "") with false
    by (by destruct stage).
  destruct (invalidate_stage_spec (0%nat, dir) (stage_value stage))
    as (Hn & Hempty & Hother).
  split; [exact Hn|]. split; [|split].
  - intros. by apply lookup_empty_stage.
  - intros stage' Hne. apply Hother. intros Heq.
    apply Hne. symmetry. by apply stage_value_inj.
  - cbn [fold_left].
    destruct (invalidate_stage_spec (0%nat, dir) "import")
      as (Hn1 & He1 & Ho1).
    destruct (invalidate_stage_spec (invalidate_stage (0%nat, dir) "import")
                "enrich") as (Hn2 & He2 & Ho2).
    destruct (invalidate_stage_spec
                (invalidate_stage (invalidate_stage (0%nat, dir) "import")
                   "enrich") "analyze") as (Hn3 & He3 & Ho3).
    split.
    + rewrite Hn3, Hn2, Hn1. rewrite (Ho2 "analyze") by done.
      rewrite (Ho1 "analyze") by done. rewrite (Ho1 "enrich") by done.
      simpl. lia.
    + intros t_get t_age stage' input max_age_hours.
      apply lookup_empty_stage. destruct stage'; simpl.
      * rewrite (Ho3 "import") by done. rewrite (Ho2 "import") by done.
        exact He1.
      * rewrite (Ho3 "enrich") by done. exact He2.
      * exact He3.
Qed.

End Invalidate.

(** *** Clean-up of expired entries *)

Lemma fold_delete_lookup (keys : list string) (m : CacheFile) (k : string) :
  fold_left (fun m key => delete key m) keys m !! k
  = if decide (k ∈ keys) then None else m !! k.
Proof.
  revert m. induction keys as [|key keys IH]; intros m; simpl.
  - destruct (decide (k ∈ [])) as [Hin|_]; [|done].
    by apply elem_of_nil in Hin.
  - rewrite IH. destruct (decide (k ∈ keys)) as [Hin|Hout].
    + rewrite decide_True; [done|]. by apply list_elem_of_further.
    + destruct (decide (k = key)) as [->|Hne].
      * rewrite lookup_delete_eq. rewrite decide_True; [done|].
        apply list_elem_of_here.
      * rewrite lookup_delete_ne by done. rewrite decide_False; [done|].
        rewrite elem_of_cons. tauto.
Qed.

Lemma fold_delete_size (keys : list string) (m : CacheFile) :
  NoDup keys -> (forall k, k ∈ keys -> is_Some (m !! k)) ->
  (size (fold_left (fun m key => delete key m) keys m) + length keys
   = size m)%nat.
Proof.
  intros Hnd. revert m. induction Hnd as [|key keys Hout Hnd IH];
    intros m Hin; simpl; [lia|].
  assert (Hrest : forall k, k ∈ keys -> is_Some (delete key m !! k)).
  { intros k Hk. rewrite lookup_delete_ne.
    - apply Hin. by apply list_elem_of_further.
    - intros ->. by apply Hout. }
  specialize (IH (delete key m) Hrest).
  rewrite map_size_delete_Some in IH by (apply Hin, list_elem_of_here).
  destruct (Hin key (list_elem_of_here _ _)) as [e He].
  assert (size m <> 0%nat).
  { apply map_size_non_empty_iff. intros ->. by rewrite lookup_empty in He. }
  lia.
Qed.

Section Cleanup.

Variable fromisoformat : string -> option datetime.

(** The keys [cleanup_expired_cache] collects in one file. *)
Definition expired_keys (now : datetime) (m : CacheFile) : list string :=
  (List.filter (fun kv : string * CacheEntry =>
                  is_expired fromisoformat now kv.2)
               (map_to_list m)).*1.

(** What the clean-up leaves of an entry. *)
Definition keep (now : datetime) (entry : CacheEntry) : option CacheEntry :=
  if is_expired fromisoformat now entry then None else Some entry.

Lemma expired_keys_elem (now : datetime) (m : CacheFile) (k : string) :
  k ∈ expired_keys now m
  <-> exists e, m !! k = Some e /\ is_expired fromisoformat now e = true.
Proof.
  unfold expired_keys. rewrite list_elem_of_fmap. split.
  - intros ([k' e] & -> & Hin). apply list_elem_of_In, filter_In in Hin.
    destruct Hin as [Hin Hexp]. exists e. split; [|exact Hexp].
    apply elem_of_map_to_list. by apply list_elem_of_In.
  - intros (e & He & Hexp). exists (k, e). split; [done|].
    apply list_elem_of_In, filter_In. split; [|exact Hexp].
    apply list_elem_of_In. by apply elem_of_map_to_list.
Qed.

Lemma filter_fst_NoDup {A B} (f : A * B -> bool) (l : list (A * B)) :
  NoDup l.*1 -> NoDup (List.filter f l).*1.
Proof.
  induction l as [|x l IH]; simpl; [done|].
  intros [Hout Hnd]%NoDup_cons. destruct (f x); [|by apply IH].
  simpl. apply NoDup_cons. split; [|by apply IH].
  intros (y & Heq & Hin)%list_elem_of_fmap. apply Hout.
  apply list_elem_of_fmap. exists y. split; [done|].
  apply list_elem_of_In. apply list_elem_of_In, filter_In in Hin. tauto.
Qed.

Lemma cleanup_stage_spec (now : datetime) (acc : nat * CacheDir)
    (stage : string) :
  (forall k,
     load_json (cleanup_stage fromisoformat now acc stage).2 stage !! k
     = load_json acc.2 stage !! k ≫= keep now)
  /\ ((cleanup_stage fromisoformat now acc stage).1
      + size (load_json (cleanup_stage fromisoformat now acc stage).2 stage)
      = acc.1 + size (load_json acc.2 stage))%nat
  /\ (forall stage', stage <> stage' ->
        load_json (cleanup_stage fromisoformat now acc stage).2 stage'
        = load_json acc.2 stage').
Proof.
  unfold cleanup_stage. fold (expired_keys now (load_json acc.2 stage)).
  set (m := load_json acc.2 stage).
  assert (Hlookup : forall k,
            fold_left (fun m key => delete key m) (expired_keys now m) m !! k
            = m !! k ≫= keep now).
  { intros k. rewrite fold_delete_lookup.
    destruct (decide (k ∈ expired_keys now m)) as [Hin|Hout].
    - apply expired_keys_elem in Hin as (e & -> & Hexp).
      simpl. unfold keep. by rewrite Hexp.
    - destruct (m !! k) as [e|] eqn:He; [|done]. simpl. unfold keep.
      destruct (is_expired fromisoformat now e) eqn:Hexp; [|done].
      exfalso. apply Hout. apply expired_keys_elem. by exists e. }
  assert (Hsize :
            (size (fold_left (fun m key => delete key m)
                             (expired_keys now m) m)
             + length (expired_keys now m) = size m)%nat).
  { apply fold_delete_size.
    - apply filter_fst_NoDup, NoDup_fst_map_to_list.
    - intros k (e & He & _)%expired_keys_elem. by exists e. }
  destruct (expired_keys now m) as [|key keys] eqn:Hkeys; cbn [fst snd].
  - split; [|split; [|done]].
    + intros k. fold m. rewrite <- Hlookup. reflexivity.
    + fold m. simpl. lia.
  - rewrite load_save_same. split; [exact Hlookup|]. split.
    + simpl length in *. lia.
    + intros stage' Hne. by apply load_save_other.
Qed.

(** [cleanup_expired_cache] removes from the three stage files exactly
    the entries that are past their expiry or more than seven days old,
    keeps every other entry as it is, reports the number of entries it
    removed, and finds nothing to remove when run again at the same
    instant. *)
Theorem cleanup_expired_cache_removes_expired (dir : CacheDir)
    (now : datetime) :
  (forall stage k,
     load_json (cleanup_expired_cache fromisoformat dir now).2
               (stage_value stage) !! k
     = load_json dir (stage_value stage) !! k ≫= keep now)
  /\ ((cleanup_expired_cache fromisoformat dir now).1
      + (size (load_json (cleanup_expired_cache fromisoformat dir now).2
                         "import")
         + size (load_json (cleanup_expired_cache fromisoformat dir now).2
                           "enrich")
         + size (load_json (cleanup_expired_cache fromisoformat dir now).2
                           "analyze"))
      = size (load_json dir "import") + size (load_json dir "enrich")
        + size (load_json dir "analyze"))%nat
  /\ (cleanup_expired_cache fromisoformat
        (cleanup_expired_cache fromisoformat dir now).2 now).1 = 0%nat.
Proof.
  assert (Hrun : forall dir0 n0,
            let r := fold_left (cleanup_stage fromisoformat now)
                       ["import"; "enrich"; "analyze"] (n0, dir0) in
            (forall stage k,
               load_json r.2 (stage_value stage) !! k
               = load_json dir0 (stage_value stage) !! k ≫= keep now)
            /\ (r.1 + (size (load_json r.2 "import")
                       + size (load_json r.2 "enrich")
                       + size (load_json r.2 "analyze"))
                = n0 + (size (load_json dir0 "import")
                        + size (load_json dir0 "enrich")
                        + size (load_json dir0 "analyze")))%nat).
  { intros dir0 n0. cbn [fold_left].
    destruct (cleanup_stage_spec now (n0, dir0) "import")
      as (Hl1 & Hs1 & Ho1).
    destruct (cleanup_stage_spec now
                (cleanup_stage fromisoformat now (n0, dir0) "import")
                "enrich") as (Hl2 & Hs2 & Ho2).
    destruct (cleanup_stage_spec now
                (cleanup_stage fromisoformat now
                   (cleanup_stage fromisoformat now (n0, dir0) "import")
                   "enrich") "analyze") as (Hl3 & Hs3 & Ho3).
    cbn [fst snd] in *. split.
    - intros stage k. destruct stage; cbn [stage_value].
      + rewrite (Ho3 "import") by done. rewrite (Ho2 "import") by done.
        apply Hl1.
      + rewrite (Ho3 "enrich") by done. rewrite Hl2.
        by rewrite (Ho1 "enrich") by done.
      + rewrite Hl3. rewrite (Ho2 "analyze") by done.
        by rewrite (Ho1 "analyze") by done.
    - rewrite (Ho3 "import") by done. rewrite (Ho3 "enrich") by done.
      rewrite (Ho2 "import") by done.
      rewrite (Ho2 "analyze"), (Ho1 "analyze"), (Ho1 "enrich") in * by done.
      lia. }
  unfold cleanup_expired_cache.
  destruct (Hrun dir 0%nat) as [Hl Hs].
  split; [exact Hl|]. split; [cbn zeta in Hs; lia|].
  set (r := fold_left (cleanup_stage fromisoformat now)
              ["import"; "enrich"; "analyze"] (0%nat, dir)) in *.
  destruct (Hrun r.2 0%nat) as [Hl' Hs']. cbn zeta in Hs'.
  set (r' := fold_left (cleanup_stage fromisoformat now)
               ["import"; "enrich"; "analyze"] (0%nat, r.2)) in *.
  assert (Hsame : forall stage,
            load_json r'.2 (stage_value stage)
            = load_json r.2 (stage_value stage)).
  { intros stage. apply map_eq. intros k. rewrite Hl', Hl.
    destruct (load_json dir (stage_value stage) !! k) as [e|]; [|done].
    simpl. unfold keep.
    destruct (is_expired fromisoformat now e) eqn:Hexp; simpl; [done|].
    by rewrite Hexp. }
  pose proof (Hsame IMPORT) as H1. pose proof (Hsame ENRICH) as H2.
  pose proof (Hsame ANALYZE) as H3. cbn [stage_value] in H1, H2, H3.
  rewrite H1, H2, H3 in Hs'. lia.
Qed.

End Cleanup.

End StorageFacts.

Module RecommendFacts.
Import Clock Schemas Recommender.

(** A score that [SlotRecommendation] accepts. *)
Definition valid_score (s : float) : Prop :=
  (0 <=? s)%float = true /\ (s <=? 1)%float = true.

(** [a] may stand before [b] in the descending order of scores. *)
Definition score_ge (a b : scored) : Prop := (b.1.2 <=? a.1.2)%float = true.

Lemma insert_scored_perm (x : scored) (l : list scored) :
  insert_scored x l ≡ₚ x :: l.
Proof.
  induction l as [|y l IH]; simpl; [done|].
  destruct (y.1.2 <=? x.1.2)%float; [done|].
  rewrite IH. apply Permutation_swap.
Qed.

Lemma sort_scored_perm (l : list scored) : sort_scored l ≡ₚ l.
Proof.
  induction l as [|x l IH]; simpl; [done|].
  rewrite insert_scored_perm. by rewrite IH.
Qed.

Lemma insert_scored_sorted (x : scored) (l : list scored) :
  valid_score x.1.2 -> Forall (fun y => valid_score y.1.2) l ->
  StronglySorted score_ge l -> StronglySorted score_ge (insert_scored x l).
Proof.
  intros Hx Hl Hs. induction Hs as [|y l Hs IH Hy]; simpl.
  - repeat constructor.
  - apply Forall_cons in Hl as [Hvy Hl].
    destruct (y.1.2 <=? x.1.2)%float eqn:Hle.
    + constructor; [by constructor|]. constructor; [exact Hle|].
      eapply Forall_impl; [exact Hy|]. unfold score_ge. intros z Hz.
      by apply (FloatOrder.leb_trans _ y.1.2).
    + constructor; [by apply IH|]. rewrite insert_scored_perm.
      constructor; [|exact Hy]. unfold score_ge.
      apply (FloatOrder.leb_total _ _ 0%float 1%float);
        [apply Hvy|apply Hx|exact Hle].
Qed.

Lemma sort_scored_sorted (l : list scored) :
  Forall (fun y => valid_score y.1.2) l -> StronglySorted score_ge (sort_scored l).
Proof.
  induction 1 as [|x l Hx Hl IH]; simpl; [constructor|].
  apply insert_scored_sorted; [exact Hx| |exact IH].
  by rewrite sort_scored_perm.
Qed.

(** The recommendation the code builds from a scored slot. *)
Definition as_recommendation (x : scored) : SlotRecommendation :=
  mkRecommendation x.1.1 x.1.2 x.2.

Lemma make_recommendations_valid (l : list scored) :
  Forall (fun y => valid_score y.1.2) l ->
  mapM (fun x : scored => make_recommendation x.1.1 x.1.2 x.2) l
  = Some (as_recommendation <$> l).
Proof.
  intros Hl. apply mapM_Some_2.
  induction Hl as [|x l [H0 H1] Hl IH]; simpl; constructor; [|exact IH].
  unfold make_recommendation. by rewrite H0, H1.
Qed.

Lemma slice_from_1_take {A} (l : list A) (n : Z) :
  0 <= n -> slice_from_1 l (n + 1) = take (Z.to_nat n) (drop 1 l).
Proof.
  intros Hn. unfold slice_from_1.
  replace (0 <=? n + 1) with true by (symmetry; apply Z.leb_le; lia).
  do 2 f_equal. lia.
Qed.

Section Recommendation.

Variable start_offset : EnrichedEvent -> timedelta.
Variable end_offset : EnrichedEvent -> timedelta.
Variable score_slot :
  TimeSlot -> UserQuery -> option (list (EventType * TimeWindow)) ->
  list EnrichedEvent -> float * list string.
Variable check_conflicts : TimeSlot -> list EnrichedEvent -> list string.

#[local] Abbreviation inflate :=
  (Recommender.inflate start_offset end_offset).
#[local] Abbreviation merged_busy :=
  (Recommender.merged_busy start_offset end_offset).
#[local] Abbreviation generate_free_slots :=
  (Recommender.generate_free_slots start_offset end_offset).
#[local] Abbreviation recommend_slot :=
  (Recommender.recommend_slot start_offset end_offset).

(** The score and the rationale [_score_slot] gives a slot of a request. *)
Definition score_of (request : RecommendRequest) (slot : TimeSlot) : float :=
  (score_slot slot (user_query request) (history_habits request)
              (enriched_events request)).1.

Definition rationale_of (request : RecommendRequest) (slot : TimeSlot)
    : list string :=
  (score_slot slot (user_query request) (history_habits request)
              (enriched_events request)).2.

Definition scored_of (request : RecommendRequest) (slot : TimeSlot) : scored :=
  (slot, score_of request slot, rationale_of request slot).

Lemma scored_slots_unfold (request : RecommendRequest)
    (free_slots : list TimeSlot) :
  (fun slot =>
     let '(score, rationale) :=
       score_slot slot (user_query request) (history_habits request)
                  (enriched_events request) in
     (slot, score, rationale)) <$> free_slots
  = scored_of request <$> free_slots.
Proof.
  apply list_fmap_ext. intros _ slot _. unfold scored_of, score_of, rationale_of.
  by destruct (score_slot _ _ _ _).
Qed.

(** The response for a non-empty list of free slots whose scores are
    valid, in terms of the sorted list of scored slots. *)
Lemma recommend_slot_scored (cfg : Settings) (request : RecommendRequest)
    (now : datetime) (free_slots : list TimeSlot) :
  generate_free_slots cfg (enriched_events request) now
    (search_days request) (q_duration_min (user_query request))
    = Some free_slots ->
  free_slots <> [] ->
  Forall (fun slot => valid_score (score_of request slot)) free_slots ->
  0 <= max_alternatives request ->
  exists best others,
    sort_scored (scored_of request <$> free_slots) = best :: others
    /\ recommend_slot score_slot check_conflicts cfg request now
       = Some {| recommendation := as_recommendation best;
                 alternatives :=
                   as_recommendation
                   <$> take (Z.to_nat (max_alternatives request)) others;
                 conflicts_found :=
                   check_conflicts best.1.1 (enriched_events request);
                 search_stats :=
                   [("slots_found", Z.of_nat (length free_slots));
                    ("slots_evaluated", Z.of_nat (length free_slots));
                    ("search_days", search_days request);
                    ("duration_requested",
                     q_duration_min (user_query request))] |}.
Proof.
  intros Hgen Hne Hvalid Hmax.
  assert (Hall : Forall (fun y : scored => valid_score y.1.2)
                   (sort_scored (scored_of request <$> free_slots))).
  { rewrite sort_scored_perm. apply Forall_fmap.
    eapply Forall_impl; [exact Hvalid|]. done. }
  assert (Hlen : length (sort_scored (scored_of request <$> free_slots))
                 = length free_slots).
  { by rewrite sort_scored_perm, length_fmap. }
  unfold Recommender.recommend_slot. rewrite Hgen. simpl.
  destruct free_slots as [|slot0 slots]; [done|].
  rewrite scored_slots_unfold.
  destruct (sort_scored (scored_of request <$> slot0 :: slots))
    as [|[[best_slot best_score] best_rationale] others] eqn:Hsorted;
    [simpl in Hlen; lia|].
  exists (best_slot, best_score, best_rationale), others.
  split; [reflexivity|].
  apply Forall_cons in Hall as [[H0 H1] Hothers].
  assert (Hbest : make_recommendation best_slot best_score best_rationale
                  = Some (mkRecommendation best_slot best_score
                                           best_rationale)).
  { unfold make_recommendation. simpl in H0, H1. by rewrite H0, H1. }
  rewrite Hbest, Hlen. simpl.
  rewrite slice_from_1_take by done. simpl drop.
  rewrite make_recommendations_valid by (by apply Forall_take).
  reflexivity.
Qed.

Lemma scored_of_elem (request : RecommendRequest) (free_slots : list TimeSlot)
    (x : scored) :
  x ∈ sort_scored (scored_of request <$> free_slots) ->
  x.1.1 ∈ free_slots /\ x = scored_of request x.1.1.
Proof.
  rewrite sort_scored_perm. intros (slot & -> & Hin)%list_elem_of_fmap.
  by split.
Qed.

(** When free slots exist and [_score_slot] gives each a score between 0
    and 1, [recommend_slot] answers, and: the recommended slot and the
    alternatives are distinct entries of the list of free slots; there are
    [max_alternatives] alternatives, or as many as there are further free
    slots; each carries the score and the rationale [_score_slot] gave
    its slot; they are in descending order of score; no free slot scores
    higher than the recommended one, and no slot left out scores higher
    than an alternative; the conflicts are those of the recommended slot;
    and, the events that start at or after the query time being
    well-formed and given in the UTC offset of the query time, no returned
    slot overlaps the inflated interval of such an event. *)
Theorem recommendation_is_best_free_slot (cfg : Settings)
    (request : RecommendRequest) (now : datetime)
    (free_slots : list TimeSlot) :
  generate_free_slots cfg (enriched_events request) now
    (search_days request) (q_duration_min (user_query request))
    = Some free_slots ->
  free_slots <> [] ->
  Forall (fun slot => valid_score (score_of request slot)) free_slots ->
  0 <= max_alternatives request ->
  exists resp rest,
    recommend_slot score_slot check_conflicts cfg request now = Some resp
    /\ (rec_slot <$> recommendation resp :: alternatives resp) ++ rest
       ≡ₚ free_slots
    /\ length (alternatives resp)
       = Nat.min (Z.to_nat (max_alternatives request))
                 (length free_slots - 1)
    /\ Forall (fun r =>
                 rec_score r = score_of request (rec_slot r)
                 /\ rec_rationale r = rationale_of request (rec_slot r))
              (recommendation resp :: alternatives resp)
    /\ StronglySorted
         (fun a b => (rec_score b <=? rec_score a)%float = true)
         (recommendation resp :: alternatives resp)
    /\ (forall slot,
          slot ∈ free_slots ->
          (score_of request slot <=? rec_score (recommendation resp))%float
          = true)
    /\ (forall a slot,
          a ∈ alternatives resp -> slot ∈ rest ->
          (score_of request slot <=? rec_score a)%float = true)
    /\ conflicts_found resp
       = check_conflicts (rec_slot (recommendation resp))
                         (enriched_events request)
    /\ (Forall (fun e => now <= en_start e ->
                         RecommenderFacts.iv_ok (inflate cfg e)
                         /\ start_offset e = 0 /\ end_offset e = 0)
               (enriched_events request) ->
        forall r e,
          r ∈ recommendation resp :: alternatives resp ->
          e ∈ enriched_events request -> now <= en_start e ->
          ~ RecommenderFacts.slot_overlaps_busy (rec_slot r)
                                                (inflate cfg e)).
Proof.
  intros Hgen Hne Hvalid Hmax.
  destruct (recommend_slot_scored cfg request now free_slots Hgen Hne Hvalid
              Hmax) as (best & others & Hsorted & Hresp).
  set (n := Z.to_nat (max_alternatives request)) in *.
  assert (Hperm : best :: others ≡ₚ scored_of request <$> free_slots)
    by (by rewrite <- Hsorted, sort_scored_perm).
  assert (Helem : forall x, x ∈ best :: others ->
            x.1.1 ∈ free_slots /\ x = scored_of request x.1.1).
  { intros x Hx. apply scored_of_elem. by rewrite Hsorted. }
  assert (Hord : StronglySorted score_ge (best :: others)).
  { rewrite <- Hsorted. apply sort_scored_sorted. apply Forall_fmap.
    eapply Forall_impl; [exact Hvalid|]. done. }
  assert (Hsplit : best :: others
                   = (best :: take n others) ++ drop n others)
    by (simpl; by rewrite take_drop).
  assert (Hfst : (fun x : scored => x.1.1) <$> (scored_of request <$> free_slots)
                 = free_slots).
  { rewrite <- list_fmap_compose. rewrite <- (list_fmap_id free_slots) at 2.
    by apply list_fmap_ext. }
  eexists. exists ((fun x : scored => x.1.1) <$> drop n others).
  split; [exact Hresp|]. cbn [recommendation alternatives conflicts_found].
  split; [|split; [|split; [|split; [|split; [|split; [|split]]]]]].
  - rewrite <- Hfst, <- Hperm, Hsplit. rewrite fmap_app. simpl.
    rewrite <- list_fmap_compose. reflexivity.
  - rewrite length_fmap, length_take.
    assert (length (best :: others) = length free_slots)
      by (by rewrite Hperm, length_fmap).
    simpl in *. lia.
  - apply Forall_forall. intros r Hr.
    assert (Hin : exists x, r = as_recommendation x /\ x ∈ best :: others).
    { apply elem_of_cons in Hr as [->|Hr].
      - exists best. split; [done|]. apply list_elem_of_here.
      - apply list_elem_of_fmap in Hr as (x & -> & Hx). exists x.
        split; [done|]. apply list_elem_of_further.
        by apply (subseteq_take n). }
    destruct Hin as (x & -> & Hx). destruct (Helem x Hx) as [_ Heq].
    simpl. by rewrite Heq at 1 3.
  - rewrite Hsplit in Hord.
    apply StronglySorted_app in Hord as (_ & Hhead & _).
    change (as_recommendation best
            :: (as_recommendation <$> take n others))
      with (as_recommendation <$> (best :: take n others)).
    eapply StronglySorted_fmap; [|exact Hhead]. done.
  - intros slot Hslot.
    assert (Hx : scored_of request slot ∈ best :: others).
    { rewrite Hperm. apply list_elem_of_fmap. by exists slot. }
    apply StronglySorted_inv in Hord as [_ Hbest].
    apply elem_of_cons in Hx as [Heq|Hx].
    + rewrite <- Heq. simpl.
      pose proof (proj1 (Forall_forall _ _) Hvalid slot Hslot) as [H0 _].
      rewrite FloatAxioms.leb_spec in *.
      by apply FloatOrder.SFleb_refl_r in H0.
    + exact (proj1 (Forall_forall _ _) Hbest _ Hx).
  - intros a slot Ha (x & -> & Hx)%list_elem_of_fmap.
    apply list_elem_of_fmap in Ha as (y & -> & Hy).
    rewrite Hsplit in Hord.
    apply StronglySorted_app in Hord as (Hbetween & _ & _).
    destruct (Helem x) as [_ Heq].
    { apply list_elem_of_further. by apply (subseteq_drop n). }
    specialize (Hbetween y x (list_elem_of_further _ _ _ Hy) Hx).
    unfold score_ge in Hbetween. rewrite Heq in Hbetween at 1. exact Hbetween.
  - reflexivity.
  - intros Hev r e Hr He Hfut.
    assert (Hfree : rec_slot r ∈ free_slots).
    { apply elem_of_cons in Hr as [->|Hr].
      - apply (Helem best). apply list_elem_of_here.
      - apply list_elem_of_fmap in Hr as (x & -> & Hx).
        apply (Helem x). apply list_elem_of_further.
        by apply (subseteq_take n). }
    assert (Hok : RecommenderFacts.future_ok start_offset end_offset cfg now
                    (enriched_events request)).
    { intros e' He' Hf.
      exact (proj1 (proj1 (Forall_forall _ _) Hev e' He' Hf)). }
    assert (Hline : RecommenderFacts.future_on_line start_offset end_offset
                      now (enriched_events request)).
    { intros e' He' Hf.
      exact (proj2 (proj1 (Forall_forall _ _) Hev e' He' Hf)). }
    destruct (RecommenderFacts.generate_free_slots_spec _ _ _ _ _ _ _ _
                Hok Hline Hgen) as [_ Hbusy].
    destruct (RecommenderFacts.merged_busy_spec _ _ cfg now
                (enriched_events request) Hok) as (_ & _ & _ & Hcov).
    apply RecommenderFacts.apart_not_overlap.
    apply (RecommenderFacts.apart_covered _ _
             (merged_busy cfg now (enriched_events request))).
    + by apply Hok.
    + by apply Hcov.
    + exact (proj1 (Forall_forall _ _) Hbusy _ Hfree).
Qed.

End Recommendation.

(** A request for one hour on a day with one meeting, 10:00-11:00, and a
    scoring that prefers slots from 10:00 on. *)
Definition one_meeting_request : RecommendRequest :=
  {| user_query := mkQuery "sync" 60 None REGULAR None;
     enriched_events :=
       [mkEnriched (mkEvent "cal" (at_time 100 10 0) (at_time 100 11 0)
                            "meeting" "" [] false false) WORK REGULAR];
     history_habits := None;
     search_days := 1;
     max_alternatives := 3 |}.

Definition late_is_better (slot : TimeSlot) (query : UserQuery)
    (habits : option (list (EventType * TimeWindow)))
    (events : list EnrichedEvent) : float * list string :=
  (if hour_of (slot_start slot) <? 10 then 0x1p-1%float else 0x1.8p-1%float,
   []).

(** The theorem at that request, queried at 06:00: of the free slots
    07:00-08:00 and 11:10-12:10 the later one is recommended, the earlier
    one is the alternative. *)
Lemma recommendation_is_best_free_slot_witness :
  generate_free_slots RecommenderFacts.same_zone RecommenderFacts.same_zone
    default_settings (enriched_events one_meeting_request)
    (at_time 100 6 0) 1 60
  = Some [mkSlot (at_time 100 7 0) (at_time 100 8 0);
          mkSlot (at_time 100 11 10) (at_time 100 12 10)]
  /\ exists resp,
       recommend_slot RecommenderFacts.same_zone RecommenderFacts.same_zone
                      late_is_better (fun _ _ => []) default_settings
                      one_meeting_request (at_time 100 6 0) = Some resp
       /\ rec_slot (recommendation resp)
          = mkSlot (at_time 100 11 10) (at_time 100 12 10)
       /\ rec_slot <$> alternatives resp
          = [mkSlot (at_time 100 7 0) (at_time 100 8 0)].
Proof.
  assert (Hgen : generate_free_slots RecommenderFacts.same_zone
                   RecommenderFacts.same_zone default_settings
                   (enriched_events one_meeting_request) (at_time 100 6 0)
                   (search_days one_meeting_request)
                   (q_duration_min (user_query one_meeting_request))
                 = Some [mkSlot (at_time 100 7 0) (at_time 100 8 0);
                         mkSlot (at_time 100 11 10) (at_time 100 12 10)])
    by (vm_compute; reflexivity).
  split; [exact Hgen|].
  destruct (recommendation_is_best_free_slot RecommenderFacts.same_zone
              RecommenderFacts.same_zone late_is_better (fun _ _ => [])
              default_settings one_meeting_request (at_time 100 6 0) _ Hgen)
    as (resp & rest & Hresp & _).
  - discriminate.
  - repeat constructor.
  - simpl. lia.
  - exists resp. split; [exact Hresp|].
    assert (Hval : recommend_slot RecommenderFacts.same_zone
                     RecommenderFacts.same_zone late_is_better
                     (fun _ _ => [])
                     default_settings one_meeting_request (at_time 100 6 0)
                   = Some
                       {| recommendation :=
                            mkRecommendation
                              (mkSlot (at_time 100 11 10) (at_time 100 12 10))
                              0x1.8p-1%float [];
                          alternatives :=
                            [mkRecommendation
                               (mkSlot (at_time 100 7 0) (at_time 100 8 0))
                               0x1p-1%float []];
                          conflicts_found := [];
                          search_stats :=
                            [("slots_found", 2); ("slots_evaluated", 2);
                             ("search_days", 1);
                             ("duration_requested", 60)] |})
      by (vm_compute; reflexivity).
    rewrite Hval in Hresp. injection Hresp as <-. split; reflexivity.
Defined.

End RecommendFacts.

Module ScoringFacts.
Import Clock Schemas Recommender Analyzer Scoring.

Section Score.

Variable int_of_str : string -> option Z.
Variable total_seconds : timedelta -> float.

Lemma time_preference_total (slot : TimeSlot) (query : UserQuery)
    (history_habits : option (list (EventType * TimeWindow))) :
  (forall default_windows event_type window,
     history_habits = Some default_windows ->
     q_event_type query = Some event_type ->
     window_of default_windows event_type = Some window ->
     is_Some (parse_hhmm int_of_str (tw_start window))
     /\ is_Some (parse_hhmm int_of_str (tw_end window))) ->
  is_Some (time_preference int_of_str slot query history_habits).
Proof.
  intros Hparse. unfold time_preference.
  destruct history_habits as [default_windows|].
  - destruct (q_event_type query) as [event_type|].
    + destruct (window_of default_windows event_type) as [window|] eqn:Hw;
        [|by eexists].
      destruct (Hparse _ _ _ eq_refl eq_refl Hw) as [[ws ->] [we ->]].
      simpl. destruct (_ && _)%float; by eexists.
    + repeat (destruct (_ && _); [by eexists|]). by eexists.
  - repeat (destruct (_ && _); [by eexists|]). by eexists.
Qed.

(** Whenever [_score_slot] returns, its score lies between 0 and 1 (so
    a [SlotRecommendation] built from it passes validation), whatever the
    weights and the clock reading are, and the rationale holds the line
    on conflicts and at least one more line; it returns unless the text
    of the habit window of the requested category fails to parse, so
    always when there is no habit profile or no requested category; and
    the existing events make no difference. *)
Theorem score_slot_in_unit_interval (cfg : Settings)
    (weights : ScoringWeights) (now : datetime) (slot : TimeSlot)
    (query : UserQuery)
    (history_habits : option (list (EventType * TimeWindow)))
    (existing_events : list EnrichedEvent) :
  (forall score rationale,
     score_slot int_of_str total_seconds cfg weights now slot query
                history_habits existing_events = Some (score, rationale) ->
     (0 <=? score)%float = true /\ (score <=? 1)%float = true
     /\ "Нет конфликтов с существующими событиями" ∈ rationale
     /\ (2 <= length rationale)%nat)
  /\ ((forall default_windows event_type window,
         history_habits = Some default_windows ->
         q_event_type query = Some event_type ->
         window_of default_windows event_type = Some window ->
         is_Some (parse_hhmm int_of_str (tw_start window))
         /\ is_Some (parse_hhmm int_of_str (tw_end window))) ->
      is_Some (score_slot int_of_str total_seconds cfg weights now slot
                          query history_habits existing_events))
  /\ (forall events',
        score_slot int_of_str total_seconds cfg weights now slot query
                   history_habits events'
        = score_slot int_of_str total_seconds cfg weights now slot query
                     history_habits existing_events).
Proof.
  split; [|split; [|reflexivity]].
  - intros score rationale. unfold score_slot.
    destruct (time_preference int_of_str slot query history_habits)
      as [[time_pref_score lines0]|]; [|discriminate].
    simpl.
    destruct (working_hours cfg slot) as [working_hours_score lines1] eqn:Hwh.
    destruct (proximity_score total_seconds now slot query)
      as [proximity lines2].
    assert (Hlines1 : (1 <= length lines1)%nat).
    { unfold working_hours in Hwh.
      destruct (_ && _) in Hwh; [destruct (_ <? 5) in Hwh|];
        injection Hwh as _ <-; simpl; lia. }
    destruct (_ && _); destruct (_ && _); intros [= <- <-];
      (split; [apply FloatOrder.clamp_unit|]);
      (split; [apply FloatOrder.clamp_unit|]);
      (split; [rewrite !elem_of_app, list_elem_of_singleton; tauto|]);
      rewrite !length_app; simpl; lia.
  - intros Hparse. unfold score_slot.
    destruct (time_preference_total slot query history_habits Hparse)
      as [[time_pref_score lines0] ->].
    simpl. destruct (working_hours cfg slot).
    destruct (proximity_score total_seconds now slot query).
    destruct (_ && _); destruct (_ && _); by eexists.
Qed.

End Score.

End ScoringFacts.

Module ClassifierFacts.
Import Clock Schemas Enricher Classifier.

(** *** The keyword table *)

Lemma keywords_of_table :
  Forall (fun kv : EventType * list string =>
            keywords_of kv.1 = kv.2 /\ kv.1 <> OTHER
            /\ (13 <= Z.of_nat (length kv.2) <= 15))
         EVENT_KEYWORDS.
Proof.
  unfold EVENT_KEYWORDS.
  repeat (constructor;
          [split; [reflexivity|split; [discriminate|simpl; lia]]|]).
  constructor.
Qed.

Lemma keywords_of_OTHER : keywords_of OTHER = [].
Proof. reflexivity. Qed.

Lemma keywords_of_entry (t : EventType) :
  t <> OTHER -> (t, keywords_of t) ∈ EVENT_KEYWORDS.
Proof.
  intros Ht. apply list_elem_of_In.
  destruct t; try done; vm_compute; auto 12.
Qed.

(** *** The heuristics, entry by entry *)

Definition bump_entry (key : EventType) (delta : Q) (kv : EventType * Q)
    : EventType * Q :=
  if decide (kv.1 = key) then (kv.1, (kv.2 + delta)%Q) else kv.

Definition adjust_entry (event : Event) (kv : EventType * Q)
    : EventType * Q :=
  let hour := hour_of (ev_start event) in
  let kv :=
    if (6 <=? hour) && (hour <? 9)
    then bump_entry ROUTINE 1 (bump_entry HEALTH 1 kv)
    else if (9 <=? hour) && (hour <? 18) && (weekday (ev_start event) <? 5)
    then bump_entry WORK 1 kv
    else if (18 <=? hour) && (hour <? 22)
    then bump_entry LEISURE (1 # 2)
           (bump_entry FAMILY (1 # 2) (bump_entry STUDY (1 # 2) kv))
    else kv in
  if (2 <? length (ev_attendees event))%nat then bump_entry WORK 1 kv
  else kv.

Lemma heuristics_entrywise (event : Event) (scores : list (EventType * Q)) :
  attendee_heuristic event (time_heuristics event scores)
  = adjust_entry event <$> scores.
Proof.
  unfold attendee_heuristic, time_heuristics, adjust_entry, bump.
  fold (bump_entry ROUTINE 1) (bump_entry HEALTH 1) (bump_entry WORK 1)
       (bump_entry LEISURE (1 # 2)) (bump_entry FAMILY (1 # 2))
       (bump_entry STUDY (1 # 2)).
  destruct (_ && _); [|destruct (_ && _); [|destruct (_ && _)]];
    destruct (_ <? _)%nat; rewrite <- ?list_fmap_compose;
    first [reflexivity|symmetry; apply list_fmap_id].
Qed.

(** The scores an entry can reach: the number of matched keywords plus
    at most two whole points, or plus one half. *)
Definition score_ok (len : Z) (q : Q) : Prop :=
  (Qden q = 1%positive /\ 1 <= Qnum q <= len + 2)
  \/ (Qden q = 2%positive /\ 3 <= Qnum q <= 2 * len + 1).

Lemma adjust_entry_ok (event : Event) (t : EventType) (c len : Z) :
  1 <= c <= len ->
  (adjust_entry event (t, inject_Z c)).1 = t
  /\ score_ok len (adjust_entry event (t, inject_Z c)).2.
Proof.
  intros Hc. unfold adjust_entry, bump_entry, score_ok.
  destruct (_ && _); [|destruct (_ && _); [|destruct (_ && _)]];
    destruct (_ <? _)%nat; destruct t; simpl;
    (split; [reflexivity|]); first [left; split; [reflexivity|lia]
                                   |right; split; [reflexivity|lia]].
Qed.

Lemma max_item_elem (best : EventType * Q) (rest : list (EventType * Q)) :
  max_item best rest ∈ best :: rest.
Proof.
  revert best. induction rest as [|x rest IH]; intros best; simpl.
  - apply list_elem_of_here.
  - specialize (IH (if Qle_bool x.2 best.2 then best else x)).
    apply elem_of_cons in IH as [->|IH].
    + destruct (Qle_bool x.2 best.2);
        [apply list_elem_of_here
        |apply list_elem_of_further, list_elem_of_here].
    + by do 2 apply list_elem_of_further.
Qed.

(** *** The confidence *)

Definition confidence_of (num : Z) (den : positive) (len : Z) : float :=
  PyFloat.min (PyFloat.of_Z num / PyFloat.of_Z (Z.pos den)
               / PyFloat.of_Z (len + 3))%float 1.

#[local] Abbreviation in_unit := FloatOrder.in_unit.

Lemma confidence_table :
  forallb (fun len =>
             forallb (fun num => in_unit (confidence_of num 1 len))
                     (seqZ 1 (len + 2))
             && forallb (fun num => in_unit (confidence_of num 2 len))
                        (seqZ 3 (2 * len - 1)))
          (seqZ 13 3)
  = true.
Proof. vm_compute. reflexivity. Qed.

Lemma confidence_in_unit (q : Q) (len : Z) :
  13 <= len <= 15 -> score_ok len q ->
  in_unit (PyFloat.min (float_of_score q / PyFloat.of_Z (len + 3))%float 1)
  = true.
Proof.
  intros Hlen Hq. pose proof confidence_table as Htable.
  rewrite forallb_forall in Htable.
  specialize (Htable len). rewrite <- list_elem_of_In, elem_of_seqZ in Htable.
  specialize (Htable ltac:(lia)).
  apply andb_true_iff in Htable as [H1 H2].
  rewrite forallb_forall in H1, H2.
  destruct q as [num den]. unfold float_of_score, score_ok in *.
  cbn [Qnum Qden] in *.
  destruct Hq as [[-> Hnum]|[-> Hnum]].
  - apply (H1 num). apply list_elem_of_In, elem_of_seqZ. lia.
  - apply (H2 num). apply list_elem_of_In, elem_of_seqZ. lia.
Qed.

(** *** Classification by rules *)

Section Rules.

Variable lower : string -> string.

(** A keyword of the category occurs in the text. *)
Definition has_keyword (t : EventType) (text : string) : Prop :=
  exists keyword,
    keyword ∈ keywords_of t /\ contains (lower keyword) text = true.

Lemma matched_keywords_elem (text : string) (keywords : list string)
    (keyword : string) :
  keyword ∈ matched_keywords lower text keywords
  <-> keyword ∈ keywords /\ contains (lower keyword) text = true.
Proof.
  unfold matched_keywords. rewrite !list_elem_of_In.
  apply (filter_In (fun keyword => contains (lower keyword) text)).
Qed.

Lemma matched_keywords_length (text : string) (keywords : list string) :
  (length (matched_keywords lower text keywords) <= length keywords)%nat.
Proof.
  unfold matched_keywords. induction keywords as [|k keywords IH]; simpl;
    [lia|]. destruct (contains (lower k) text); simpl; lia.
Qed.

Lemma keyword_scores_elem (text : string) (t : EventType) (q : Q) :
  (t, q) ∈ keyword_scores lower text ->
  t <> OTHER /\ has_keyword t text
  /\ (13 <= Z.of_nat (length (keywords_of t)) <= 15)
  /\ exists c, q = inject_Z c
               /\ 1 <= c <= Z.of_nat (length (keywords_of t)).
Proof.
  unfold keyword_scores. rewrite list_elem_of_omap.
  intros ([t' keywords] & Hin & Hf).
  pose proof (proj1 (Forall_forall _ _) keywords_of_table _ Hin)
    as (Hk & Hne & Hlen).
  cbn [fst snd] in *.
  destruct (0 <? Z.of_nat (length (matched_keywords lower text keywords)))
    eqn:Hpos; [|discriminate].
  injection Hf as <- <-. apply Z.ltb_lt in Hpos. rewrite Hk.
  split; [exact Hne|]. split; [|split; [exact Hlen|]].
  - destruct (matched_keywords lower text keywords) as [|k ks] eqn:Hm;
      [simpl in Hpos; lia|].
    exists k. rewrite Hk. apply matched_keywords_elem. rewrite Hm.
    apply list_elem_of_here.
  - eexists. split; [reflexivity|].
    pose proof (matched_keywords_length text keywords). lia.
Qed.

Lemma keyword_scores_nonempty (text : string) (t : EventType) :
  has_keyword t text -> keyword_scores lower text <> [].
Proof.
  intros (keyword & Hk & Hc) Hnil.
  assert (Ht : t <> OTHER).
  { intros ->. rewrite keywords_of_OTHER in Hk. by apply elem_of_nil in Hk. }
  assert (Hin : exists q, (t, q) ∈ keyword_scores lower text).
  { exists (inject_Z
              (Z.of_nat
                 (length (matched_keywords lower text (keywords_of t))))).
    unfold keyword_scores. apply list_elem_of_omap.
    exists (t, keywords_of t).
    split; [by apply keywords_of_entry|]. cbn [fst snd].
    assert (Hm : keyword ∈ matched_keywords lower text (keywords_of t))
      by (by apply matched_keywords_elem).
    destruct (matched_keywords lower text (keywords_of t)) as [|k ks];
      [by apply elem_of_nil in Hm|].
    simpl length.
    replace (0 <? Z.of_nat (S (length ks))) with true
      by (symmetry; apply Z.ltb_lt; lia).
    reflexivity. }
  destruct Hin as [q Hq]. rewrite Hnil in Hq. by apply elem_of_nil in Hq.
Qed.

(** What [_classify_with_rules] returns for an event whose text holds a
    keyword. *)
Lemma classify_with_rules_match (event : Event) :
  keyword_scores lower (event_text lower event) <> [] ->
  (classify_with_rules lower event).1 <> OTHER
  /\ has_keyword (classify_with_rules lower event).1
                 (event_text lower event)
  /\ in_unit (classify_with_rules lower event).2 = true.
Proof.
  intros Hne. unfold classify_with_rules. rewrite heuristics_entrywise.
  destruct (keyword_scores lower (event_text lower event)) as [|kv rest]
    eqn:Hscores; [done|].
  rewrite fmap_cons.
  pose proof (max_item_elem (adjust_entry event kv)
                            (adjust_entry event <$> rest)) as Hbest.
  rewrite <- fmap_cons in Hbest.
  apply list_elem_of_fmap in Hbest as ([t q] & Hbest & Hin).
  rewrite <- Hscores in Hin.
  apply keyword_scores_elem in Hin as (Ht & Hkw & Hlen & c & -> & Hc).
  destruct (adjust_entry_ok event t c _ Hc) as [Hkey Hok].
  cbn [fst snd]. rewrite Hbest, Hkey.
  split; [exact Ht|]. split; [exact Hkw|].
  by apply confidence_in_unit.
Qed.

(** The confidence [_classify_with_rules] returns lies in [0, 1]. *)
Lemma classify_with_rules_unit (event : Event) :
  in_unit (classify_with_rules lower event).2 = true.
Proof.
  destruct (decide (keyword_scores lower (event_text lower event) = []))
    as [Hnil|Hne].
  - unfold classify_with_rules. rewrite heuristics_entrywise, Hnil.
    reflexivity.
  - by destruct (classify_with_rules_match event Hne) as (_ & _ & Hunit).
Qed.

(** [_classify_with_rules] returns "прочее" exactly when no keyword of
    any category occurs in the lower-cased summary and description, and
    then with confidence 0.0; otherwise it returns a category one of
    whose keywords occurs in that text; and the confidence always lies
    between 0 and 1. *)
Theorem classify_with_rules_by_keywords (event : Event) :
  ((classify_with_rules lower event).1 = OTHER
   <-> forall t, ~ has_keyword t (event_text lower event))
  /\ ((classify_with_rules lower event).1 = OTHER ->
      (classify_with_rules lower event).2 = 0%float)
  /\ ((classify_with_rules lower event).1 <> OTHER ->
      has_keyword (classify_with_rules lower event).1
                  (event_text lower event))
  /\ (0 <=? (classify_with_rules lower event).2)%float = true
  /\ ((classify_with_rules lower event).2 <=? 1)%float = true.
Proof.
  destruct (decide (keyword_scores lower (event_text lower event) = []))
    as [Hnil|Hne].
  - assert (Hres : classify_with_rules lower event = (OTHER, 0%float)).
    { unfold classify_with_rules. rewrite heuristics_entrywise, Hnil.
      reflexivity. }
    rewrite Hres. cbn [fst snd].
    split; [|split; [done|split; [done|split; reflexivity]]].
    split; [|done]. intros _ t Hkw.
    by apply (keyword_scores_nonempty _ t Hkw).
  - destruct (classify_with_rules_match event Hne) as (Ht & Hkw & Hunit).
    apply andb_true_iff in Hunit as [H0 H1].
    split; [|split; [done|split; [done|split; done]]].
    split; [done|]. intros Hall. exfalso.
    exact (Hall _ Hkw).
Qed.

End Rules.

End ClassifierFacts.

Module EnrichFacts.
Import Clock Schemas Enricher Classifier EnrichLoop.

(** *** The dict of counts *)

(** [d.get(key, 0)] *)
Fixpoint count_of (key : EventType) (d : list (EventType * Z)) : Z :=
  match d with
  | [] => 0
  | (k, n) :: rest => if decide (k = key) then n else count_of key rest
  end.

Definition total_count (d : list (EventType * Z)) : Z :=
  foldr (fun kv acc => kv.2 + acc) 0 d.

Lemma increment_count (key t : EventType) (d : list (EventType * Z)) :
  count_of t (increment key d)
  = count_of t d + (if decide (key = t) then 1 else 0).
Proof.
  induction d as [|[k n] d IH]; simpl.
  - destruct (decide (key = t)); lia.
  - destruct (decide (k = key)) as [->|Hne]; simpl.
    + destruct (decide (key = t)); lia.
    + destruct (decide (k = t)) as [->|Hkt]; [|exact IH].
      rewrite decide_False by done. lia.
Qed.

Lemma increment_total (key : EventType) (d : list (EventType * Z)) :
  total_count (increment key d) = total_count d + 1.
Proof.
  unfold total_count. induction d as [|[k n] d IH]; simpl; [lia|].
  destruct (decide (k = key)); simpl; lia.
Qed.

Lemma increment_keys (key : EventType) (d : list (EventType * Z)) :
  NoDup d.*1 -> NoDup (increment key d).*1
  /\ forall k, k ∈ (increment key d).*1 <-> k = key \/ k ∈ d.*1.
Proof.
  induction d as [|[k n] d IH]; simpl.
  - intros _. split; [repeat constructor; by intros ?%elem_of_nil|].
    intros k. rewrite list_elem_of_singleton, elem_of_nil. tauto.
  - intros [Hout Hnd]%NoDup_cons. destruct (IH Hnd) as [IH1 IH2].
    destruct (decide (k = key)) as [->|Hne]; simpl.
    + split; [by apply NoDup_cons|]. intros k'. rewrite elem_of_cons. tauto.
    + split.
      * apply NoDup_cons. split; [|exact IH1]. rewrite IH2. tauto.
      * intros k'. rewrite !elem_of_cons, IH2. tauto.
Qed.

(** *** Hours and days *)

Lemma hour_of_range (t : datetime) : 0 <= hour_of t <= 23.
Proof.
  unfold hour_of, usec_per_day, usec_per_hour. Z.div_mod_to_equations. lia.
Qed.

Lemma weekday_bounds (t : datetime) : 0 <= weekday t <= 6.
Proof. unfold weekday. pose proof (Z.mod_pos_bound (date_of t) 7). lia. Qed.

Lemma fold_left_pointwise {A B} (f g : A -> B -> A) :
  (forall a b, f a b = g a b) ->
  forall l a, fold_left f l a = fold_left g l a.
Proof.
  intros Hfg l. induction l as [|b l IH]; intros a; simpl; [done|].
  by rewrite Hfg, IH.
Qed.

Lemma mapM_cons_unfold {A B} (f : A -> option B) (x : A) (l : list A) :
  mapM f (x :: l) = y ← f x; k ← mapM f l; Some (y :: k).
Proof. reflexivity. Qed.

Section Loop.

Variable lower : string -> string.
Variable total_seconds : timedelta -> float.
Variable extract_tags : Event -> list string.
Variable classify_with_llm : Event -> option EventType * float.
Variable settings_use_llm : bool.
Variable zone_info : string -> bool.
Variable start_aware : Event -> bool.
Variable end_aware : Event -> bool.

#[local] Abbreviation attributes :=
  (calculate_attributes total_seconds extract_tags start_aware end_aware).
#[local] Abbreviation step :=
  (enrich_step lower total_seconds extract_tags classify_with_llm
               settings_use_llm start_aware end_aware).
#[local] Abbreviation loop :=
  (enrich_loop lower total_seconds extract_tags classify_with_llm
               settings_use_llm start_aware end_aware).
#[local] Abbreviation enrich :=
  (compute_enrich lower total_seconds extract_tags classify_with_llm
                  settings_use_llm zone_info start_aware end_aware).

(** Start and end are both naive or both aware, so that their difference
    is defined. *)
Definition subtractable (event : Event) : Prop :=
  start_aware event = end_aware event.

(** The outcome of the classification of one event: by the model when
    both switches are on, by the rules otherwise. *)
Definition classification (use_llm : bool) (event : Event)
    : option EventType * float :=
  if use_llm && settings_use_llm then classify_with_llm event
  else (Some (classify_with_rules lower event).1,
        (classify_with_rules lower event).2).

Definition final_type (o : option EventType * float) : EventType :=
  default OTHER o.1.

Definition final_confidence (o : option EventType * float) : float :=
  match o.1 with Some _ => o.2 | None => 0%float end.

(** The event as [EnrichedEvent(...)] copies it. *)
Definition copied (event : Event) : Event :=
  mkEvent (ev_calendar event) (ev_start event) (ev_end event)
          (ev_summary event) (ev_description event) (ev_attendees event)
          false false.

(** The record the loop appends for one event. *)
Definition record_of (use_llm : bool) (event : Event)
    : option (EnrichedEvent * EnrichAttributes) :=
  enrich_attrs ← attributes event
                   (final_confidence (classification use_llm event));
  Some (mkEnriched (copied event)
                   (final_type (classification use_llm event))
                   (determine_priority lower event),
        enrich_attrs).

(** The statistics after one event. *)
Definition stats_after (use_llm : bool) (stats : EnrichStats)
    (event : Event) : EnrichStats :=
  let o := classification use_llm event in
  mkStats (total_events stats)
          (classified_by_rules stats
           + if use_llm && settings_use_llm then 0
             else if decide (final_type o = OTHER) then 0 else 1)
          (classified_by_llm stats
           + if use_llm && settings_use_llm
             then match o.1 with Some _ => 1 | None => 0 end
             else 0)
          (classification_failures stats
           + match o.1 with Some _ => 0 | None => 1 end)
          (increment (final_type o) (event_types stats)).

Lemma stats_eta (s : EnrichStats) :
  mkStats (total_events s) (classified_by_rules s) (classified_by_llm s)
          (classification_failures s) (event_types s) = s.
Proof. by destruct s. Qed.

Lemma enrich_step_record (use_llm : bool)
    (enriched : list (EnrichedEvent * EnrichAttributes))
    (stats : EnrichStats) (event : Event) :
  step use_llm (enriched, stats) event
  = r ← record_of use_llm event;
    Some (enriched ++ [r], stats_after use_llm stats event).
Proof.
  unfold enrich_step, record_of, stats_after, classification,
    final_type, final_confidence, copied.
  destruct (use_llm && settings_use_llm).
  - destruct (classify_with_llm event) as [[t|] c]; cbn [fst snd default];
      destruct (attributes event _); simpl; rewrite ?Z.add_0_r; reflexivity.
  - destruct (classify_with_rules lower event) as [t c].
    cbn [fst snd default]. simpl.
    destruct (decide (t = OTHER)); destruct (attributes event c); simpl;
      rewrite ?Z.add_0_r; reflexivity.
Qed.

Lemma enrich_loop_records (use_llm : bool) (events : list Event)
    (enriched : list (EnrichedEvent * EnrichAttributes))
    (stats : EnrichStats) :
  loop use_llm events (enriched, stats)
  = records ← mapM (record_of use_llm) events;
    Some (enriched ++ records,
          fold_left (stats_after use_llm) events stats).
Proof.
  revert enriched stats. induction events as [|event events IH];
    intros enriched stats; cbn [enrich_loop].
  - simpl. by rewrite app_nil_r.
  - rewrite enrich_step_record. rewrite mapM_cons_unfold.
    destruct (record_of use_llm event) as [r|]; simpl; [|reflexivity].
    rewrite IH. destruct (mapM (record_of use_llm) events); simpl;
      [|reflexivity].
    by rewrite <- app_assoc.
Qed.

(** The number of events that satisfy a test. *)
Definition count (p : Event -> bool) (events : list Event) : Z :=
  Z.of_nat (length (List.filter p events)).

Lemma count_cons (p : Event -> bool) (event : Event) (events : list Event) :
  count p (event :: events) = (if p event then 1 else 0) + count p events.
Proof. unfold count. simpl. destruct (p event); simpl; lia. Qed.

Lemma fold_stats (use_llm : bool) (events : list Event)
    (stats : EnrichStats) :
  NoDup (event_types stats).*1 ->
  total_events (fold_left (stats_after use_llm) events stats)
    = total_events stats
  /\ classified_by_rules (fold_left (stats_after use_llm) events stats)
     = classified_by_rules stats
       + (if use_llm && settings_use_llm then 0
          else count (fun e =>
                        negb (bool_decide
                                (final_type (classification use_llm e)
                                 = OTHER)))
                     events)
  /\ classified_by_llm (fold_left (stats_after use_llm) events stats)
     = classified_by_llm stats
       + (if use_llm && settings_use_llm
          then count (fun e =>
                        bool_decide
                          (is_Some (classification use_llm e).1)) events
          else 0)
  /\ classification_failures (fold_left (stats_after use_llm) events stats)
     = classification_failures stats
       + count (fun e => bool_decide ((classification use_llm e).1 = None))
               events
  /\ total_count (event_types (fold_left (stats_after use_llm) events stats))
     = total_count (event_types stats) + Z.of_nat (length events)
  /\ NoDup (event_types (fold_left (stats_after use_llm) events stats)).*1
  /\ forall t,
       count_of t (event_types (fold_left (stats_after use_llm) events stats))
       = count_of t (event_types stats)
         + count (fun e =>
                    bool_decide (final_type (classification use_llm e) = t))
                 events.
Proof.
  revert stats. induction events as [|event events IH]; intros stats Hnd.
  - unfold count. simpl. destruct (use_llm && settings_use_llm);
      repeat split; try lia; try done; intros; lia.
  - cbn [fold_left].
    destruct (IH (stats_after use_llm stats event))
      as (H1 & H2 & H3 & H4 & H5 & H6 & H7).
    { simpl. by apply increment_keys. }
    rewrite H1, H2, H3, H4, H5. rewrite !count_cons.
    cbn [stats_after total_events classified_by_rules classified_by_llm
         classification_failures event_types].
    rewrite increment_total.
    split; [reflexivity|]. split; [|split; [|split; [|split; [|split]]]].
    + destruct (use_llm && settings_use_llm); [lia|].
      destruct (decide (final_type (classification use_llm event) = OTHER))
        as [Heq|Hne].
      * rewrite bool_decide_true by done. simpl. lia.
      * rewrite bool_decide_false by done. simpl. lia.
    + destruct (use_llm && settings_use_llm); [|lia].
      destruct ((classification use_llm event).1) as [t|].
      * rewrite bool_decide_true by (by eexists). lia.
      * rewrite bool_decide_false by (by intros [? ?]). lia.
    + destruct ((classification use_llm event).1) as [t|].
      * rewrite bool_decide_false by done. lia.
      * rewrite bool_decide_true by done. lia.
    + simpl length. lia.
    + exact H6.
    + intros t. rewrite H7, count_cons.
      cbn [stats_after event_types]. rewrite increment_count.
      destruct (decide (final_type (classification use_llm event) = t))
        as [Heq|Hne].
      * rewrite bool_decide_true by done. lia.
      * rewrite bool_decide_false by done. lia.
Qed.

Lemma attributes_Some (event : Event) (confidence : float)
    (attrs : EnrichAttributes) :
  attributes event confidence = Some attrs ->
  subtractable event
  /\ FloatOrder.in_unit confidence = true
  /\ attrs
     = mkAttributes
         (PyFloat.trunc
            (total_seconds (ev_end event - ev_start event) / 60)%float)
         (weekday (ev_start event) + 1) (hour_of (ev_start event))
         ((9 <=? hour_of (ev_start event))
          && (hour_of (ev_start event) <? 18)
          && (weekday (ev_start event) + 1 <=? 5))
         (5 <? weekday (ev_start event) + 1) (extract_tags event) confidence.
Proof.
  unfold calculate_attributes, FloatOrder.in_unit, subtractable.
  destruct (Bool.eqb (start_aware event) (end_aware event)) eqn:Haware;
    [|discriminate].
  apply Bool.eqb_prop in Haware.
  destruct ((0 <=? confidence) && (confidence <=? 1))%float; [|discriminate].
  intros [= <-]. by split.
Qed.

Lemma attributes_valid (event : Event) (confidence : float) :
  subtractable event ->
  FloatOrder.in_unit confidence = true ->
  is_Some (attributes event confidence).
Proof.
  unfold calculate_attributes, FloatOrder.in_unit, subtractable.
  intros -> ->. rewrite Bool.eqb_reflx. by eexists.
Qed.

(** What every appended record holds, whatever the classifier. *)
Definition record_ok (use_llm : bool) (event : Event)
    (r : EnrichedEvent * EnrichAttributes) : Prop :=
  en_event r.1 = copied event
  /\ en_event_type r.1 = final_type (classification use_llm event)
  /\ category_confidence r.2
     = final_confidence (classification use_llm event)
  /\ FloatOrder.in_unit (category_confidence r.2) = true
  /\ en_priority_type r.1 = determine_priority lower event
  /\ day_of_week r.2 = weekday (ev_start event) + 1
  /\ 1 <= day_of_week r.2 <= 7
  /\ hour_of_day r.2 = hour_of (ev_start event)
  /\ 0 <= hour_of_day r.2 <= 23
  /\ (is_weekend r.2 = true <-> 6 <= day_of_week r.2)
  /\ (is_working_hours r.2 = true
      <-> 9 <= hour_of_day r.2 < 18 /\ day_of_week r.2 <= 5)
  /\ tags r.2 = extract_tags event.

Lemma record_of_ok (use_llm : bool) (event : Event)
    (r : EnrichedEvent * EnrichAttributes) :
  record_of use_llm event = Some r -> record_ok use_llm event r.
Proof.
  unfold record_of.
  destruct (attributes event _) as [attrs|] eqn:Hattrs; [|discriminate].
  simpl. intros [= <-]. apply attributes_Some in Hattrs as (_ & Hunit & ->).
  pose proof (hour_of_range (ev_start event)).
  pose proof (weekday_bounds (ev_start event)).
  unfold record_ok. cbn [fst snd en_event en_event_type en_priority_type
    category_confidence day_of_week hour_of_day is_weekend is_working_hours
    tags].
  rewrite !andb_true_iff, !Z.leb_le, !Z.ltb_lt.
  repeat split; try done; lia.
Qed.

Lemma enrich_unfold (tz : string) (use_llm : bool) (events : list Event) :
  enrich tz events use_llm
  = if zone_info tz then
      records ← mapM (record_of use_llm) events;
      Some (records,
            fold_left (stats_after use_llm) events
                      (mkStats (Z.of_nat (length events)) 0 0 0 []))
    else None.
Proof. unfold compute_enrich. by rewrite enrich_loop_records. Qed.

(** The loop raises at no event exactly when every event has a defined
    duration and a confidence the model accepts. *)
Lemma records_Some (use_llm : bool) (events : list Event) :
  is_Some (mapM (record_of use_llm) events)
  <-> Forall (fun event =>
                subtractable event
                /\ FloatOrder.in_unit
                     (final_confidence (classification use_llm event))
                   = true)
             events.
Proof.
  split.
  - intros [records Hrecords]. apply mapM_Some_1 in Hrecords.
    apply Forall_forall. intros event Hin.
    apply list_elem_of_lookup in Hin as [i Hi].
    destruct (Forall2_lookup_l _ _ _ _ _ Hrecords Hi) as (r & _ & Hr).
    unfold record_of in Hr.
    destruct (attributes event _) as [attrs|] eqn:Hattrs; [|discriminate].
    apply attributes_Some in Hattrs as (Hsub & Hunit & _). by split.
  - intros Hall. apply mapM_is_Some_2.
    eapply Forall_impl; [exact Hall|]. intros event [Hsub Hunit].
    unfold compose, record_of.
    destruct (attributes_valid event _ Hsub Hunit) as [attrs ->].
    by eexists.
Qed.

(** Enrichment by the rules ([use_llm] off) raises exactly when
    [ZoneInfo] does not know the zone name of the request or an event has
    one of its start and end naive and the other aware.  When it
    returns, there is one record for every event, in order, with the
    event's calendar, start, end, summary, description and attendees, the
    category and the confidence of [_classify_with_rules] (a confidence
    in [0, 1]), the priority of [_determine_priority], a day of the week
    from 1 to 7, an hour from 0 to 23, the weekend flag exactly on days 6
    and 7 and the working-hours flag exactly from 09:00 to 17:59 on days
    1 to 5.  The statistics count every event once: no failure and no
    model classification, the rule count is the number of events not
    classed "прочее", and the per-category counts have distinct keys,
    match the records and add up to the number of events.  With
    [settings.use_llm] off, asking for the model gives the same. *)
Theorem rule_enrichment_keeps_events_and_counts (tz : string)
    (events : list Event) :
  (is_Some (enrich tz events false)
   <-> zone_info tz = true
       /\ Forall (fun e => start_aware e = end_aware e) events)
  /\ (forall records stats,
        enrich tz events false = Some (records, stats) ->
        Forall2 (fun event r =>
                   record_ok false event r
                   /\ en_event_type r.1 = (classify_with_rules lower event).1
                   /\ category_confidence r.2
                      = (classify_with_rules lower event).2)
                events records
        /\ total_events stats = Z.of_nat (length events)
        /\ classified_by_llm stats = 0
        /\ classification_failures stats = 0
        /\ classified_by_rules stats
           = count (fun e =>
                      negb (bool_decide
                              ((classify_with_rules lower e).1 = OTHER)))
                   events
        /\ total_count (event_types stats) = Z.of_nat (length events)
        /\ NoDup (event_types stats).*1
        /\ (forall t,
              count_of t (event_types stats)
              = count (fun e =>
                         bool_decide ((classify_with_rules lower e).1 = t))
                      events))
  /\ (settings_use_llm = false ->
      enrich tz events true = enrich tz events false).
Proof.
  split; [|split].
  - rewrite enrich_unfold. destruct (zone_info tz).
    + assert (Hiff : is_Some (mapM (record_of false) events)
                     <-> Forall (fun e => start_aware e = end_aware e) events).
      { rewrite records_Some. split; intros Hall.
        - eapply Forall_impl; [exact Hall|]. by intros e [Hsub _].
        - eapply Forall_impl; [exact Hall|]. intros e Hsub.
          split; [exact Hsub|].
          unfold classification, final_confidence. cbn [andb fst snd].
          apply ClassifierFacts.classify_with_rules_unit. }
      rewrite <- Hiff.
      destruct (mapM (record_of false) events) as [records|]; simpl.
      * split; [intros _; split; [done|by eexists]|by eexists].
      * split; [by intros [? ?]|]. intros [_ [? ?]]. discriminate.
    + split; [by intros [? ?]|]. by intros [? _].
  - intros records stats. rewrite enrich_unfold.
    destruct (zone_info tz); [|discriminate].
    destruct (mapM (record_of false) events) as [records'|] eqn:Hrecords;
      [|discriminate].
    simpl. intros [= <- <-].
    destruct (fold_stats false events
                (mkStats (Z.of_nat (length events)) 0 0 0 []))
      as (H1 & H2 & H3 & H4 & H5 & H6 & H7); [constructor|].
    cbn [andb] in H2, H3.
    split; [|split; [|split; [|split; [|split]]]].
    + apply mapM_Some_1 in Hrecords.
      eapply Forall2_impl; [exact Hrecords|].
      intros event r Hr. apply record_of_ok in Hr.
      split; [exact Hr|]. destruct Hr as (_ & Ht & Hc & _).
      split; [exact Ht|exact Hc].
    + exact H1.
    + rewrite H3. simpl. lia.
    + rewrite H4. simpl. unfold count.
      replace (List.filter _ events) with (@nil Event); [simpl; lia|].
      symmetry. apply ImporterFacts.filter_none, Forall_forall.
      intros event _. reflexivity.
    + rewrite H2. cbn [classified_by_rules]. rewrite Z.add_0_l. reflexivity.
    + split; [rewrite H5; simpl; lia|]. split; [exact H6|].
      intros t. rewrite H7. cbn [event_types count_of].
      rewrite Z.add_0_l. reflexivity.
  - intros Hoff. rewrite !enrich_unfold.
    assert (Hrec : forall event, record_of true event = record_of false event)
      by (intros event; unfold record_of, classification;
          by rewrite Hoff).
    assert (Hstat : forall s event,
              stats_after true s event = stats_after false s event)
      by (intros s event; unfold stats_after, classification;
          by rewrite Hoff).
    rewrite (mapM_ext _ _ _ Hrec).
    assert (Hfold :
              fold_left (stats_after true) events
                        (mkStats (Z.of_nat (length events)) 0 0 0 [])
              = fold_left (stats_after false) events
                          (mkStats (Z.of_nat (length events)) 0 0 0 []))
      by (by apply fold_left_pointwise).
    by rewrite Hfold.
Qed.

End Loop.

Lemma count_partition (p q : Event -> bool) (events : list Event) :
  (forall e, p e = negb (q e)) ->
  count p events + count q events = Z.of_nat (length events).
Proof.
  intros Hpq. induction events as [|event events IH].
  - reflexivity.
  - rewrite !count_cons, (Hpq event). simpl length.
    destruct (q event); simpl; lia.
Qed.

(** With both switches on, enrichment raises exactly when [ZoneInfo]
    does not know the zone name of the request, an event has one of its
    start and end naive and the other aware, or the model names a
    category with a confidence outside [0, 1]: the confidence is passed
    on as it is.  When it returns, every event has its record, in order,
    with the model's category and confidence, or "прочее" and 0.0 where
    the model named none; the rules classify nothing; and every event is
    counted as classified by the model or as a failure. *)
Theorem llm_enrichment_passes_confidence_on
    (lower : string -> string) (total_seconds : timedelta -> float)
    (extract_tags : Event -> list string)
    (classify_with_llm : Event -> option EventType * float)
    (zone_info : string -> bool) (start_aware end_aware : Event -> bool)
    (tz : string) (events : list Event) :
  (is_Some (compute_enrich lower total_seconds extract_tags
                           classify_with_llm true zone_info start_aware
                           end_aware tz events true)
   <-> zone_info tz = true
       /\ Forall (fun e =>
                    start_aware e = end_aware e
                    /\ ((classify_with_llm e).1 = None
                        \/ FloatOrder.in_unit (classify_with_llm e).2 = true))
                 events)
  /\ forall records stats,
       compute_enrich lower total_seconds extract_tags classify_with_llm
                      true zone_info start_aware end_aware tz events true
       = Some (records, stats) ->
       Forall2 (fun event r =>
                  en_event r.1 = copied event
                  /\ en_event_type r.1
                     = default OTHER (classify_with_llm event).1
                  /\ category_confidence r.2
                     = match (classify_with_llm event).1 with
                       | Some _ => (classify_with_llm event).2
                       | None => 0%float
                       end)
               events records
       /\ classified_by_rules stats = 0
       /\ classified_by_llm stats
          = count (fun e => bool_decide (is_Some (classify_with_llm e).1))
                  events
       /\ classification_failures stats
          = count (fun e => bool_decide ((classify_with_llm e).1 = None))
                  events
       /\ classified_by_llm stats + classification_failures stats
          = Z.of_nat (length events)
       /\ total_count (event_types stats) = Z.of_nat (length events).
Proof.
  rewrite enrich_unfold. split.
  - destruct (zone_info tz); [|split; [by intros [? ?]|by intros [? _]]].
    assert (Hiff : is_Some (mapM (record_of lower total_seconds extract_tags
                                            classify_with_llm true
                                            start_aware end_aware true)
                                 events)
                   <-> Forall (fun e =>
                         start_aware e = end_aware e
                         /\ ((classify_with_llm e).1 = None
                             \/ FloatOrder.in_unit (classify_with_llm e).2
                                = true))
                       events).
    { rewrite records_Some. split; intros Hall.
      - eapply Forall_impl; [exact Hall|]. intros e [Hsub Hunit].
        split; [exact Hsub|].
        unfold classification, final_confidence in Hunit.
        cbn [andb] in Hunit.
        destruct ((classify_with_llm e).1); [by right|by left].
      - eapply Forall_impl; [exact Hall|]. intros e [Hsub Hok].
        split; [exact Hsub|].
        unfold classification, final_confidence. cbn [andb].
        destruct ((classify_with_llm e).1) as [t|] eqn:Ht; [|reflexivity].
        destruct Hok as [Hnone|Hunit]; [congruence|exact Hunit]. }
    rewrite <- Hiff.
    destruct (mapM _ events) as [records|]; simpl.
    + split; [intros _; split; [done|by eexists]|by eexists].
    + split; [by intros [? ?]|]. intros [_ [? ?]]. discriminate.
  - intros records stats.
    destruct (zone_info tz); [|discriminate].
    destruct (mapM _ events) as [records'|] eqn:Hrecords; [|discriminate].
    simpl. intros [= <- <-].
    destruct (fold_stats lower classify_with_llm true true events
                (mkStats (Z.of_nat (length events)) 0 0 0 []))
      as (H1 & H2 & H3 & H4 & H5 & H6 & H7); [constructor|].
    cbn [andb] in H2, H3.
    split; [|split; [|split; [|split; [|split]]]].
    + apply mapM_Some_1 in Hrecords.
      eapply Forall2_impl; [exact Hrecords|].
      intros event r Hr. apply record_of_ok in Hr.
      destruct Hr as (He & Ht & Hc & _). by repeat split.
    + rewrite H2. simpl. lia.
    + rewrite H3. cbn [classified_by_llm]. rewrite Z.add_0_l. reflexivity.
    + rewrite H4. cbn [classification_failures]. rewrite Z.add_0_l.
      reflexivity.
    + rewrite H3, H4. cbn [classified_by_llm classification_failures].
      rewrite !Z.add_0_l. apply count_partition.
      intros e. unfold classification. cbn [andb].
      by destruct ((classify_with_llm e).1).
    + rewrite H5. simpl. lia.
Qed.

End EnrichFacts.

Module WindowFacts.
Import Clock Schemas Analyzer.

Section Windows.

Variable stdev : list float -> float.

Lemma calculate_time_window_sample_size (events : list EnrichedEvent) :
  tw_sample_size (calculate_time_window stdev events) = length events.
Proof.
  unfold calculate_time_window. destruct events as [|e events]; [done|].
  by destruct (3 <=? _)%nat.
Qed.

Lemma calculate_time_window_confidence (events : list EnrichedEvent) :
  FloatOrder.in_unit (tw_confidence (calculate_time_window stdev events))
  = true.
Proof.
  unfold calculate_time_window. destruct events as [|e events]; [done|].
  destruct (3 <=? _)%nat; [|reflexivity].
  apply FloatOrder.clamp_in_unit.
Qed.

(** Every event belongs to exactly one category. *)
Lemma events_of_type_partition (events : list EnrichedEvent) :
  sum_list ((fun t => length (events_of_type t events)) <$> all_event_types)
  = length events.
Proof.
  induction events as [|e events IH]; [reflexivity|].
  unfold events_of_type, all_event_types in *. cbn [fmap list_fmap] in *.
  rewrite !filter_cons.
  destruct (en_event_type e); simpl in *; lia.
Qed.

(** The habit profile holds one window for every category, in the order
    of the categories; every confidence lies between 0 and 1, whatever
    [statistics.stdev] returns (a NaN included), so no window fails the
    validation of [TimeWindow]; the sample sizes are the numbers of
    events of the categories and add up to the number of events; and with
    [min_sample_size <= 0] a category without events gets the window
    09:00-17:00, not the default window of the category. *)
Theorem analyze_time_windows_valid (events : list EnrichedEvent)
    (min_sample_size : Z) :
  (analyze_time_windows stdev events min_sample_size).*1 = all_event_types
  /\ Forall (fun kv : EventType * TimeWindow =>
               FloatOrder.in_unit (tw_confidence kv.2) = true
               /\ tw_sample_size kv.2 = length (events_of_type kv.1 events))
            (analyze_time_windows stdev events min_sample_size)
  /\ sum_list ((fun kv : EventType * TimeWindow => tw_sample_size kv.2)
               <$> analyze_time_windows stdev events min_sample_size)
     = length events
  /\ (min_sample_size <= 0 ->
      forall t, events_of_type t events = [] ->
                window_of (analyze_time_windows stdev events min_sample_size)
                          t
                = Some (mkWindow "09:00" "17:00" 0 0)).
Proof.
  assert (Hall : Forall (fun kv : EventType * TimeWindow =>
               FloatOrder.in_unit (tw_confidence kv.2) = true
               /\ tw_sample_size kv.2 = length (events_of_type kv.1 events))
            (analyze_time_windows stdev events min_sample_size)).
  { unfold analyze_time_windows. apply Forall_fmap, Forall_forall.
    intros t _. cbn [fst snd compose].
    destruct (min_sample_size <=? _).
    - split; [apply calculate_time_window_confidence
             |apply calculate_time_window_sample_size].
    - split; reflexivity. }
  split; [|split; [exact Hall|split]].
  - unfold analyze_time_windows. rewrite <- list_fmap_compose.
    rewrite <- (list_fmap_id all_event_types) at 2.
    by apply list_fmap_ext.
  - rewrite <- (events_of_type_partition events).
    unfold analyze_time_windows. rewrite <- list_fmap_compose. f_equal.
    apply list_fmap_ext. intros _ t _. cbn [compose fst snd].
    destruct (min_sample_size <=? _);
      [apply calculate_time_window_sample_size|reflexivity].
  - intros Hmin t Hnone. rewrite AnalyzerFacts.window_of_analyze.
    rewrite Hnone. simpl length.
    replace (min_sample_size <=? Z.of_nat 0) with true
      by (symmetry; apply Z.leb_le; lia).
    reflexivity.
Qed.

End Windows.

End WindowFacts.

Module FlowKeyFacts.
Import Clock Schemas Importer Cache.

(** The flow cache key does not tell an unbounded import
    ([days_limit = None]) from an import of the current week
    ([days_limit = 0]), nor an absent [horizon_days] from 0, whatever the
    other parameters, the input and the hash functions are; yet the
    analysis windows of the two imports differ at every clock reading. *)
Theorem flow_key_merges_unbounded_and_current_week
    (sha256_hexdigest : string -> string) (json_dumps : json -> string)
    (g : Globals) (ics : string) (tz : option string) (expand use_llm : bool)
    (horizon limit : option Z) (now : datetime) :
  compute_cache_key sha256_hexdigest json_dumps g ics
    (mkFlowParams tz expand horizon None use_llm)
  = compute_cache_key sha256_hexdigest json_dumps g ics
      (mkFlowParams tz expand horizon (Some 0) use_llm)
  /\ compute_cache_key sha256_hexdigest json_dumps g ics
       (mkFlowParams tz expand None limit use_llm)
     = compute_cache_key sha256_hexdigest json_dumps g ics
         (mkFlowParams tz expand (Some 0) limit use_llm)
  /\ import_window now None <> import_window now (Some 0)
  /\ (import_window now (Some 0)).2 - (import_window now (Some 0)).1
     = days 7.
Proof.
  split; [reflexivity|]. split; [reflexivity|]. split.
  - unfold import_window, datetime_min, datetime_max, combine, days,
      usec_per_day.
    intros [= H1 H2]. lia.
  - unfold import_window, combine, days, usec_per_day. simpl. lia.
Qed.

End FlowKeyFacts.
